(** * LinkedIn data formatter: normalisation, classification, identity
      resolution and dual-sink persistence

    A shallow embedding of the Python pipeline:
    - [linkedin_data_fetcher.py]: [format_date], the structuring half of
      [fetch_linkedin_data], [get_existing_profiles], [batch_process_excel];
    - [leadership_detector.py]: [is_leadership_role];
    - [fortune500.py]: [normalize_company_name], [is_fortune_500];
    - [entrepreneur_detector.py]: [is_entrepreneur];
    - [db_utils.py]: [get_max_profile_id], [profile_exists],
      [insert_single_profile] over the declared table schemas;
    - [excel_writer.py]: [write_to_excel].

    Python dictionaries are association lists (insertion order is kept, as
    in Python, and it fixes the column order of a data frame).  Strings are
    [string]s of 8-bit characters: case mapping and white space follow
    Python on the ASCII range.  A Python exception is [None] in an [option]
    result, or an explicit outcome where the caller has no handler. *)

From Stdlib Require Import ZArith String Ascii List Bool Lia DecimalString.
From stdpp Require Import base option list strings list_numbers.
Import ListNotations.

Open Scope string_scope.
Open Scope Z_scope.

(** ** Python string builtins *)

Module Py.

(** [c.isupper()] for a single ASCII character. *)
Definition is_upper (c : ascii) : bool :=
  let n := nat_of_ascii c in (65 <=? n)%nat && (n <=? 90)%nat.

Definition lower_char (c : ascii) : ascii :=
  if is_upper c then ascii_of_nat (nat_of_ascii c + 32) else c.

(** [s.lower()] *)
Fixpoint lower (s : string) : string :=
  match s with
  | EmptyString => EmptyString
  | String c r => String (lower_char c) (lower r)
  end.

(** [c.isspace()]: TAB, LF, VT, FF, CR, the separators 0x1c-0x1f, space. *)
Definition is_space (c : ascii) : bool :=
  let n := nat_of_ascii c in
  ((9 <=? n)%nat && (n <=? 13)%nat) || ((28 <=? n)%nat && (n <=? 32)%nat).

Definition is_empty (s : string) : bool :=
  match s with EmptyString => true | String _ _ => false end.

Fixpoint lstrip (s : string) : string :=
  match s with
  | EmptyString => EmptyString
  | String c r => if is_space c then lstrip r else s
  end.

Fixpoint rstrip (s : string) : string :=
  match s with
  | EmptyString => EmptyString
  | String c r =>
      let r' := rstrip r in
      if is_space c && is_empty r' then EmptyString else String c r'
  end.

(** [s.strip()] *)
Definition strip (s : string) : string := lstrip (rstrip s).

(** [s.split()] with no separator: maximal runs of non-space characters. *)
Fixpoint split_go (cur : option string) (s : string) : list string :=
  match s with
  | EmptyString => match cur with Some w => [w] | None => [] end
  | String c r =>
      if is_space c
      then match cur with
           | Some w => w :: split_go None r
           | None => split_go None r
           end
      else split_go (Some (match cur with
                           | Some w => w ++ String c EmptyString
                           | None => String c EmptyString
                           end)) r
  end.

Definition split (s : string) : list string := split_go None s.

(** [sub in s] on strings. *)
Fixpoint contains (sub s : string) : bool :=
  String.prefix sub s ||
  match s with
  | EmptyString => false
  | String _ r => contains sub r
  end.

(** [s.replace(old, '')]: every non-overlapping occurrence of [old], found
    left to right, is dropped; [skip] counts the characters of the
    occurrence being dropped.  An empty [old] leaves [s] as it is. *)
Fixpoint remove_go (old : string) (skip : nat) (s : string) : string :=
  match s with
  | EmptyString => EmptyString
  | String c r =>
      match skip with
      | S k => remove_go old k r
      | O => if String.prefix old s
             then remove_go old (String.length old - 1) r
             else String c (remove_go old 0 r)
      end
  end.

Definition remove (old s : string) : string :=
  if is_empty old then s else remove_go old 0 s.

Fixpoint zeros (n : nat) : string :=
  match n with O => EmptyString | S k => String "0" (zeros k) end.

(** [s.zfill(width)]: zeros go after a leading sign. *)
Definition zfill (width : nat) (s : string) : string :=
  let pad := (width - String.length s)%nat in
  match s with
  | String c r =>
      if (Ascii.eqb c "+" || Ascii.eqb c "-")%bool
      then String c (zeros pad ++ r)
      else zeros pad ++ s
  | EmptyString => zeros pad
  end.

(** [sep.join(l)] on a list of strings. *)
Definition join (sep : string) (l : list string) : string := String.concat sep l.

(** [str(z)] for an integer. *)
Definition str_of_Z (z : Z) : string := NilZero.string_of_int (Z.to_int z).

Fixpoint chars (s : string) : list string :=
  match s with
  | EmptyString => []
  | String c r => String c EmptyString :: chars r
  end.

(** JSON-shaped Python values (the provider's numbers are integers). *)
#[warnings="-register-all"]
Inductive pyval : Type :=
| PNone
| PBool (b : bool)
| PInt (z : Z)
| PStr (s : string)
| PList (l : list pyval)
| PDict (d : list (string * pyval)).

Definition dict : Type := list (string * pyval).

(** Truth value of an object, as tested by [if x], [not x] and [x or y]. *)
Definition truthy (v : pyval) : bool :=
  match v with
  | PNone => false
  | PBool b => b
  | PInt z => negb (z =? 0)
  | PStr s => negb (is_empty s)
  | PList l => match l with [] => false | _ => true end
  | PDict d => match d with [] => false | _ => true end
  end.

(** [x or y] *)
Definition py_or (x y : pyval) : pyval := if truthy x then x else y.

(** [d.get(k)] *)
Fixpoint lookup_key (d : dict) (k : string) : option pyval :=
  match d with
  | [] => None
  | (k', v) :: r => if String.eqb k' k then Some v else lookup_key r k
  end.

(** [d.get(k, default)] *)
Definition get (d : dict) (k : string) (default : pyval) : pyval :=
  match lookup_key d k with Some v => v | None => default end.

(** [d.get(k)], which is [None] for a missing key. *)
Definition get_none (d : dict) (k : string) : pyval := get d k PNone.

(** [d[k] = v]: an existing key keeps its position. *)
Fixpoint set (d : dict) (k : string) (v : pyval) : dict :=
  match d with
  | [] => [(k, v)]
  | (k', v') :: r => if String.eqb k' k then (k, v) :: r else (k', v') :: set r k v
  end.

(** The elements a [for] loop or [join] sees: a list's items, a string's
    characters, a dictionary's keys; other objects are not iterable. *)
Definition iter (v : pyval) : option (list pyval) :=
  match v with
  | PList l => Some l
  | PStr s => Some (map PStr (chars s))
  | PDict d => Some (map (fun kv => PStr (fst kv)) d)
  | _ => None
  end.

(** The receiver of a [.get] call must be a dictionary. *)
Definition as_dict (v : pyval) : option dict :=
  match v with PDict d => Some d | _ => None end.

Definition as_str (v : pyval) : option string :=
  match v with PStr s => Some s | _ => None end.

(** All elements of a list are strings ([join] raises otherwise). *)
Fixpoint all_str (l : list pyval) : option (list string) :=
  match l with
  | [] => Some []
  | v :: r =>
      match as_str v, all_str r with
      | Some s, Some ss => Some (s :: ss)
      | _, _ => None
      end
  end.

(** [[f(x) for x in l]] where [f] may raise. *)
Fixpoint map_opt {A B : Type} (f : A -> option B) (l : list A) : option (list B) :=
  match l with
  | [] => Some []
  | x :: r =>
      match f x with
      | None => None
      | Some y => match map_opt f r with
                  | None => None
                  | Some ys => Some (y :: ys)
                  end
      end
  end.

End Py.

Import Py.

Section Pipeline.

(** ** Collaborators outside the repository *)

(** [str(x)] of a list or dictionary is Python's [repr]. *)
Variable container_repr : pyval -> string.
(** [fuzzywuzzy.fuzz.ratio], a score between 0 and 100. *)
Variable fuzz_ratio : string -> string -> Z.
(** [fuzzywuzzy.process.extract(query, choices, limit)]. *)
Variable process_extract : string -> list string -> nat -> list (string * Z).
(** The [companies] array of [fortune500_data.json]; [None] when the file
    cannot be read. *)
Variable fortune500_data : option (list string).

(** [str(x)] *)
Definition py_str (v : pyval) : string :=
  match v with
  | PNone => "None"
  | PBool true => "True"
  | PBool false => "False"
  | PInt z => str_of_Z z
  | PStr s => s
  | PList _ | PDict _ => container_repr v
  end.

(** ** linkedin_data_fetcher.py: normalisation *)

(** [format_date(date_dict)]; [None] is the [AttributeError] of calling
    [.get] on a non-empty object that is not a dictionary. *)
Definition format_date (date_dict : pyval) : option string :=
  if negb (truthy date_dict) then Some "Present"
  else
    d ← as_dict date_dict;
    let month := zfill 2 (py_str (get d "month" (PStr ""))) in
    let year := py_str (get d "year" (PStr "")) in
    Some (if negb (is_empty month) && negb (is_empty year)
          then month ++ "/" ++ year
          else "N/A").

(** One iteration of the education loop of [fetch_linkedin_data]. *)
Definition normalize_education (edu : pyval) : option pyval :=
  e ← as_dict edu;
  start_date ← format_date (get_none e "starts_at");
  end_date ← format_date (get_none e "ends_at");
  Some (PDict [("institution_name", get e "school" (PStr ""));
               ("degree", get e "degree_name" (PStr ""));
               ("field_of_study", get e "field_of_study" (PStr ""));
               ("start_date", PStr start_date);
               ("end_date", PStr end_date)]).

(** [str(d.get(k) or '')] *)
Definition str_or_empty (d : dict) (k : string) : string :=
  py_str (py_or (get_none d k) (PStr "")).

(** One iteration of the experience loop of [fetch_linkedin_data]. *)
Definition normalize_experience (exp : pyval) : option pyval :=
  e ← as_dict exp;
  start_date ← format_date (get_none e "starts_at");
  end_date ← format_date (get_none e "ends_at");
  Some (PDict [("title", PStr (str_or_empty e "title"));
               ("company", PStr (str_or_empty e "company"));
               ("location", PStr (str_or_empty e "location"));
               ("description", PStr (str_or_empty e "description"));
               ("start_date", PStr start_date);
               ("end_date", PStr end_date)]).

(** The Normalizer: the body of [fetch_linkedin_data] that turns the
    provider's JSON [data] into [result].  Any exception is caught by the
    function's handlers, which return [None]. *)
Definition normalize (data : pyval) : option pyval :=
  d ← as_dict data;
  skills ← iter (get d "skills" (PList [])) ≫= all_str;
  educations ← iter (get d "education" (PList [])) ≫= map_opt normalize_education;
  experiences ← iter (get d "experiences" (PList [])) ≫= map_opt normalize_experience;
  Some (PDict [("full_name", get d "full_name" (PStr "Unknown Name"));
               ("public_identifier", get d "public_identifier" (PStr ""));
               ("profile_pic_url", get d "profile_pic_url" (PStr ""));
               ("headline", get d "headline" (PStr ""));
               ("summary", get d "summary" (PStr ""));
               ("country", get d "country_full_name" (PStr ""));
               ("city", get d "city" (PStr ""));
               ("email", get d "personal_email" (PStr ""));
               ("contact_number", get d "personal_contact_number" (PStr ""));
               ("github", get d "github_profile_id" (PStr ""));
               ("twitter", get d "twitter_profile_id" (PStr ""));
               ("facebook", get d "facebook_profile_id" (PStr ""));
               ("skills", PStr (join ", " skills));
               ("connections", get d "connections" (PInt 0));
               ("languages", get d "languages" (PList []));
               ("follower_count", get d "follower_count" (PInt 0));
               ("industry", get d "industry" (PStr ""));
               ("certifications", get d "certifications" (PList []));
               ("educations", PList educations);
               ("experiences", PList experiences)]).

(** [extract_profile_url_from_search]: only a direct profile URL is kept. *)
Definition extract_profile_url_from_search (search_url : string) : option string :=
  if contains "/in/" search_url then Some search_url else None.

(** [fetch_linkedin_data(linkedin_url)], given the provider's answer to the
    request ([None]: the request failed or the body was not JSON). *)
Definition fetch_linkedin_data (linkedin_url : string) (response : option pyval)
  : option pyval :=
  _ ← extract_profile_url_from_search linkedin_url;
  data ← response;
  normalize data.

(** ** leadership_detector.py *)

Definition exact_keywords : list string :=
  ["executive"; "exec"; "director"; "manager"; "lead"; "head";
   "chief"; "ceo"; "cfo"; "cto"; "coo"; "vp"; "president"; "chair";
   "supervisor"; "founder"].

Definition fuzzy_keywords : list string :=
  ["department head";
   "executive director"; "managing director"; "senior manager";
   "vice president"; "general manager"; "regional manager"].

(** [''.join([' ' + c if c.isupper() and i > 0 else c
              for i, c in enumerate(title)])] *)
Fixpoint space_before_capitals (i : nat) (title : string) : string :=
  match title with
  | EmptyString => EmptyString
  | String c r =>
      (if is_upper c && (0 <? i)%nat
       then String " " (String c EmptyString)
       else String c EmptyString) ++ space_before_capitals (S i) r
  end.

(** The token set examined for exact keywords, from the stored title:
    lower-cased first, then spaced before capitals, stripped and split. *)
Definition title_words (stored_title : string) : list string :=
  let title := lower stored_title in
  let title := strip (space_before_capitals 0 title) in
  split title.

(** [experiences[0]]: the subscript raises on anything but a non-empty
    list whose first element is then used as a dictionary. *)
Definition latest_experience (experiences : pyval) : option dict :=
  match experiences with
  | PList (e :: _) => as_dict e
  | _ => None
  end.

(** [is_leadership_role(profile_data, similarity_threshold)]; [None] is an
    uncaught exception. *)
Definition is_leadership_role (profile_data : dict) (similarity_threshold : Z)
  : option bool :=
  let experiences := get profile_data "experiences" (PList []) in
  if negb (truthy experiences) then Some false
  else
    latest_exp ← latest_experience experiences;
    stored ← as_str (get latest_exp "title" (PStr ""));
    let title := strip (space_before_capitals 0 (lower stored)) in
    let words := split title in
    if existsb (fun keyword => existsb (String.eqb keyword) words) exact_keywords
    then Some true
    else
      let matches := process_extract title fuzzy_keywords 3 in
      Some (existsb (fun m => similarity_threshold <=? snd m) matches).

(** ** fortune500.py *)

(** [load_fortune500_companies()]: the names, lower-cased. *)
Definition load_fortune500_companies : option (list string) :=
  map lower <$> fortune500_data.

Definition COMPANY_VARIATIONS : list (string * string) :=
  [("google", "alphabet");
   ("google inc", "alphabet");
   ("google llc", "alphabet");
   ("youtube", "alphabet");
   ("waymo", "alphabet");
   ("deepmind", "alphabet");
   ("calico", "alphabet");
   ("verily", "alphabet");
   ("meta", "meta platforms");
   ("facebook", "meta platforms");
   ("instagram", "meta platforms");
   ("whatsapp", "meta platforms");
   ("oculus", "meta platforms");
   ("microsoft corporation", "microsoft");
   ("apple inc", "apple");
   ("amazon.com", "amazon")].

Fixpoint variation (name : string) (table : list (string * string)) : option string :=
  match table with
  | [] => None
  | (k, v) :: r => if String.eqb k name then Some v else variation name r
  end.

Definition suffixes : list string :=
  [" inc"; " corp"; " corporation"; " ltd"; " llc";
   " company"; " co"; ".com"; " group"; " plc";
   " holdings"; " holding"; " technologies"; " technology"].

(** [normalize_company_name(name)] on a string; [None] is the [IndexError]
    of [name.split()[0]] on a name made of white space only. *)
Definition normalize_company_name (name : string) : option string :=
  if is_empty name then Some ""
  else
    let name := strip (lower name) in
    match variation name COMPANY_VARIATIONS with
    | Some parent => Some parent
    | None =>
        name_simple ← head (split name);
        match variation name_simple COMPANY_VARIATIONS with
        | Some parent => Some parent
        | None => Some (strip (fold_left (fun n suffix => remove suffix n) suffixes name))
        end
    end.

(** The body of the [try] block of [is_fortune_500]; [None] is an exception
    raised inside it. *)
Definition fortune_500_match (company_name : pyval) : option bool :=
  companies ← load_fortune500_companies;
  name ← as_str company_name;
  normalized_name ← normalize_company_name name;
  if existsb (String.eqb normalized_name) companies then Some true
  else Some (existsb (fun fortune_company =>
                        contains normalized_name fortune_company
                        || contains fortune_company normalized_name
                        || (85 <? fuzz_ratio normalized_name fortune_company))
                     companies).

(** [is_fortune_500(profile_data)]; [None] is an exception raised before the
    [try] block, the handler of the block returns [False]. *)
Definition is_fortune_500 (profile_data : dict) : option bool :=
  let experiences := get profile_data "experiences" (PList []) in
  if negb (truthy experiences) then Some false
  else
    latest_exp ← latest_experience experiences;
    let company_name := get latest_exp "company" (PStr "") in
    if negb (truthy company_name) then Some false
    else Some (default false (fortune_500_match company_name)).

(** ** entrepreneur_detector.py *)

Definition entrepreneur_keywords : list string :=
  ["founder"; "co-founder"; "cofounder"; "owner";
   "entrepreneur"; "startup"; "start-up"; "serial entrepreneur";
   "business owner"].

(** [is_entrepreneur(profile_data)]; [None] is an uncaught exception. *)
Definition is_entrepreneur (profile_data : dict) : option bool :=
  let experiences := get profile_data "experiences" (PList []) in
  if negb (truthy experiences) then Some false
  else
    latest_exp ← latest_experience experiences;
    title ← lower <$> as_str (get latest_exp "title" (PStr ""));
    if existsb (fun keyword => contains keyword title) entrepreneur_keywords
    then Some true
    else
      company ← lower <$> as_str (get latest_exp "company" (PStr ""));
      full_name ← lower <$> as_str (get profile_data "full_name" (PStr ""));
      Some (negb (is_empty full_name) && contains full_name company).

(** ** db_utils.py: the relational store *)

(** Column types of the declared tables. *)
Inductive coltype : Type :=
| ColInteger
| ColString (n : nat)
| ColText
| ColBoolean.

(** The tables, without the surrogate [id] key that the store fills in. *)
Definition Profile_columns : list (string * coltype) :=
  [("profile_id", ColInteger); ("profile_url", ColString 255);
   ("profile_pic_url", ColString 1000); ("full_name", ColString 255);
   ("headline", ColText); ("summary", ColText);
   ("country", ColString 100); ("city", ColString 100);
   ("email", ColString 255); ("contact_number", ColString 50);
   ("github", ColString 255); ("twitter", ColString 255);
   ("facebook", ColString 255); ("skills", ColText);
   ("connections", ColInteger); ("languages", ColString 255);
   ("follower_count", ColInteger); ("industry", ColString 255);
   ("fortune_500", ColBoolean); ("entrepreneur", ColBoolean);
   ("leadership_role", ColBoolean)].

Definition Education_columns : list (string * coltype) :=
  [("profile_id", ColInteger); ("institution_name", ColString 255);
   ("degree", ColString 255); ("field_of_study", ColString 255);
   ("start_date", ColString 50); ("end_date", ColString 50)].

Definition Experience_columns : list (string * coltype) :=
  [("profile_id", ColInteger); ("title", ColString 255);
   ("company", ColString 255); ("location", ColString 255);
   ("description", ColText);
   ("start_date", ColString 50); ("end_date", ColString 50)].

Definition ClubExperience_columns : list (string * coltype) :=
  [("profile_id", ColInteger); ("club_name", ColString 255);
   ("role", ColString 255); ("description", ColText);
   ("start_date", ColString 50); ("end_date", ColString 50);
   ("location", ColString 255); ("position", ColString 100)].

Definition Certification_columns : list (string * coltype) :=
  [("profile_id", ColInteger); ("name", ColString 255);
   ("issuing_organization", ColString 255);
   ("issue_date", ColString 50); ("expiration_date", ColString 50);
   ("credential_id", ColString 255); ("credential_url", ColString 255)].

(** The committed content of the five tables, rows in insertion order. *)
Record store : Type := Store {
  profiles : list dict;
  educations : list dict;
  experiences : list dict;
  club_experiences : list dict;
  certifications : list dict
}.

Definition empty_store : store := Store [] [] [] [] [].

(** The rows a session has added and not yet committed. *)
Definition pending : Type := store.

Definition row_id (r : dict) : option Z :=
  match get_none r "profile_id" with PInt z => Some z | _ => None end.

(** A string bound to a [String(n)] column must fit in [n] characters
    (PostgreSQL raises a [DataError] otherwise). *)
Definition row_fits (columns : list (string * coltype)) (r : dict) : bool :=
  forallb (fun ct => match snd ct, get_none r (fst ct) with
                     | ColString n, PStr s => (String.length s <=? n)%nat
                     | _, _ => true
                     end) columns.

(** [profile_id] is [nullable=False]. *)
Definition has_profile_id (r : dict) : bool :=
  match row_id r with Some _ => true | None => false end.

(** [Profile.profile_id] is [unique=True]. *)
Fixpoint ids_unique (taken : list Z) (rows : list dict) : bool :=
  match rows with
  | [] => true
  | r :: rest =>
      match row_id r with
      | Some z => negb (existsb (Z.eqb z) taken) && ids_unique (z :: taken) rest
      | None => false
      end
  end.

Definition constraints_hold (db : store) (p : pending) : bool :=
  ids_unique (omap row_id (profiles db)) (profiles p)
  && forallb (row_fits Profile_columns) (profiles p)
  && forallb (fun r => has_profile_id r && row_fits Education_columns r) (educations p)
  && forallb (fun r => has_profile_id r && row_fits Experience_columns r) (experiences p)
  && forallb (fun r => has_profile_id r && row_fits ClubExperience_columns r)
       (club_experiences p)
  && forallb (fun r => has_profile_id r && row_fits Certification_columns r)
       (certifications p).

(** [session.commit()]: the pending rows are flushed in one transaction.
    [None] is an [SQLAlchemyError]: the store did not answer
    ([reachable = false]) or a declared constraint rejects a row; nothing
    of the pending rows is then stored. *)
Definition commit (reachable : bool) (db : store) (p : pending) : option store :=
  if reachable && constraints_hold db p
  then Some (Store (profiles db ++ profiles p)
                   (educations db ++ educations p)
                   (experiences db ++ experiences p)
                   (club_experiences db ++ club_experiences p)
                   (certifications db ++ certifications p))
  else None.

(** [get_max_profile_id()]; [query_ok = false] is an [SQLAlchemyError]
    raised by the query, which the handler answers with [0]. *)
Definition get_max_profile_id (query_ok : bool) (db : store) : Z :=
  if query_ok
  then match omap row_id (profiles db) with
       | [] => 0
       | z :: zs => fold_left Z.max zs z
       end
  else 0.

(** [Profile.profile_url == url] *)
Definition url_matches (url : pyval) (r : dict) : bool :=
  match get_none r "profile_url", url with
  | PStr a, PStr b => String.eqb a b
  | PNone, PNone => true
  | _, _ => false
  end.

(** [profile_exists(profile_url)]: the [profile_id] of the first match,
    [None] when there is none or when the query raises. *)
Definition profile_exists (query_ok : bool) (db : store) (profile_url : string) : pyval :=
  if query_ok
  then match find (url_matches (PStr profile_url)) (profiles db) with
       | Some existing_profile => get_none existing_profile "profile_id"
       | None => PNone
       end
  else PNone.

(** [bool(d.get(k, 0))] *)
Definition flag (d : dict) (k : string) : pyval := PBool (truthy (get d k (PInt 0))).

(** [str(d.get(k, ''))] *)
Definition str_get (d : dict) (k : string) : pyval := PStr (py_str (get d k (PStr ""))).

Definition Profile_row (profile_data : dict) : dict :=
  [("profile_id", get_none profile_data "profile_id");
   ("profile_url", get_none profile_data "profile_url");
   ("profile_pic_url", get_none profile_data "profile_pic_url");
   ("full_name", get_none profile_data "full_name");
   ("headline", get_none profile_data "headline");
   ("summary", get_none profile_data "summary");
   ("country", get_none profile_data "country");
   ("city", get_none profile_data "city");
   ("email", get_none profile_data "email");
   ("contact_number", get_none profile_data "contact_number");
   ("github", get_none profile_data "github");
   ("twitter", get_none profile_data "twitter");
   ("facebook", get_none profile_data "facebook");
   ("skills", get_none profile_data "skills");
   ("connections", get_none profile_data "connections");
   ("languages", get_none profile_data "languages");
   ("follower_count", get_none profile_data "follower_count");
   ("industry", get_none profile_data "industry");
   ("fortune_500", flag profile_data "fortune_500");
   ("entrepreneur", flag profile_data "entrepreneur");
   ("leadership_role", flag profile_data "leadership_role")].

Definition Education_row (profile_data edu : dict) : dict :=
  [("profile_id", get_none profile_data "profile_id");
   ("institution_name", str_get edu "institution_name");
   ("degree", str_get edu "degree");
   ("field_of_study", str_get edu "field_of_study");
   ("start_date", str_get edu "start_date");
   ("end_date", str_get edu "end_date")].

Definition Experience_row (profile_data exp : dict) : dict :=
  [("profile_id", get_none profile_data "profile_id");
   ("title", str_get exp "title");
   ("company", str_get exp "company");
   ("location", str_get exp "location");
   ("description", str_get exp "description");
   ("start_date", str_get exp "start_date");
   ("end_date", str_get exp "end_date")].

Definition ClubExperience_row (profile_data club_exp : dict) : dict :=
  [("profile_id", get_none profile_data "profile_id");
   ("club_name", str_get club_exp "club_name");
   ("role", str_get club_exp "role");
   ("description", str_get club_exp "description");
   ("start_date", str_get club_exp "start_date");
   ("end_date", str_get club_exp "end_date");
   ("location", str_get club_exp "location");
   ("position", str_get club_exp "position")].

Definition Certification_row (profile_data cert : dict) : dict :=
  [("profile_id", get_none profile_data "profile_id");
   ("name", str_get cert "name");
   ("issuing_organization", str_get cert "issuing_organization");
   ("issue_date", str_get cert "issue_date");
   ("expiration_date", str_get cert "expiration_date");
   ("credential_id", str_get cert "credential_id");
   ("credential_url", str_get cert "credential_url")].

(** What the store answers during one call of [insert_single_profile]:
    whether the duplicate query, the first commit and the second commit
    reach it. *)
Record insert_env : Type := InsertEnv {
  query_reached : bool;
  commit_reached : bool;
  certs_commit_reached : bool
}.

(** [insert_single_profile(...)]: the store afterwards and the returned
    flag.  The profile and its educations, experiences and club experiences
    are committed first; the certifications are added and committed after
    that.  The handler rolls back what is pending when a commit raises. *)
Definition insert_single_profile (env : insert_env) (db : store)
    (profile_data : dict)
    (educations_data experiences_data club_experiences_data certifications_data : list dict)
  : store * bool :=
  if negb (query_reached env) then (db, false)
  else
    match find (url_matches (get_none profile_data "profile_url")) (profiles db) with
    | Some _ => (db, false)
    | None =>
        let added :=
          Store [Profile_row profile_data]
                (map (Education_row profile_data) educations_data)
                (map (Experience_row profile_data) experiences_data)
                (map (ClubExperience_row profile_data) club_experiences_data)
                [] in
        match commit (commit_reached env) db added with
        | None => (db, false)
        | Some db1 =>
            let added_certs :=
              Store [] [] [] []
                    (map (Certification_row profile_data) certifications_data) in
            match commit (certs_commit_reached env) db1 added_certs with
            | None => (db1, false)
            | Some db2 => (db2, true)
            end
        end
    end.

(** ** excel_writer.py: the spreadsheet sink *)

(** A data frame: its column labels and its records (a key missing from a
    record is a NaN cell). *)
Record frame : Type := Frame {
  columns : list string;
  rows : list dict
}.

(** A workbook: its sheets by name.  The output file is an
    [option workbook], [None] when the file does not exist. *)
Definition workbook : Type := list (string * frame).

Definition union_columns (a b : list string) : list string :=
  a ++ List.filter (fun k => negb (existsb (String.eqb k) a)) b.

(** [pd.DataFrame(records)]: the columns are the keys in order of first
    appearance. *)
Definition DataFrame (records : list dict) : frame :=
  Frame (fold_left (fun cols r => union_columns cols (map fst r)) records []) records.

(** [pd.read_excel(xls, sheet)]; [None] is the error of a missing sheet. *)
Fixpoint read_excel (xls : workbook) (sheet : string) : option frame :=
  match xls with
  | [] => None
  | (n, f) :: r => if String.eqb n sheet then Some f else read_excel r sheet
  end.

(** [df.empty] *)
Definition frame_empty (df : frame) : bool :=
  match rows df, columns df with
  | [], _ | _, [] => true
  | _, _ => false
  end.

Definition has_column (df : frame) (c : string) : bool :=
  existsb (String.eqb c) (columns df).

(** Equality of two scalar cells. *)
Definition cell_eqb (a b : pyval) : bool :=
  match a, b with
  | PNone, PNone => true
  | PBool x, PBool y => Bool.eqb x y
  | PInt x, PInt y => x =? y
  | PStr x, PStr y => String.eqb x y
  | _, _ => false
  end.

(** [value in values] *)
Definition isin (values : list pyval) (value : pyval) : bool :=
  existsb (cell_eqb value) values.

(** [df[c]]: the cells of a column. *)
Definition column (df : frame) (c : string) : list pyval :=
  map (fun r => get_none r c) (rows df).

(** [pd.concat([a, b], ignore_index=True)] *)
Definition concat (a b : frame) : frame :=
  Frame (union_columns (columns a) (columns b)) (rows a ++ rows b).

(** The five frames of the [append_mode] branch; [None] is an exception
    reaching the outer handler of [write_to_excel]. *)
Definition merge_with_existing (xls : workbook)
    (new_profiles_df new_educations_df new_experiences_df
     new_club_experiences_df new_certifications_df : frame)
  : option (list (string * frame)) :=
  existing_profiles ← read_excel xls "Profiles";
  existing_educations ← read_excel xls "Educations";
  existing_experiences ← read_excel xls "Experiences";
  let existing_club_experiences :=
    default (DataFrame []) (read_excel xls "Club Experiences") in
  let existing_certifications :=
    default (DataFrame []) (read_excel xls "Certifications") in
  existing_profiles ←
    (if negb (frame_empty new_profiles_df) && has_column new_profiles_df "profile_url"
     then
       if has_column existing_profiles "profile_url"
       then Some (Frame (columns existing_profiles)
                    (List.filter
                       (fun r => negb (isin (column new_profiles_df "profile_url")
                                            (get_none r "profile_url")))
                       (rows existing_profiles)))
       else None
     else Some existing_profiles);
  Some [("Profiles", concat existing_profiles new_profiles_df);
        ("Educations", concat existing_educations new_educations_df);
        ("Experiences", concat existing_experiences new_experiences_df);
        ("Club Experiences", concat existing_club_experiences new_club_experiences_df);
        ("Certifications", concat existing_certifications new_certifications_df)].

(** [write_to_excel(...)] on the output file [file]: the workbook that
    replaces the file, or [None] when the handler logs a failure and
    returns [None], the file being left as it was. *)
Definition write_to_excel (file : option workbook)
    (profiles_rows educations_rows experiences_rows
     club_experiences_rows certifications_rows : list dict)
    (append_mode : bool) : option workbook :=
  let new_profiles_df := DataFrame profiles_rows in
  let new_educations_df := DataFrame educations_rows in
  let new_experiences_df := DataFrame experiences_rows in
  let new_club_experiences_df := DataFrame club_experiences_rows in
  let new_certifications_df := DataFrame certifications_rows in
  match file with
  | Some xls =>
      if append_mode
      then merge_with_existing xls new_profiles_df new_educations_df
             new_experiences_df new_club_experiences_df new_certifications_df
      else Some [("Profiles", new_profiles_df);
                 ("Educations", new_educations_df);
                 ("Experiences", new_experiences_df);
                 ("Club Experiences", new_club_experiences_df);
                 ("Certifications", new_certifications_df)]
  | None =>
      Some [("Profiles", new_profiles_df);
            ("Educations", new_educations_df);
            ("Experiences", new_experiences_df);
            ("Club Experiences", new_club_experiences_df);
            ("Certifications", new_certifications_df)]
  end.

(** ** linkedin_data_fetcher.py: the batch *)

(** [get_existing_profiles(output_file)]: the non-NaN cells of the
    [profile_url] column of the [Profiles] sheet, empty on any error. *)
Definition get_existing_profiles (file : option workbook) : list pyval :=
  match file ≫= (fun xls => read_excel xls "Profiles") with
  | Some df =>
      if has_column df "profile_url"
      then List.filter (fun v => negb (cell_eqb v PNone)) (column df "profile_url")
      else []
  | None => []
  end.

(** One row of the input sheet, as [process_excel_file] builds it. *)
Record profile_meta : Type := ProfileMeta {
  url : string;
  name : pyval;
  batch : pyval;
  program : pyval;
  gender : pyval;
  graduation_year : pyval;
  admission_year : pyval
}.

(** What the collaborators answer while one profile is processed: whether
    the duplicate query of [profile_exists] reaches the store, the
    provider's JSON answer ([None]: request failed), and the store's
    behaviour during [insert_single_profile]. *)
Record responses : Type := Responses {
  exists_reached : bool;
  response : option pyval;
  insert_reached : insert_env
}.

Definition club_keywords : list string :=
  ["club"; "society"; "association"; "committee"; "chapter"].

(** [is_club] of the experience loop. *)
Definition is_club (experience : dict) : bool :=
  let company_lower := lower (str_or_empty experience "company") in
  let title_lower := lower (str_or_empty experience "title") in
  existsb (fun keyword => contains keyword company_lower || contains keyword title_lower)
          club_keywords.

Definition club_exp (current_profile_id : Z) (experience : dict) : dict :=
  [("profile_id", PInt current_profile_id);
   ("club_name", PStr (str_or_empty experience "company"));
   ("role", PStr (str_or_empty experience "title"));
   ("description", PStr (str_or_empty experience "description"));
   ("start_date", PStr (str_or_empty experience "start_date"));
   ("end_date", PStr (str_or_empty experience "end_date"));
   ("location", PStr (str_or_empty experience "location"));
   ("position", PStr "")].

Definition cert_data (current_profile_id : Z) (certification : pyval) : option dict :=
  c ← as_dict certification;
  issue_date ← format_date (get_none c "issue_date");
  expiration_date ← format_date (get_none c "expiration_date");
  Some [("profile_id", PInt current_profile_id);
        ("name", get c "name" (PStr ""));
        ("issuing_organization", get c "issuing_organization" (PStr ""));
        ("issue_date", PStr issue_date);
        ("expiration_date", PStr expiration_date);
        ("credential_id", get c "credential_id" (PStr ""));
        ("credential_url", get c "credential_url" (PStr ""))].

(** What the loop body has ready when it calls [insert_single_profile]. *)
Record prepared : Type := Prepared {
  prepared_profile : dict;
  current_educations : list dict;
  current_experiences : list dict;
  current_club_experiences : list dict;
  current_certifications : list dict
}.

(** The loop body between the id assignment and the insert: identity and
    input-sheet fields, the three flags, and the child rows.  [None] is an
    exception, which nothing in [batch_process_excel] catches.  The
    education and experience dictionaries are the very objects held by
    [profile_data], so their new [profile_id] shows there too. *)
Definition prepare_profile (profile_data : dict) (meta : profile_meta)
    (current_profile_id : Z) : option prepared :=
  let profile_data := set profile_data "profile_id" (PInt current_profile_id) in
  let profile_data := set profile_data "profile_url" (PStr (url meta)) in
  let profile_data := set profile_data "admission_year" (admission_year meta) in
  let profile_data := set profile_data "graduation_year" (graduation_year meta) in
  let profile_data := set profile_data "program" (program meta) in
  let profile_data := set profile_data "gender" (gender meta) in
  let profile_data := set profile_data "batch" (batch meta) in
  leadership ← is_leadership_role profile_data 65;
  let profile_data := set profile_data "leadership_role" (PBool leadership) in
  fortune ← is_fortune_500 profile_data;
  let profile_data := set profile_data "fortune_500" (PBool fortune) in
  entrepreneur ← is_entrepreneur profile_data;
  let profile_data := set profile_data "entrepreneur" (PBool entrepreneur) in
  edus ← iter (get profile_data "educations" (PList [])) ≫= map_opt as_dict;
  let edus := map (fun education => set education "profile_id" (PInt current_profile_id)) edus in
  exps ← iter (get profile_data "experiences" (PList [])) ≫= map_opt as_dict;
  let exps := map (fun experience => set experience "profile_id" (PInt current_profile_id)) exps in
  certs ← iter (get profile_data "certifications" (PList [])) ≫= map_opt (cert_data current_profile_id);
  let profile_data :=
    if existsb (String.eqb "educations") (map fst profile_data)
    then set profile_data "educations" (PList (map PDict edus)) else profile_data in
  let profile_data :=
    if existsb (String.eqb "experiences") (map fst profile_data)
    then set profile_data "experiences" (PList (map PDict exps)) else profile_data in
  Some (Prepared profile_data edus
          (List.filter (fun e => negb (is_club e)) exps)
          (map (club_exp current_profile_id) (List.filter is_club exps))
          certs).

(** The variables of [batch_process_excel] that the loop updates, with the
    store. *)
Record batch_state : Type := BatchState {
  db : store;
  max_profile_id : Z;
  profiles_data : list dict;
  educations_data : list dict;
  experiences_data : list dict;
  club_experiences_data : list dict;
  certifications_data : list dict
}.

(** How one iteration of the loop ends. *)
Inductive outcome : Type :=
| Duplicate (existing_id : pyval)
| FetchFailed
| Saved (profile_id : Z)
| SaveFailed (profile_id : Z)
| Raised (profile_id : Z).

(** One iteration of the [for profile_meta in new_profiles] loop. *)
Definition process_profile (st : batch_state) (meta : profile_meta) (r : responses)
  : batch_state * outcome :=
  let existing_id := profile_exists (exists_reached r) (db st) (url meta) in
  if truthy existing_id then (st, Duplicate existing_id)
  else
    match fetch_linkedin_data (url meta) (response r) ≫= as_dict with
    | None => (st, FetchFailed)
    | Some profile_data =>
        let max_id := max_profile_id st + 1 in
        let current_profile_id := max_id in
        match prepare_profile profile_data meta current_profile_id with
        | None =>
            (BatchState (db st) max_id (profiles_data st) (educations_data st)
               (experiences_data st) (club_experiences_data st)
               (certifications_data st),
             Raised current_profile_id)
        | Some p =>
            let '(db', saved) :=
              insert_single_profile (insert_reached r) (db st) (prepared_profile p)
                (current_educations p) (current_experiences p)
                (current_club_experiences p) (current_certifications p) in
            if saved
            then (BatchState db' max_id
                    (profiles_data st ++ [prepared_profile p])
                    (educations_data st ++ current_educations p)
                    (experiences_data st ++ current_experiences p)
                    (club_experiences_data st ++ current_club_experiences p)
                    (certifications_data st ++ current_certifications p),
                  Saved current_profile_id)
            else (BatchState db' max_id (profiles_data st) (educations_data st)
                    (experiences_data st) (club_experiences_data st)
                    (certifications_data st),
                  SaveFailed current_profile_id)
        end
    end.

(** The loop: the state when it ends and the outcome of every iteration
    that ran; an iteration that raises ends the loop. *)
Fixpoint process_profiles (st : batch_state) (new_profiles : list (profile_meta * responses))
  : batch_state * list outcome :=
  match new_profiles with
  | [] => (st, [])
  | (meta, r) :: rest =>
      let '(st', o) := process_profile st meta r in
      match o with
      | Raised _ => (st', [o])
      | _ => let '(st'', os) := process_profiles st' rest in (st'', o :: os)
      end
  end.

Definition raised (o : outcome) : bool :=
  match o with Raised _ => true | _ => false end.

(** The identifier an iteration assigned to its profile, if it did. *)
Definition assigned_id (o : outcome) : option Z :=
  match o with
  | Saved i | SaveFailed i | Raised i => Some i
  | Duplicate _ | FetchFailed => None
  end.

(** What a call of [batch_process_excel] leaves: the store, the returned
    tuple ([None] when an exception leaves the function) and the outcome
    of each iteration. *)
Record batch_result : Type := BatchResult {
  final_db : store;
  returned : option (list (list dict));
  outcomes : list outcome
}.

(** [batch_process_excel(file_path, limit, output_file)] from the list that
    [process_excel_file] returns, each entry with the collaborators'
    answers for it.  [connect_ok] tells whether [DatabaseManager()] can be
    constructed and [max_id_query_ok] whether the query of
    [get_max_profile_id] reaches the store. *)
Definition batch_process_excel (profiles_list : list (profile_meta * responses))
    (limit : option Z) (output_file : option workbook)
    (connect_ok max_id_query_ok : bool) (store0 : store) : batch_result :=
  let nothing := BatchResult store0 (Some [[]; []; []; []]) [] in
  match profiles_list with
  | [] => nothing
  | _ =>
      let existing_profiles := get_existing_profiles output_file in
      let new_profiles :=
        List.filter (fun p => negb (isin existing_profiles (PStr (url (fst p)))))
                    profiles_list in
      match new_profiles with
      | [] => nothing
      | _ =>
          let new_profiles :=
            match limit with
            | Some n => if 0 <? n then firstn (Z.to_nat n) new_profiles else new_profiles
            | None => new_profiles
            end in
          if negb connect_ok then nothing
          else
            let max_id := get_max_profile_id max_id_query_ok store0 in
            let '(st, os) :=
              process_profiles (BatchState store0 max_id [] [] [] [] []) new_profiles in
            BatchResult (db st)
              (if existsb raised os then None
               else Some [profiles_data st; educations_data st; experiences_data st;
                          club_experiences_data st; certifications_data st])
              os
      end
  end.

(** ** linkedin_data_fetcher.py: the input sheet *)

(** [row.get(k, '')] on a row of the frame [df]: the cell when the frame
    has the column (an empty cell is NaN, here [None]), the default
    otherwise. *)
Definition row_get (df : frame) (row : dict) (k : string) : pyval :=
  if has_column df k then get_none row k else PStr "".

(** One iteration of the row loop of [process_excel_file]: [Some None] is
    a skipped row, [None] an exception ([.strip()] on a cell that is
    neither empty nor text). *)
Definition excel_row (df : frame) (row : dict) : option (option profile_meta) :=
  match get_none row "Linkedin Profile" with
  | PNone => Some None
  | PStr cell =>
      if is_empty (strip cell) then Some None
      else
        match extract_profile_url_from_search cell with
        | None => Some None
        | Some profile_url =>
            Some (Some (ProfileMeta profile_url
                          (row_get df row "Full Name")
                          (row_get df row "Batch")
                          (row_get df row "Programme")
                          (row_get df row "Gender")
                          (row_get df row "Passing Year")
                          (row_get df row "Admission Year Year")))
        end
  | _ => None
  end.

(** [process_excel_file(file_path)] on the first sheet of the file
    ([None]: the file cannot be read).  Any exception, also one raised in
    the middle of the loop, is answered with the empty list. *)
Definition process_excel_file (file : option frame) : list profile_meta :=
  match file with
  | None => []
  | Some df =>
      if has_column df "Linkedin Profile" && has_column df "Full Name"
      then match map_opt (excel_row df) (rows df) with
           | Some metas => omap id metas
           | None => []
           end
      else []
  end.

(** ** db_utils.py: the bulk upsert *)

(** [int(s)] on a string, [None] when it raises. *)
Variable int_of_str : string -> option Z.

(** [int(x)]; [None] is the [TypeError] or [ValueError] it raises. *)
Definition py_int (v : pyval) : option Z :=
  match v with
  | PInt z => Some z
  | PBool b => Some (if b then 1 else 0)
  | PStr s => int_of_str s
  | PNone | PList _ | PDict _ => None
  end.

(** The attributes that [hasattr(existing_profile, key)] finds on a
    [Profile] object for the keys of a profile dictionary: its columns and
    the surrogate [id]. *)
Definition Profile_attributes : list string :=
  "id" :: map fst Profile_columns.

Definition is_flag (k : string) : bool :=
  String.eqb k "fortune_500" || String.eqb k "entrepreneur"
  || String.eqb k "leadership_role".

(** The update branch of [insert_data]: every item of the dictionary that
    names an attribute is stored, the three flags as booleans. *)
Definition update_profile (profile : dict) (existing_profile : dict) : dict :=
  fold_left (fun row kv =>
               if is_flag (fst kv) then set row (fst kv) (flag profile (fst kv))
               else if existsb (String.eqb (fst kv)) Profile_attributes
                    then set row (fst kv) (snd kv)
                    else row)
            profile existing_profile.

(** The create branch of [insert_data]: absent fields get their default. *)
Definition new_Profile (profile : dict) : dict :=
  [("profile_id", get_none profile "profile_id");
   ("profile_url", get profile "profile_url" (PStr ""));
   ("profile_pic_url", get profile "profile_pic_url" (PStr ""));
   ("full_name", get profile "full_name" (PStr ""));
   ("headline", get profile "headline" (PStr ""));
   ("summary", get profile "summary" (PStr ""));
   ("country", get profile "country" (PStr ""));
   ("city", get profile "city" (PStr ""));
   ("email", get profile "email" (PStr ""));
   ("contact_number", get profile "contact_number" (PStr ""));
   ("github", get profile "github" (PStr ""));
   ("twitter", get profile "twitter" (PStr ""));
   ("facebook", get profile "facebook" (PStr ""));
   ("skills", get profile "skills" (PStr ""));
   ("connections", get profile "connections" (PInt 0));
   ("languages", get profile "languages" (PStr ""));
   ("follower_count", get profile "follower_count" (PInt 0));
   ("industry", get profile "industry" (PStr ""));
   ("fortune_500", flag profile "fortune_500");
   ("entrepreneur", flag profile "entrepreneur");
   ("leadership_role", flag profile "leadership_role")].

(** [filter_by(profile_id=value)] on one row. *)
Definition has_id (value : pyval) (row : dict) : bool :=
  match value, row_id row with
  | PInt z, Some z' => z =? z'
  | _, _ => false
  end.

(** One iteration of the profile loop on the working table: the first row
    with the identifier is updated where it stands, or a new row is added
    at the end.  The second component is the row written. *)
Fixpoint upsert_profile (table : list dict) (profile : dict) : list dict * dict :=
  match table with
  | [] => ([new_Profile profile], new_Profile profile)
  | row :: rest =>
      if has_id (get_none profile "profile_id") row
      then (update_profile profile row :: rest, update_profile profile row)
      else let '(rest', written) := upsert_profile rest profile in
           (row :: rest', written)
  end.

(** A written profile row is accepted by the store. *)
Definition Profile_accepted (row : dict) : bool :=
  has_profile_id row && row_fits Profile_columns row.

(** The profile loop; [None] when the store rejects a written row (the
    row is flushed by the next query of the session). *)
Fixpoint upsert_profiles (table : list dict) (profiles_data : list dict)
  : option (list dict) :=
  match profiles_data with
  | [] => Some table
  | profile :: rest =>
      let '(table', written) := upsert_profile table profile in
      if Profile_accepted written then upsert_profiles table' rest else None
  end.

(** [Table.profile_id.in_(profile_ids)] on one row. *)
Definition id_in (profile_ids : list pyval) (row : dict) : bool :=
  match row_id row with
  | Some z => existsb (cell_eqb (PInt z)) profile_ids
  | None => false
  end.

(** The child rows built by the four loops; [None] is the exception of
    [int(child.get('profile_id'))]. *)
Definition new_Education (edu : dict) : option dict :=
  pid ← py_int (get_none edu "profile_id");
  Some [("profile_id", PInt pid);
        ("institution_name", str_get edu "institution_name");
        ("degree", str_get edu "degree");
        ("field_of_study", str_get edu "field_of_study");
        ("start_date", str_get edu "start_date");
        ("end_date", str_get edu "end_date")].

Definition new_Experience (exp : dict) : option dict :=
  pid ← py_int (get_none exp "profile_id");
  Some [("profile_id", PInt pid);
        ("title", str_get exp "title");
        ("company", str_get exp "company");
        ("location", str_get exp "location");
        ("description", str_get exp "description");
        ("start_date", str_get exp "start_date");
        ("end_date", str_get exp "end_date")].

Definition new_ClubExperience (club : dict) : option dict :=
  pid ← py_int (get_none club "profile_id");
  Some [("profile_id", PInt pid);
        ("club_name", str_get club "club_name");
        ("role", str_get club "role");
        ("description", str_get club "description");
        ("start_date", str_get club "start_date");
        ("end_date", str_get club "end_date");
        ("location", str_get club "location");
        ("position", str_get club "position")].

Definition new_Certification (cert : dict) : option dict :=
  pid ← py_int (get_none cert "profile_id");
  Some [("profile_id", PInt pid);
        ("name", str_get cert "name");
        ("issuing_organization", str_get cert "issuing_organization");
        ("issue_date", str_get cert "issue_date");
        ("expiration_date", str_get cert "expiration_date");
        ("credential_id", str_get cert "credential_id");
        ("credential_url", str_get cert "credential_url")].

(** Delete the rows of the listed profiles and add the new ones. *)
Definition replace_children (profile_ids : list pyval) (table new_rows : list dict)
  : list dict :=
  (List.filter (fun row => negb (id_in profile_ids row)) table ++ new_rows)%list.

(** How a call of [insert_data] ends. *)
Inductive bulk_result : Type :=
| Answered (db1 : store) (answer : bool)
| BulkRaised.

(** [insert_data(profiles_data, educations_data, experiences_data,
    club_experiences_data, certifications_data)] in one transaction.
    [reachable] tells whether the store answers during the call; with no
    profile the session sends nothing and the commit has nothing to do.
    The rows added by one loop are flushed by the query that follows it,
    so a rejected row answers [False] before the next loop converts its
    identifiers.  [Answered db0 false] is the rollback of the handler;
    [BulkRaised] is an exception that is not an [SQLAlchemyError], the
    session being closed without a commit. *)
Definition insert_data (reachable : bool) (db0 : store)
    (profiles_rows educations_rows experiences_rows club_experiences_rows
     certifications_rows : list dict) : bulk_result :=
  match profiles_rows with
  | [] => Answered db0 true
  | _ =>
      if negb reachable then Answered db0 false
      else
        match upsert_profiles (profiles db0) profiles_rows with
        | None => Answered db0 false
        | Some profiles1 =>
            let profile_ids := map (fun p => get_none p "profile_id") profiles_rows in
            match map_opt new_Education educations_rows with
            | None => BulkRaised
            | Some edus =>
            if negb (forallb (row_fits Education_columns) edus) then Answered db0 false
            else
            match map_opt new_Experience experiences_rows with
            | None => BulkRaised
            | Some exps =>
            if negb (forallb (row_fits Experience_columns) exps) then Answered db0 false
            else
            match map_opt new_ClubExperience club_experiences_rows with
            | None => BulkRaised
            | Some clubs =>
            if negb (forallb (row_fits ClubExperience_columns) clubs)
            then Answered db0 false
            else
            match certifications_rows with
            | [] =>
                Answered (Store profiles1
                            (replace_children profile_ids (educations db0) edus)
                            (replace_children profile_ids (experiences db0) exps)
                            (replace_children profile_ids (club_experiences db0) clubs)
                            (certifications db0))
                         true
            | _ =>
                match map_opt new_Certification certifications_rows with
                | None => BulkRaised
                | Some certs =>
                    if negb (forallb (row_fits Certification_columns) certs)
                    then Answered db0 false
                    else
                      Answered (Store profiles1
                                  (replace_children profile_ids (educations db0) edus)
                                  (replace_children profile_ids (experiences db0) exps)
                                  (replace_children profile_ids (club_experiences db0)
                                     clubs)
                                  (replace_children profile_ids (certifications db0)
                                     certs))
                               true
                end
            end
            end
            end
            end
        end
  end.

(** ** Sample collaborators and inputs for the closed instances *)

Definition stub_repr (v : pyval) : string := "".
Definition stub_ratio (a b : string) : Z := 0.
Definition stub_extract (query : string) (choices : list string) (limit : nat)
  : list (string * Z) := [].

(** A provider answer with one education, one experience and one
    certification. *)
Definition sample_response (full_name title company : string) : pyval :=
  PDict [("full_name", PStr full_name);
         ("country_full_name", PStr "India");
         ("skills", PList [PStr "sql"; PStr "python"]);
         ("education",
          PList [PDict [("school", PStr "IIT Delhi");
                        ("starts_at", PDict [("day", PInt 1); ("month", PInt 8);
                                             ("year", PInt 2015)]);
                        ("ends_at", PDict [("day", PInt 30); ("month", PInt 6);
                                           ("year", PInt 2019)])]]);
         ("experiences",
          PList [PDict [("title", PStr title);
                        ("company", PStr company);
                        ("starts_at", PDict [("day", PInt 1); ("month", PInt 9);
                                             ("year", PInt 2019)])]]);
         ("certifications", PList [PDict [("name", PStr "AWS Practitioner")]])].

Definition sample_meta (u : string) : profile_meta :=
  ProfileMeta u (PStr "A. Student") (PStr "B1") (PStr "BTech") (PStr "F")
              (PInt 2019) (PInt 2015).

Definition store_reached : insert_env := InsertEnv true true true.

(** A store that already holds one profile, with identifier 7. *)
Definition store_with_profile_7 : store :=
  Store [[("profile_id", PInt 7);
          ("profile_url", PStr "https://www.linkedin.com/in/earlier");
          ("full_name", PStr "Earlier Person")]]
        [] [] [] [].

(** A credential URL of 286 characters, longer than its [String(255)]
    column. *)
Definition long_credential_url : string :=
  "https://www.credly.com/badges/" ++ string_of_list_ascii (repeat "a"%char 256).

Definition response_with_long_credential : pyval :=
  PDict [("full_name", PStr "Asha Rao");
         ("education", PList [PDict [("school", PStr "IIT Delhi")]]);
         ("experiences", PList [PDict [("title", PStr "Analyst");
                                       ("company", PStr "Initech")]]);
         ("certifications",
          PList [PDict [("name", PStr "AWS Practitioner");
                        ("credential_url", PStr long_credential_url)]])].

(** A workbook written before the two later sheets existed. *)
Definition three_sheet_workbook : workbook :=
  [("Profiles",
    Frame ["profile_id"; "profile_url"]
          [[("profile_id", PInt 1);
            ("profile_url", PStr "https://www.linkedin.com/in/earlier")]]);
   ("Educations", Frame ["profile_id"] [[("profile_id", PInt 1)]]);
   ("Experiences", Frame ["profile_id"] [[("profile_id", PInt 1)]])].

(** A workbook from which the [Educations] sheet is gone. *)
Definition workbook_without_educations : workbook :=
  [("Profiles",
    Frame ["profile_id"; "profile_url"]
          [[("profile_id", PInt 1);
            ("profile_url", PStr "https://www.linkedin.com/in/earlier")]]);
   ("Experiences", Frame ["profile_id"] [[("profile_id", PInt 1)]]);
   ("Club Experiences", Frame ["profile_id"] []);
   ("Certifications", Frame ["profile_id"] [])].

(** A normalised record with one experience, as the classifiers and
    [prepare_profile] receive it. *)
Definition sample_profile (full_name : pyval) (title company : string) : dict :=
  [("full_name", full_name);
   ("experiences",
    PList [PDict [("title", PStr title); ("company", PStr company)]])].

(** Two URLs that no store and no spreadsheet of the samples holds. *)
Definition two_new_profiles : list (profile_meta * responses) :=
  [(sample_meta "https://www.linkedin.com/in/asha",
    Responses true (Some (sample_response "Asha Rao" "Analyst" "Initech"))
              store_reached);
   (sample_meta "https://www.linkedin.com/in/bela",
    Responses true (Some (sample_response "Bela Roy" "Engineer" "Globex"))
              store_reached)].

(** A saved profile followed by one whose provider record has a null
    name. *)
Definition profiles_with_null_name : list (profile_meta * responses) :=
  [(sample_meta "https://www.linkedin.com/in/asha",
    Responses true (Some (sample_response "Asha Rao" "Analyst" "Initech"))
              store_reached);
   (sample_meta "https://www.linkedin.com/in/bela",
    Responses true (Some (PDict (sample_profile PNone "Analyst" "Initech")))
              store_reached)].

(** An input sheet: a profile URL, an empty cell, a search URL and the
    first URL again. *)
Definition input_sheet : frame :=
  Frame ["Full Name"; "Linkedin Profile"; "Batch"]
        [[("Full Name", PStr "Asha Rao");
          ("Linkedin Profile", PStr "https://www.linkedin.com/in/asha");
          ("Batch", PStr "B1")];
         [("Full Name", PStr "Bela Roy"); ("Linkedin Profile", PNone);
          ("Batch", PStr "B1")];
         [("Full Name", PStr "Chitra Das");
          ("Linkedin Profile",
           PStr "https://www.linkedin.com/search/results/all/?keywords=Chitra%20Das");
          ("Batch", PStr "B2")];
         [("Full Name", PStr "Asha Rao");
          ("Linkedin Profile", PStr "https://www.linkedin.com/in/asha");
          ("Batch", PStr "B1")]].

(** The same sheet with a number in the URL column of a fifth row. *)
Definition input_sheet_with_number : frame :=
  Frame (columns input_sheet)
        (rows input_sheet
         ++ [[("Full Name", PStr "Dev Jain"); ("Linkedin Profile", PInt 42);
              ("Batch", PStr "B2")]])%list.

(** Rows for the bulk upsert: profile 7 of [store_with_profile_7] with a
    new name, and a new profile 8, each with children. *)
Definition bulk_profiles : list dict :=
  [[("profile_id", PInt 7);
    ("profile_url", PStr "https://www.linkedin.com/in/earlier");
    ("full_name", PStr "Earlier Person, PhD");
    ("fortune_500", PInt 1);
    ("cohort", PStr "B1")];
   [("profile_id", PInt 8);
    ("profile_url", PStr "https://www.linkedin.com/in/asha");
    ("full_name", PStr "Asha Rao")]].

Definition bulk_educations : list dict :=
  [[("profile_id", PInt 7); ("institution_name", PStr "IIT Delhi")];
   [("profile_id", PInt 8); ("institution_name", PStr "IIT Bombay")]].

Definition bulk_experiences : list dict :=
  [[("profile_id", PInt 8); ("title", PStr "Analyst"); ("company", PStr "Initech")]].

(** [int] on strings is not needed by the samples. *)
Definition stub_int (s : string) : option Z := None.

(** The store of profile 7 with one education row of that profile. *)
Definition store_with_education_of_7 : store :=
  Store (profiles store_with_profile_7)
        [[("profile_id", PInt 7); ("institution_name", PStr "IIT Delhi")]]
        [] [] [].

(** ** Vocabulary of the statements *)

(** The keys that [normalize] reads and writes under the same name. *)
Definition kept_fields : list string :=
  ["full_name"; "public_identifier"; "profile_pic_url"; "headline"; "summary";
   "city"; "connections"; "languages"; "follower_count"; "industry";
   "certifications"].

(** [record.get(k)] on a value that may not be a dictionary. *)
Definition field (record : pyval) (k : string) : pyval :=
  match record with PDict d => get_none d k | _ => PNone end.

(** Title, company, location and description of every experience of a
    record. *)
Definition experience_texts (record : pyval) : list (list pyval) :=
  match field record "experiences" with
  | PList l => map (fun e => map (field e) ["title"; "company"; "location"; "description"]) l
  | _ => []
  end.



(** The rows of the store whose [profile_url] is [u]. *)
Definition persisted (db0 : store) (u : string) : list dict :=
  List.filter (url_matches (PStr u)) (profiles db0).

(** Every character of [s] is in the ASCII range, where [lower], [strip]
    and [split] above are those of Python. *)
Definition is_ascii (s : string) : bool :=
  forallb (fun c => (nat_of_ascii c <? 128)%nat) (list_ascii_of_string s).

(** Every character of [s] is white space ([s] may be empty). *)
Fixpoint all_space (s : string) : bool :=
  match s with
  | EmptyString => true
  | String c r => is_space c && all_space r
  end.

(** Every table of [db1] begins with the rows of the same table of [db0]:
    nothing stored was removed or changed. *)
Definition store_extends (db0 db1 : store) : Prop :=
  profiles db0 `prefix_of` profiles db1
  /\ educations db0 `prefix_of` educations db1
  /\ experiences db0 `prefix_of` experiences db1
  /\ club_experiences db0 `prefix_of` club_experiences db1
  /\ certifications db0 `prefix_of` certifications db1.

(** Every stored profile has an integer identifier and no two share one. *)
Definition ids_distinct (db0 : store) : Prop :=
  Forall (fun r => is_Some (row_id r)) (profiles db0)
  /\ NoDup (omap row_id (profiles db0)).

(** No URL is stored under two profiles. *)
Definition urls_distinct (db0 : store) : Prop :=
  forall u, (length (persisted db0 u) <= 1)%nat.

(** The identifier of a profile that the iteration saved. *)
Definition saved_id (o : outcome) : option Z :=
  match o with
  | Saved i => Some i
  | Duplicate _ | FetchFailed | SaveFailed _ | Raised _ => None
  end.

(** The row carries the identifier of one of the profiles [ids]. *)
Definition references (ids : list Z) (row : dict) : Prop :=
  exists i, In i ids /\ get_none row "profile_id" = PInt i.

(** The value that the update branch of [insert_data] stores for one item
    of the profile dictionary, if it stores one. *)
Definition stored_value (profile : dict) (kv : string * pyval) : option pyval :=
  if is_flag (fst kv) then Some (flag profile (fst kv))
  else if existsb (String.eqb (fst kv)) Profile_attributes then Some (snd kv)
       else None.

(** A profile dictionary as the callers build it: no key twice, no [id]
    key, an integer [profile_id]. *)
Definition profile_keys_ok (profile : dict) : Prop :=
  NoDup (map fst profile)
  /\ ~ In "id" (map fst profile)
  /\ exists z, get_none profile "profile_id" = PInt z.

(** The table holds the profile as the dictionary gives it: the first row
    with its identifier is accepted by the store and an update from the
    dictionary would leave it as it is. *)
Definition settled (table : list dict) (profile : dict) : Prop :=
  exists row,
    find (has_id (get_none profile "profile_id")) table = Some row
    /\ update_profile profile row = row
    /\ Profile_accepted row = true.

(** The child dictionary names one of the profiles [profile_ids]. *)
Definition child_of (profile_ids : list pyval) (child : dict) : Prop :=
  exists z, py_int (get_none child "profile_id") = Some z /\ In (PInt z) profile_ids.

(** ** Properties of the builtins *)

Lemma is_upper_lower_char c : is_upper (lower_char c) = false.
Proof.
  destruct c as [[|] [|] [|] [|] [|] [|] [|] [|]]; reflexivity.
Qed.

Lemma space_before_capitals_lower i s :
  space_before_capitals i (lower s) = lower s.
Proof.
  revert i. induction s as [|c s IH]; intros i; simpl; [reflexivity|].
  rewrite is_upper_lower_char. simpl. now rewrite IH.
Qed.

Lemma contains_empty s : contains "" s = true.
Proof. destruct s; reflexivity. Qed.

Lemma is_empty_false_iff s : is_empty s = false <-> s <> "".
Proof. destruct s; simpl; split; congruence. Qed.

Lemma is_empty_append_r s t : is_empty t = false -> is_empty (s ++ t) = false.
Proof. destruct s; simpl; auto. Qed.

Lemma zfill_2_not_empty s : is_empty (zfill 2 s) = false.
Proof.
  destruct s as [|c [|c' r]]; unfold zfill; simpl; try reflexivity;
    destruct (Ascii.eqb c "+" || Ascii.eqb c "-")%bool; reflexivity.
Qed.

Lemma str_of_Z_not_empty z : is_empty (str_of_Z z) = false.
Proof.
  unfold str_of_Z.
  destruct (Z.to_int z) as [d|d]; simpl; [|reflexivity].
  destruct d; reflexivity.
Qed.

Lemma lookup_key_set_eq d k v : lookup_key (set d k v) k = Some v.
Proof.
  induction d as [|[k' v'] d IH]; simpl.
  - now rewrite String.eqb_refl.
  - destruct (String.eqb k' k) eqn:E; simpl.
    + now rewrite String.eqb_refl.
    + now rewrite E.
Qed.

Lemma lookup_key_set_ne d k k' v :
  k <> k' -> lookup_key (set d k v) k' = lookup_key d k'.
Proof.
  intros Hne. induction d as [|[k0 v0] d IH]; simpl.
  - destruct (String.eqb_spec k k'); [contradiction|reflexivity].
  - destruct (String.eqb_spec k0 k) as [->|Hk]; simpl.
    + destruct (String.eqb_spec k k'); [contradiction|reflexivity].
    + destruct (String.eqb_spec k0 k'); [reflexivity|apply IH].
Qed.

Lemma get_none_set_eq d k v : get_none (set d k v) k = v.
Proof. unfold get_none, get. now rewrite lookup_key_set_eq. Qed.

Lemma get_none_set_ne d k k' v : k <> k' -> get_none (set d k v) k' = get_none d k'.
Proof. intros H. unfold get_none, get. now rewrite lookup_key_set_ne. Qed.

Lemma find_none_filter {A : Type} (f : A -> bool) (l : list A) :
  find f l = None -> List.filter f l = [].
Proof.
  induction l as [|x l IH]; simpl; [reflexivity|].
  destruct (f x); [discriminate|exact IH].
Qed.

Lemma find_app_none {A : Type} (f : A -> bool) (l : list A) (x : A) :
  find f l = None -> f x = true -> find f (l ++ [x]) = Some x.
Proof.
  induction l as [|y l IH]; simpl; intros Hn Hx.
  - now rewrite Hx.
  - destruct (f y); [discriminate|auto].
Qed.

(** ** Leadership tokens *)

(** The title is lower-cased before the capital-letter test, so that test
    never fires: the tokens are those of the lower-cased title. *)
Lemma title_words_lower stored_title :
  title_words stored_title = split (strip (lower stored_title)).
Proof. unfold title_words. now rewrite space_before_capitals_lower. Qed.

(** C9: on the title [SeniorManager] the token set examined for exact
    leadership keywords is the single token [seniormanager]; it holds
    neither [senior] nor [manager], no exact keyword matches and the answer
    is left to the phrase similarity.  For every title the capital-letter
    spacing changes nothing.  The title [Senior Manager], written with a
    space, does match the exact keyword [manager]. *)
Theorem C9_camel_case_title_is_one_token :
  title_words "SeniorManager" = ["seniormanager"]
  /\ existsb (fun keyword => existsb (String.eqb keyword) (title_words "SeniorManager"))
             exact_keywords = false
  /\ is_leadership_role
       [("experiences", PList [PDict [("title", PStr "SeniorManager")]])] 65
     = Some (existsb (fun m => 65 <=? snd m)
                     (process_extract "seniormanager" fuzzy_keywords 3))
  /\ is_leadership_role
       [("experiences", PList [PDict [("title", PStr "Senior Manager")]])] 65
     = Some true
  /\ forall stored_title i,
       space_before_capitals i (lower stored_title) = lower stored_title.
Proof.
  repeat split; try reflexivity.
  intros. apply space_before_capitals_lower.
Qed.

(** ** Fortune 500 match *)

(** C10: when the most recent experience has a non-empty company name that
    [normalize_company_name] reduces to the empty string and the reference
    set is not empty, [is_fortune_500] returns [True]. *)
Theorem C10_empty_normalized_name_matches
    (profile_data latest_exp : dict) (rest : list pyval)
    (company_name first_company : string) (other_companies : list string) :
  get profile_data "experiences" (PList []) = PList (PDict latest_exp :: rest) ->
  get latest_exp "company" (PStr "") = PStr company_name ->
  company_name <> "" ->
  normalize_company_name company_name = Some "" ->
  fortune500_data = Some (first_company :: other_companies) ->
  is_fortune_500 profile_data = Some true.
Proof.
  intros Hexp Hcompany Hne Hnorm Hdata.
  unfold is_fortune_500. rewrite Hexp. simpl. rewrite Hcompany. simpl.
  apply is_empty_false_iff in Hne. rewrite Hne. simpl.
  unfold fortune_500_match, load_fortune500_companies.
  rewrite Hdata. simpl. rewrite Hnorm. simpl.
  rewrite contains_empty. simpl.
  destruct (_ || _)%bool; reflexivity.
Qed.

(** ** Date formatting *)

Lemma zfill_2_slash_is_not_NA s year : zfill 2 s ++ "/" ++ year <> "N/A".
Proof.
  destruct s as [|c [|c' r]]; unfold zfill; cbn.
  - discriminate.
  - destruct (Ascii.eqb c "+" || Ascii.eqb c "-")%bool; cbn; intros H; inversion H.
  - rewrite Nat.sub_0_l.
    destruct (Ascii.eqb c "+" || Ascii.eqb c "-")%bool eqn:E; cbn; intros H;
      injection H as Hc Hc' Hr.
    + subst c. vm_compute in E. discriminate E.
    + destruct r as [|a [|a' r]]; cbn in Hr; discriminate Hr.
Qed.

(** C6, as the code has it: an absent date (None or an empty record),
    start or end alike, is [Present]; a record with a month and a year is
    the zero-padded month, a slash and the year; a non-empty record
    without a year is [N/A], and [N/A] is the answer for no other date
    than a non-empty record whose year is absent or prints as the empty
    string; a record with a year and no month is [00/] and the year. *)
Theorem C6_format_date_cases (date_dict : pyval) :
  (truthy date_dict = false -> format_date date_dict = Some "Present")
  /\ (forall d m y,
        date_dict = PDict d ->
        lookup_key d "month" = Some (PInt m) ->
        lookup_key d "year" = Some (PInt y) ->
        format_date date_dict = Some (zfill 2 (str_of_Z m) ++ "/" ++ str_of_Z y)
        /\ (1 <= m <= 12 -> String.length (zfill 2 (str_of_Z m)) = 2%nat))
  /\ (forall d,
        date_dict = PDict d -> d <> [] ->
        lookup_key d "year" = None ->
        format_date date_dict = Some "N/A")
  /\ (format_date date_dict = Some "N/A"
      <-> exists d, date_dict = PDict d /\ d <> []
                    /\ py_str (get d "year" (PStr "")) = "")
  /\ (forall d y,
        date_dict = PDict d ->
        lookup_key d "month" = None ->
        lookup_key d "year" = Some (PInt y) ->
        format_date date_dict = Some ("00/" ++ str_of_Z y)).
Proof.
  split; [|split; [|split; [|split]]].
  - intros H. unfold format_date. now rewrite H.
  - intros d m y -> Hm Hy. split.
    + assert (truthy (PDict d) = true) as Ht
        by (destruct d; [discriminate|reflexivity]).
      unfold format_date. rewrite Ht.
      cbn [negb as_dict mbind option_bind]. unfold get. rewrite Hm, Hy.
      cbn [py_str].
      now rewrite zfill_2_not_empty, str_of_Z_not_empty.
    + intros Hr.
      assert (m = 1 \/ m = 2 \/ m = 3 \/ m = 4 \/ m = 5 \/ m = 6 \/ m = 7
              \/ m = 8 \/ m = 9 \/ m = 10 \/ m = 11 \/ m = 12) as Hc by lia.
      repeat (destruct Hc as [->|Hc]; [reflexivity|]). now subst.
  - intros d -> Hne Hy.
    assert (truthy (PDict d) = true) as Ht
      by (destruct d; [contradiction|reflexivity]).
    unfold format_date. rewrite Ht.
    cbn [negb as_dict mbind option_bind]. unfold get at 2. rewrite Hy.
    cbn [py_str is_empty negb]. now rewrite andb_false_r.
  - split.
    + unfold format_date. destruct (truthy date_dict) eqn:Ht; [|discriminate].
      cbn [negb]. destruct date_dict as [| | | | |d]; try discriminate.
      cbn [as_dict mbind option_bind]. rewrite zfill_2_not_empty. cbn [negb andb].
      destruct (is_empty (py_str (get d "year" (PStr "")))) eqn:Hy; cbn [negb].
      * intros _. exists d. split; [reflexivity|].
        split; [now destruct d|].
        now destruct (py_str (get d "year" (PStr ""))).
      * intros [= H]. now apply zfill_2_slash_is_not_NA in H.
    + intros (d & -> & Hne & Hy).
      assert (truthy (PDict d) = true) as Ht
        by (destruct d; [contradiction|reflexivity]).
      unfold format_date. rewrite Ht.
      cbn [negb as_dict mbind option_bind]. rewrite Hy.
      cbn [is_empty negb]. now rewrite andb_false_r.
  - intros d y -> Hm Hy.
    assert (truthy (PDict d) = true) as Ht
      by (destruct d; [discriminate|reflexivity]).
    unfold format_date. rewrite Ht.
    cbn [negb as_dict mbind option_bind]. unfold get. rewrite Hm, Hy.
    cbn [py_str]. rewrite str_of_Z_not_empty. reflexivity.
Qed.

(** ** Normalisation applied twice *)

Lemma all_str_map_PStr l : all_str (map PStr l) = Some l.
Proof. induction l as [|s l IH]; simpl; [reflexivity|now rewrite IH]. Qed.

Lemma str_of_nonempty_or_empty t : py_str (py_or (PStr t) (PStr "")) = t.
Proof. destruct t; reflexivity. Qed.

(** A normalised experience is normalised again to the same texts, its
    dates being read under keys it no longer has. *)
Lemma normalize_experience_again exp e :
  normalize_experience exp = Some e ->
  exists e', normalize_experience e = Some e'
    /\ map (field e') ["title"; "company"; "location"; "description"]
       = map (field e) ["title"; "company"; "location"; "description"]
    /\ field e' "start_date" = PStr "Present"
    /\ field e' "end_date" = PStr "Present".
Proof.
  unfold normalize_experience at 1. intros H.
  destruct (as_dict exp) as [d|]; [|discriminate]. cbn [mbind option_bind] in H.
  destruct (format_date (get_none d "starts_at")) as [sd|]; [|discriminate].
  cbn [mbind option_bind] in H.
  destruct (format_date (get_none d "ends_at")) as [ed|]; [|discriminate].
  cbn [mbind option_bind] in H. injection H as <-.
  eexists. split; [|split; [|split]].
  - unfold normalize_experience. cbn. unfold str_or_empty. cbn.
    rewrite !str_of_nonempty_or_empty. reflexivity.
  - reflexivity.
  - reflexivity.
  - reflexivity.
Qed.

Lemma map_opt_normalize_experience_again l l' :
  map_opt normalize_experience l = Some l' ->
  exists l'', map_opt normalize_experience l' = Some l''
    /\ map (fun e => map (field e) ["title"; "company"; "location"; "description"]) l''
       = map (fun e => map (field e) ["title"; "company"; "location"; "description"]) l'.
Proof.
  revert l'. induction l as [|x l IH]; intros l' H; simpl in H.
  - injection H as <-. exists []. split; reflexivity.
  - destruct (normalize_experience x) as [e|] eqn:Hx; [|discriminate].
    destruct (map_opt normalize_experience l) as [r|] eqn:Hl; [|discriminate].
    injection H as <-.
    destruct (normalize_experience_again _ _ Hx) as (e' & He' & Ht & _).
    destruct (IH _ eq_refl) as (r' & Hr' & Htr).
    exists (e' :: r'). split.
    + simpl. now rewrite He', Hr'.
    + cbn [map]. cbn [map] in Ht. rewrite Ht. f_equal. exact Htr.
Qed.

(** C8, as the code has it: normalising a normalised record succeeds and
    keeps the fields stored under the key they are read from, and the
    texts of the experiences. *)
Theorem C8_normalize_twice_keeps_same_named_fields (x y : pyval) :
  normalize x = Some y ->
  exists z, normalize y = Some z
    /\ (forall k, In k kept_fields -> field z k = field y k)
    /\ experience_texts z = experience_texts y.
Proof.
  unfold normalize at 1. intros H.
  destruct (as_dict x) as [d|]; [|discriminate]. cbn [mbind option_bind] in H.
  destruct (iter (get d "skills" (PList [])) ≫= all_str) as [skills|];
    [|discriminate].
  cbn [mbind option_bind] in H.
  destruct (iter (get d "education" (PList [])) ≫= map_opt normalize_education)
    as [edus|]; [|discriminate].
  cbn [mbind option_bind] in H.
  destruct (iter (get d "experiences" (PList [])) ≫= map_opt normalize_experience)
    as [exps|] eqn:Hexps; [|discriminate].
  cbn [mbind option_bind] in H. injection H as <-.
  destruct (iter (get d "experiences" (PList []))) as [raw|]; [|discriminate].
  cbn [mbind option_bind] in Hexps.
  destruct (map_opt_normalize_experience_again _ _ Hexps) as (exps' & Hexps' & Ht).
  eexists. split; [|split].
  - unfold normalize. cbn. rewrite all_str_map_PStr. cbn.
    rewrite Hexps'. cbn. reflexivity.
  - intros k Hk. cbn in Hk.
    repeat (destruct Hk as [<-|Hk]; [reflexivity|]). contradiction.
  - unfold experience_texts. cbn. exact Ht.
Qed.

(** ** The relational sink *)

Lemma commit_some reachable db0 added db1 :
  commit reachable db0 added = Some db1 ->
  reachable = true
  /\ constraints_hold db0 added = true
  /\ db1 = Store (profiles db0 ++ profiles added)%list
                 (educations db0 ++ educations added)%list
                 (experiences db0 ++ experiences added)%list
                 (club_experiences db0 ++ club_experiences added)%list
                 (certifications db0 ++ certifications added)%list.
Proof.
  unfold commit. destruct reachable; simpl; [|discriminate].
  destruct (constraints_hold db0 added); [|discriminate].
  intros [= <-]. auto.
Qed.

(** A call that returns [True] found no row with the profile's URL and
    appended exactly one profile row. *)
Lemma insert_single_profile_saved env db0 profile_data edus exps clubs certs db1 :
  insert_single_profile env db0 profile_data edus exps clubs certs = (db1, true) ->
  find (url_matches (get_none profile_data "profile_url")) (profiles db0) = None
  /\ profiles db1 = (profiles db0 ++ [Profile_row profile_data])%list.
Proof.
  unfold insert_single_profile.
  destruct (query_reached env); simpl; [|discriminate].
  destruct (find _ (profiles db0)); [discriminate|].
  destruct (commit (commit_reached env) db0 _) as [d1|] eqn:H1; [|discriminate].
  destruct (commit (certs_commit_reached env) d1 _) as [d2|] eqn:H2; [|discriminate].
  intros [= <-]. split; [reflexivity|].
  apply commit_some in H1 as (_ & _ & ->).
  apply commit_some in H2 as (_ & _ & ->).
  simpl. now rewrite app_nil_r.
Qed.

(** A call that returns [False] either left the store as it was, or had
    already committed the profile with its educations and experiences when
    the commit of the certifications failed. *)
Lemma insert_single_profile_failed env db0 profile_data edus exps clubs certs db1 :
  insert_single_profile env db0 profile_data edus exps clubs certs = (db1, false) ->
  db1 = db0
  \/ (profiles db1 = (profiles db0 ++ [Profile_row profile_data])%list
      /\ certifications db1 = certifications db0
      /\ commit (certs_commit_reached env) db1
           (Store [] [] [] [] (map (Certification_row profile_data) certs)) = None).
Proof.
  unfold insert_single_profile.
  destruct (query_reached env); simpl; [|intros [= <-]; now left].
  destruct (find _ (profiles db0)); [intros [= <-]; now left|].
  destruct (commit (commit_reached env) db0 _) as [d1|] eqn:H1;
    [|intros [= <-]; now left].
  destruct (commit (certs_commit_reached env) d1 _) as [d2|] eqn:H2; [discriminate|].
  intros [= <-]. right.
  apply commit_some in H1 as (_ & _ & ->). simpl in H2 |- *.
  rewrite app_nil_r in H2 |- *. repeat split. exact H2.
Qed.

(** ** The batch loop *)

Lemma prepare_profile_identity profile_data meta current_profile_id p :
  prepare_profile profile_data meta current_profile_id = Some p ->
  get_none (prepared_profile p) "profile_id" = PInt current_profile_id
  /\ get_none (prepared_profile p) "profile_url" = PStr (url meta).
Proof.
  unfold prepare_profile.
  destruct (is_leadership_role _ 65) as [l|]; [|discriminate].
  cbn [mbind option_bind].
  destruct (is_fortune_500 _) as [f|]; [|discriminate].
  cbn [mbind option_bind].
  destruct (is_entrepreneur _) as [e|]; [|discriminate].
  cbn [mbind option_bind].
  destruct (iter (get _ "educations" (PList [])) ≫= map_opt as_dict) as [edus|];
    [|discriminate].
  cbn [mbind option_bind].
  destruct (iter (get _ "experiences" (PList [])) ≫= map_opt as_dict) as [exps|];
    [|discriminate].
  cbn [mbind option_bind].
  destruct (iter (get _ "certifications" (PList [])) ≫= map_opt _) as [certs|];
    [|discriminate].
  cbn [mbind option_bind].
  intros [= <-]. cbn [prepared_profile].
  split;
    repeat match goal with
           | |- context [if ?b then _ else _] => destruct b
           end;
    rewrite ?get_none_set_ne by discriminate;
    apply get_none_set_eq.
Qed.

(** An iteration that assigns an identifier takes the successor of the
    in-memory maximum and stores it back; any other iteration leaves the
    whole state as it was. *)
Lemma process_profile_assigns st meta r st' o :
  process_profile st meta r = (st', o) ->
  match assigned_id o with
  | Some i => i = max_profile_id st + 1 /\ max_profile_id st' = max_profile_id st + 1
  | None => st' = st
  end.
Proof.
  unfold process_profile.
  destruct (truthy (profile_exists _ _ _)); [intros [= <- <-]; reflexivity|].
  destruct (fetch_linkedin_data _ _ ≫= as_dict) as [pd|];
    [|intros [= <- <-]; reflexivity].
  destruct (prepare_profile pd meta _) as [p|];
    [|intros [= <- <-]; simpl; auto].
  destruct (insert_single_profile _ _ _ _ _ _ _) as [db1 saved].
  destruct saved; intros [= <- <-]; simpl; auto.
Qed.

Lemma process_profiles_ids new_profiles : forall st,
  let ids := omap assigned_id (process_profiles st new_profiles).2 in
  ids = seqZ (max_profile_id st + 1) (Z.of_nat (length ids))
  /\ max_profile_id (process_profiles st new_profiles).1
     = max_profile_id st + Z.of_nat (length ids).
Proof.
  induction new_profiles as [|[meta r] rest IH]; intros st; cbn zeta.
  - simpl. split; [reflexivity|lia].
  - cbn [process_profiles].
    destruct (process_profile st meta r) as [st' o] eqn:Hstep.
    pose proof (process_profile_assigns _ _ _ _ _ Hstep) as Ha.
    specialize (IH st'). cbn zeta in IH.
    destruct (process_profiles st' rest) as [st'' os]. cbn [fst snd] in IH.
    destruct IH as [IHids IHmax].
    clear Hstep.
    destruct o; simpl in Ha |- *;
      change (list_omap outcome Z assigned_id os) with (omap assigned_id os);
      try (subst st'; split; assumption).
    + destruct Ha as [-> Hm]. rewrite Hm in IHids, IHmax. split.
      * rewrite Nat2Z.inj_succ, seqZ_cons by lia. f_equal.
        rewrite IHids at 1. f_equal; lia.
      * lia.
    + destruct Ha as [-> Hm]. rewrite Hm in IHids, IHmax. split.
      * rewrite Nat2Z.inj_succ, seqZ_cons by lia. f_equal.
        rewrite IHids at 1. f_equal; lia.
      * lia.
    + destruct Ha as [-> Hm]. split; [reflexivity|lia].
Qed.







(** ** Identity resolution *)


(** C2, as the code has it: when a submission of a URL is saved, the
    identifier counter not being negative before it, and the same URL is
    submitted again on the store as the first submission left it, while
    the store answers the duplicate query, then the store holds exactly
    one profile with that URL and the second iteration, in this batch or
    in a later one, is resolved as a duplicate and changes nothing: the
    store, the identifier counter and the rows kept for the spreadsheet
    stay as they were. *)
Theorem C2_second_submission_is_skipped
    (st st1 : batch_state) (meta1 meta2 : profile_meta) (r1 r2 : responses) (i : Z) :
  url meta2 = url meta1 ->
  0 <= max_profile_id st ->
  process_profile st meta1 r1 = (st1, Saved i) ->
  exists_reached r2 = true ->
  length (persisted (db st1) (url meta1)) = 1%nat
  /\ forall st2, db st2 = db st1 ->
       process_profile st2 meta2 r2 = (st2, Duplicate (PInt i)).
Proof.
  intros Hurl Hmax Hfirst Hreach.
  unfold process_profile in Hfirst.
  destruct (truthy (profile_exists _ _ _)); [discriminate|].
  destruct (fetch_linkedin_data _ _ ≫= as_dict) as [pd|]; [|discriminate].
  destruct (prepare_profile pd meta1 _) as [p|] eqn:Hp; [|discriminate].
  destruct (insert_single_profile _ _ _ _ _ _ _) as [db1 saved] eqn:Hins.
  destruct saved; [|discriminate].
  injection Hfirst as <- <-.
  apply prepare_profile_identity in Hp as [Hid Hpurl].
  apply insert_single_profile_saved in Hins as [Hnone Hrows].
  rewrite Hpurl in Hnone.
  assert (url_matches (PStr (url meta1)) (Profile_row (prepared_profile p)) = true)
    as Hmatch.
  { unfold url_matches. cbn. rewrite Hpurl. apply String.eqb_refl. }
  split.
  - unfold persisted. cbn [db]. rewrite Hrows, List.filter_app.
    rewrite (find_none_filter _ _ Hnone). cbn. now rewrite Hmatch.
  - intros st2 Hdb. unfold process_profile. rewrite Hdb. cbn [db].
    rewrite Hurl, Hreach.
    unfold profile_exists. rewrite Hrows.
    rewrite (find_app_none _ _ _ Hnone Hmatch).
    cbn. rewrite Hid. cbn.
    destruct (max_profile_id st + 1 =? 0) eqn:E; [lia|reflexivity].
Qed.


(** ** Persistence *)

(** C4: a profile whose certification has a credential URL longer than its
    column is reported as failed, yet its profile, education and
    experience rows are in the store and its certifications are not: the
    first commit had already stored them when the second one failed. *)
Theorem C4_failed_certifications_leave_the_profile_stored :
  let r := batch_process_excel
             [(sample_meta "https://www.linkedin.com/in/asha",
               Responses true (Some response_with_long_credential) store_reached)]
             None None true true empty_store in
  outcomes r = [SaveFailed 1]
  /\ length (profiles (final_db r)) = 1%nat
  /\ length (educations (final_db r)) = 1%nat
  /\ length (experiences (final_db r)) = 1%nat
  /\ certifications (final_db r) = []
  /\ returned r = Some [[]; []; []; []; []].
Proof.
  cbn zeta. repeat split; vm_compute; reflexivity.
Qed.

(** C5, as the code has it: the rows of a profile whose insert returns
    [False] are not added to the lists that the batch returns for the
    spreadsheet write; the profiles stored before it stay in the store, its
    identifier stays consumed and the loop goes on with the next profile
    from the state that iteration left. *)
Theorem C5_failed_insert_keeps_profile_out_of_returned_rows
    (st st' : batch_state) (meta : profile_meta) (r : responses) (i : Z)
    (rest : list (profile_meta * responses)) :
  process_profile st meta r = (st', SaveFailed i) ->
  profiles_data st' = profiles_data st
  /\ educations_data st' = educations_data st
  /\ experiences_data st' = experiences_data st
  /\ club_experiences_data st' = club_experiences_data st
  /\ certifications_data st' = certifications_data st
  /\ max_profile_id st' = max_profile_id st + 1
  /\ profiles (db st) `prefix_of` profiles (db st')
  /\ process_profiles st ((meta, r) :: rest)
     = ((process_profiles st' rest).1, SaveFailed i :: (process_profiles st' rest).2).
Proof.
  intros H.
  assert (process_profiles st ((meta, r) :: rest)
          = ((process_profiles st' rest).1, SaveFailed i :: (process_profiles st' rest).2))
    as Hloop.
  { cbn [process_profiles]. rewrite H.
    now destruct (process_profiles st' rest). }
  unfold process_profile in H.
  destruct (truthy (profile_exists _ _ _)); [discriminate|].
  destruct (fetch_linkedin_data _ _ ≫= as_dict) as [pd|]; [|discriminate].
  destruct (prepare_profile pd meta _) as [p|]; [|discriminate].
  destruct (insert_single_profile _ _ _ _ _ _ _) as [db1 saved] eqn:Hins.
  destruct saved; [discriminate|].
  injection H as <- <-. cbn. repeat split; [|exact Hloop].
  apply insert_single_profile_failed in Hins as [->|(-> & _)].
  - reflexivity.
  - now apply prefix_app_r.
Qed.

(** C7, as the code has it: in append mode a missing [Profiles],
    [Educations] or [Experiences] sheet makes the write fail, the file
    being left as it was, and so does a [Profiles] sheet without a
    [profile_url] column when the new profile rows have one; otherwise a
    missing [Club Experiences] or [Certifications] sheet counts as an
    empty frame and the write completes with the five sheets. *)
Theorem C7_only_the_two_later_sheets_may_be_missing
    (xls : workbook) (profiles_rows educations_rows experiences_rows
                      club_experiences_rows certifications_rows : list dict) :
  (read_excel xls "Profiles" = None \/ read_excel xls "Educations" = None
   \/ read_excel xls "Experiences" = None ->
   write_to_excel (Some xls) profiles_rows educations_rows experiences_rows
     club_experiences_rows certifications_rows true = None)
  /\ (forall existing_profiles,
        read_excel xls "Profiles" = Some existing_profiles ->
        frame_empty (DataFrame profiles_rows) = false ->
        has_column (DataFrame profiles_rows) "profile_url" = true ->
        has_column existing_profiles "profile_url" = false ->
        write_to_excel (Some xls) profiles_rows educations_rows experiences_rows
          club_experiences_rows certifications_rows true = None)
  /\ (forall existing_profiles existing_educations existing_experiences,
        read_excel xls "Profiles" = Some existing_profiles ->
        read_excel xls "Educations" = Some existing_educations ->
        read_excel xls "Experiences" = Some existing_experiences ->
        (frame_empty (DataFrame profiles_rows) = false ->
         has_column (DataFrame profiles_rows) "profile_url" = true ->
         has_column existing_profiles "profile_url" = true) ->
        exists written,
          write_to_excel (Some xls) profiles_rows educations_rows experiences_rows
            club_experiences_rows certifications_rows true = Some written
          /\ map fst written = ["Profiles"; "Educations"; "Experiences";
                                "Club Experiences"; "Certifications"]
          /\ read_excel written "Educations"
             = Some (concat existing_educations (DataFrame educations_rows))
          /\ read_excel written "Experiences"
             = Some (concat existing_experiences (DataFrame experiences_rows))
          /\ read_excel written "Club Experiences"
             = Some (concat (default (DataFrame []) (read_excel xls "Club Experiences"))
                            (DataFrame club_experiences_rows))
          /\ read_excel written "Certifications"
             = Some (concat (default (DataFrame []) (read_excel xls "Certifications"))
                            (DataFrame certifications_rows))).
Proof.
  split; [|split].
  - intros H. unfold write_to_excel, merge_with_existing.
    destruct (read_excel xls "Profiles"); [|reflexivity].
    destruct (read_excel xls "Educations"); [|reflexivity].
    destruct (read_excel xls "Experiences"); [|reflexivity].
    destruct H as [H|[H|H]]; discriminate.
  - intros ep Hp Hnew Hcol Hold.
    unfold write_to_excel, merge_with_existing. rewrite Hp.
    cbn [mbind option_bind].
    destruct (read_excel xls "Educations"); [|reflexivity].
    cbn [mbind option_bind].
    destruct (read_excel xls "Experiences"); [|reflexivity].
    cbn [mbind option_bind].
    now rewrite Hnew, Hcol, Hold.
  - intros ep ee ex Hp He Hx Hcol.
    unfold write_to_excel, merge_with_existing.
    rewrite Hp, He, Hx. cbn [mbind option_bind].
    destruct (frame_empty (DataFrame profiles_rows)) eqn:Hnew; cbn [negb andb];
      [cbn [mbind option_bind]; eexists; (split; [reflexivity|]); repeat split|].
    destruct (has_column (DataFrame profiles_rows) "profile_url") eqn:Hnewcol;
      [|cbn [mbind option_bind]; eexists; (split; [reflexivity|]); repeat split].
    rewrite (Hcol eq_refl eq_refl).
    cbn [mbind option_bind]; eexists; (split; [reflexivity|]); repeat split.
Qed.

(** ** The three classifiers *)

Lemma lower_char_idem c : lower_char (lower_char c) = lower_char c.
Proof.
  destruct c as [[|] [|] [|] [|] [|] [|] [|] [|]]; reflexivity.
Qed.

Lemma lower_idem s : lower (lower s) = lower s.
Proof.
  induction s as [|c s IH]; simpl; [reflexivity|].
  now rewrite lower_char_idem, IH.
Qed.

Lemma is_empty_lower s : is_empty (lower s) = is_empty s.
Proof. destruct s; reflexivity. Qed.

Lemma prefix_refl s : String.prefix s s = true.
Proof.
  induction s as [|c s IH]; simpl; [reflexivity|].
  destruct (ascii_dec c c); [exact IH|contradiction].
Qed.

Lemma contains_refl s : contains s s = true.
Proof. destruct s; [reflexivity|]. cbn [contains]. now rewrite prefix_refl. Qed.

Lemma existsb_In {A : Type} (f : A -> bool) (l : list A) (x : A) :
  In x l -> f x = true -> existsb f l = true.
Proof. intros Hin Hx. apply existsb_exists. eauto. Qed.

(** A profile without experiences is given [False] by the three
    classifiers, none of which raises. *)
Theorem classifiers_without_experiences (profile_data : dict) (threshold : Z) :
  truthy (get profile_data "experiences" (PList [])) = false ->
  is_leadership_role profile_data threshold = Some false
  /\ is_fortune_500 profile_data = Some false
  /\ is_entrepreneur profile_data = Some false.
Proof.
  intros H. unfold is_leadership_role, is_fortune_500, is_entrepreneur.
  rewrite H. auto.
Qed.

(** A current title one of whose tokens is a leadership keyword is a
    leadership role, whatever the phrase similarity returns and whatever
    the threshold. *)
Theorem leadership_exact_token_decides
    (profile_data latest_exp : dict) (rest : list pyval)
    (stored_title keyword : string) (threshold : Z) :
  get profile_data "experiences" (PList []) = PList (PDict latest_exp :: rest) ->
  get latest_exp "title" (PStr "") = PStr stored_title ->
  In keyword exact_keywords ->
  In keyword (title_words stored_title) ->
  is_leadership_role profile_data threshold = Some true.
Proof.
  intros Hexp Htitle Hkw Htok.
  unfold is_leadership_role. rewrite Hexp. cbn [truthy negb latest_experience as_dict].
  cbn [mbind option_bind]. rewrite Htitle. cbn [as_str mbind option_bind].
  fold (title_words stored_title).
  rewrite (existsb_In _ exact_keywords keyword Hkw); [reflexivity|].
  apply (existsb_In _ _ keyword Htok). apply String.eqb_refl.
Qed.

(** Lowering the similarity threshold never turns a leadership role into a
    non-leadership one. *)
Theorem leadership_threshold_monotone
    (profile_data : dict) (low high : Z) :
  low <= high ->
  is_leadership_role profile_data high = Some true ->
  is_leadership_role profile_data low = Some true.
Proof.
  intros Hle. unfold is_leadership_role.
  destruct (negb (truthy _)); [discriminate|].
  destruct (latest_experience _) as [e|]; [|discriminate]. cbn [mbind option_bind].
  destruct (as_str _) as [t|]; [|discriminate]. cbn [mbind option_bind].
  destruct (existsb _ exact_keywords); [reflexivity|].
  intros [= H]. f_equal.
  apply existsb_exists in H as (m & Hin & Hm).
  apply existsb_exists. exists m. split; [exact Hin|].
  apply Z.leb_le in Hm. apply Z.leb_le. lia.
Qed.

(** A current title that contains an entrepreneur keyword, in any letter
    case, makes the profile an entrepreneur; the company and the full name
    are not looked at, so a missing name raises nothing here. *)
Theorem entrepreneur_keyword_in_title
    (profile_data latest_exp : dict) (rest : list pyval)
    (stored_title keyword : string) :
  get profile_data "experiences" (PList []) = PList (PDict latest_exp :: rest) ->
  get latest_exp "title" (PStr "") = PStr stored_title ->
  In keyword entrepreneur_keywords ->
  contains keyword (lower stored_title) = true ->
  is_entrepreneur profile_data = Some true.
Proof.
  intros Hexp Htitle Hkw Hc.
  unfold is_entrepreneur. rewrite Hexp. cbn [truthy negb latest_experience as_dict].
  cbn [mbind option_bind]. rewrite Htitle. cbn [as_str fmap option_fmap option_map mbind option_bind].
  now rewrite (existsb_In _ entrepreneur_keywords keyword Hkw Hc).
Qed.

(** For a title, a company and a full name written in ASCII: without a
    keyword in the title, the profile is an entrepreneur exactly when its
    full name is not empty and occurs, letter case aside, in the current
    company name: an empty name never counts, although the empty string
    occurs in every company name. *)
Theorem entrepreneur_eponymous_company
    (profile_data latest_exp : dict) (rest : list pyval)
    (stored_title company full_name : string) :
  is_ascii stored_title = true ->
  is_ascii company = true ->
  is_ascii full_name = true ->
  get profile_data "experiences" (PList []) = PList (PDict latest_exp :: rest) ->
  get latest_exp "title" (PStr "") = PStr stored_title ->
  existsb (fun keyword => contains keyword (lower stored_title)) entrepreneur_keywords
  = false ->
  get latest_exp "company" (PStr "") = PStr company ->
  get profile_data "full_name" (PStr "") = PStr full_name ->
  (full_name = "" -> is_entrepreneur profile_data = Some false)
  /\ (full_name <> "" ->
      is_entrepreneur profile_data = Some (contains (lower full_name) (lower company))).
Proof.
  intros _ _ _ Hexp Htitle Hno Hcompany Hname.
  unfold is_entrepreneur. rewrite Hexp. cbn [truthy negb latest_experience as_dict].
  cbn [mbind option_bind]. rewrite Htitle.
  cbn [as_str fmap option_fmap option_map mbind option_bind].
  rewrite Hno, Hcompany, Hname.
  cbn [as_str fmap option_fmap option_map mbind option_bind].
  rewrite is_empty_lower. split.
  - intros ->. reflexivity.
  - intros Hne. apply is_empty_false_iff in Hne. now rewrite Hne.
Qed.

(** A full name that is not a string (a null in the provider's record)
    makes [is_entrepreneur] raise as soon as the title holds no keyword. *)
Theorem entrepreneur_raises_on_missing_name
    (profile_data latest_exp : dict) (rest : list pyval)
    (stored_title company : string) :
  get profile_data "experiences" (PList []) = PList (PDict latest_exp :: rest) ->
  get latest_exp "title" (PStr "") = PStr stored_title ->
  existsb (fun keyword => contains keyword (lower stored_title)) entrepreneur_keywords
  = false ->
  get latest_exp "company" (PStr "") = PStr company ->
  as_str (get profile_data "full_name" (PStr "")) = None ->
  is_entrepreneur profile_data = None.
Proof.
  intros Hexp Htitle Hno Hcompany Hname.
  unfold is_entrepreneur. rewrite Hexp. cbn [truthy negb latest_experience as_dict].
  cbn [mbind option_bind]. rewrite Htitle.
  cbn [as_str fmap option_fmap option_map mbind option_bind].
  rewrite Hno, Hcompany.
  cbn [as_str fmap option_fmap option_map mbind option_bind].
  now rewrite Hname.
Qed.

(** Whatever goes wrong inside the guarded block of [is_fortune_500] is
    answered [False]: a profile whose most recent experience is a record
    never makes it raise, and an unreadable reference file, a company that
    is not a string or a company name made of white space give [False]. *)
Theorem fortune_500_errors_are_false
    (profile_data latest_exp : dict) (rest : list pyval) :
  get profile_data "experiences" (PList []) = PList (PDict latest_exp :: rest) ->
  is_Some (is_fortune_500 profile_data)
  /\ (fortune500_data = None -> is_fortune_500 profile_data = Some false)
  /\ (as_str (get latest_exp "company" (PStr "")) = None ->
      is_fortune_500 profile_data = Some false)
  /\ (forall company,
        get latest_exp "company" (PStr "") = PStr company ->
        normalize_company_name company = None ->
        is_fortune_500 profile_data = Some false).
Proof.
  intros Hexp. unfold is_fortune_500. rewrite Hexp.
  cbn [truthy negb latest_experience as_dict mbind option_bind].
  split; [|split; [|split]].
  - destruct (negb (truthy _)); eexists; reflexivity.
  - intros Hdata. destruct (negb (truthy _)); [reflexivity|].
    unfold fortune_500_match, load_fortune500_companies. now rewrite Hdata.
  - intros Hs. destruct (negb (truthy _)); [reflexivity|].
    unfold fortune_500_match. destruct load_fortune500_companies; [|reflexivity].
    cbn [mbind option_bind]. now rewrite Hs.
  - intros company Hc Hn. rewrite Hc.
    destruct (negb (truthy _)); [reflexivity|].
    unfold fortune_500_match. destruct load_fortune500_companies; [|reflexivity].
    cbn [as_str mbind option_bind]. now rewrite Hn.
Qed.

(** For a company name and reference names written in ASCII:
    [is_fortune_500] is [True] exactly when some reference name, lower
    cased, contains the normalised company name, is contained in it, or
    scores above 85 against it; the exact-membership test adds nothing to
    these three. *)
Theorem fortune_500_match_characterised
    (profile_data latest_exp : dict) (rest : list pyval)
    (company normalized_name : string) (data : list string) :
  is_ascii company = true ->
  forallb is_ascii data = true ->
  get profile_data "experiences" (PList []) = PList (PDict latest_exp :: rest) ->
  get latest_exp "company" (PStr "") = PStr company ->
  company <> "" ->
  normalize_company_name company = Some normalized_name ->
  fortune500_data = Some data ->
  (is_fortune_500 profile_data = Some true
   <-> exists reference,
         In reference data
         /\ (contains normalized_name (lower reference)
             || contains (lower reference) normalized_name
             || (85 <? fuzz_ratio normalized_name (lower reference))) = true).
Proof.
  intros _ _ Hexp Hcompany Hne Hnorm Hdata.
  unfold is_fortune_500. rewrite Hexp.
  cbn [truthy negb latest_experience as_dict mbind option_bind].
  rewrite Hcompany. cbn [truthy].
  apply is_empty_false_iff in Hne. rewrite Hne. cbn [negb].
  unfold fortune_500_match, load_fortune500_companies. rewrite Hdata.
  cbn [fmap option_fmap option_map as_str mbind option_bind]. rewrite Hnorm.
  cbn [mbind option_bind].
  destruct (existsb (String.eqb normalized_name) (map lower data)) eqn:Hd.
  - cbn [default]. split; [intros _|reflexivity].
    apply existsb_exists in Hd as (c & Hin & Heq).
    apply in_map_iff in Hin as (r & <- & Hin).
    apply String.eqb_eq in Heq. exists r. split; [exact Hin|].
    rewrite <- Heq, contains_refl. reflexivity.
  - cbn [default]. split.
    + intros [= H]. apply existsb_exists in H as (c & Hin & Hc).
      apply in_map_iff in Hin as (r & <- & Hin). eauto.
    + intros (r & Hin & Hr). f_equal. apply existsb_exists.
      exists (lower r). split; [|exact Hr]. apply in_map_iff. eauto.
Qed.

(** ** Company names *)

Lemma is_space_lower_char c : is_space (lower_char c) = is_space c.
Proof.
  destruct c as [[|] [|] [|] [|] [|] [|] [|] [|]]; reflexivity.
Qed.

Lemma all_space_lower s : all_space (lower s) = all_space s.
Proof.
  induction s as [|c s IH]; simpl; [reflexivity|].
  now rewrite is_space_lower_char, IH.
Qed.

Lemma rstrip_all_space s : all_space s = true <-> rstrip s = "".
Proof.
  induction s as [|c s IH]; simpl; [tauto|].
  destruct (is_space c); simpl.
  - destruct (rstrip s) eqn:E; simpl.
    + split; [reflexivity|]. intros _. now apply IH.
    + split; [|discriminate]. intros H. apply IH in H. discriminate.
  - split; discriminate.
Qed.

Lemma all_space_rstrip s : all_space (rstrip s) = true -> all_space s = true.
Proof.
  induction s as [|c s IH]; simpl; [auto|].
  destruct (is_space c && is_empty (rstrip s)) eqn:E.
  - intros _. apply andb_true_iff in E as [Hc He]. rewrite Hc. simpl.
    apply rstrip_all_space. now destruct (rstrip s).
  - simpl. intros H. apply andb_true_iff in H as [Hc Hr].
    rewrite Hc. simpl. now apply IH.
Qed.

Lemma all_space_lstrip s : all_space (lstrip s) = true -> all_space s = true.
Proof.
  induction s as [|c s IH]; simpl; [auto|].
  destruct (is_space c) eqn:E; simpl; [exact IH|].
  now rewrite E.
Qed.

Lemma strip_all_space s : all_space s = true -> strip s = "".
Proof. intros H. unfold strip. apply rstrip_all_space in H. now rewrite H. Qed.

Lemma split_go_some_not_nil s w : split_go (Some w) s <> [].
Proof.
  revert w. induction s as [|c s IH]; intros w; simpl; [discriminate|].
  destruct (is_space c); [discriminate|apply IH].
Qed.

Lemma split_nil_all_space s : split s = [] -> all_space s = true.
Proof.
  unfold split. induction s as [|c s IH]; simpl; [reflexivity|].
  destruct (is_space c); simpl; [exact IH|].
  intros H. now apply split_go_some_not_nil in H.
Qed.

(** On a name written in ASCII, [normalize_company_name] raises exactly
    when the name is not empty and made of white space only; on every
    other such name it returns a string. *)
Theorem normalize_company_name_raises_iff_blank (name : string) :
  is_ascii name = true ->
  (normalize_company_name name = None <-> name <> "" /\ all_space name = true).
Proof.
  intros _. unfold normalize_company_name. split.
  - destruct (is_empty name) eqn:He; [discriminate|].
    apply is_empty_false_iff in He.
    destruct (variation _ COMPANY_VARIATIONS); [discriminate|].
    destruct (head (split (strip (lower name)))) as [w|] eqn:Hw.
    + cbn [mbind option_bind]. destruct (variation w _); discriminate.
    + intros _. split; [exact He|].
      destruct (split (strip (lower name))) eqn:Hs; [|discriminate].
      apply split_nil_all_space in Hs. unfold strip in Hs.
      apply all_space_lstrip, all_space_rstrip in Hs.
      now rewrite all_space_lower in Hs.
  - intros [Hne Hsp]. apply is_empty_false_iff in Hne. rewrite Hne.
    rewrite <- all_space_lower in Hsp. apply strip_all_space in Hsp.
    rewrite Hsp. reflexivity.
Qed.

(** The normalised company name does not depend on the letter case of the
    name. *)
Theorem normalize_company_name_ignores_case (name : string) :
  normalize_company_name (lower name) = normalize_company_name name.
Proof.
  unfold normalize_company_name. now rewrite is_empty_lower, lower_idem.
Qed.

(** ** The normalised record *)

Lemma map_opt_Forall2 {A B : Type} (f : A -> option B) l l' :
  map_opt f l = Some l' -> Forall2 (fun x y => f x = Some y) l l'.
Proof.
  revert l'. induction l as [|x l IH]; intros l' H; simpl in H.
  - injection H as <-. constructor.
  - destruct (f x) as [y|] eqn:Hx; [|discriminate].
    destruct (map_opt f l) as [ys|]; [|discriminate].
    injection H as <-. constructor; auto.
Qed.

Lemma normalize_experience_shape exp e :
  normalize_experience exp = Some e ->
  exists title company location description start_date end_date,
    e = PDict [("title", PStr title); ("company", PStr company);
               ("location", PStr location); ("description", PStr description);
               ("start_date", PStr start_date); ("end_date", PStr end_date)].
Proof.
  unfold normalize_experience.
  destruct (as_dict exp) as [d|]; [|discriminate]. cbn [mbind option_bind].
  destruct (format_date (get_none d "starts_at")) as [sd|]; [|discriminate].
  cbn [mbind option_bind].
  destruct (format_date (get_none d "ends_at")) as [ed|]; [|discriminate].
  cbn [mbind option_bind]. intros [= <-]. repeat eexists.
Qed.

Lemma normalize_education_shape edu e :
  normalize_education edu = Some e ->
  exists institution degree field_of_study start_date end_date,
    e = PDict [("institution_name", institution); ("degree", degree);
               ("field_of_study", field_of_study);
               ("start_date", PStr start_date); ("end_date", PStr end_date)].
Proof.
  unfold normalize_education.
  destruct (as_dict edu) as [d|]; [|discriminate]. cbn [mbind option_bind].
  destruct (format_date (get_none d "starts_at")) as [sd|]; [|discriminate].
  cbn [mbind option_bind].
  destruct (format_date (get_none d "ends_at")) as [ed|]; [|discriminate].
  cbn [mbind option_bind]. intros [= <-]. repeat eexists.
Qed.

(** What [normalize] returns has a fixed shape: the skills are one string,
    every experience is a record of exactly six strings (title, company,
    location, description and the two dates), every education a record of
    five fields whose two dates are strings; and the record has as many
    educations and experiences as the provider's lists, none dropped. *)
Theorem normalize_gives_stable_shape (d : dict) (y : pyval) :
  normalize (PDict d) = Some y ->
  (exists skills, field y "skills" = PStr skills)
  /\ (exists experiences,
        field y "experiences" = PList experiences
        /\ Forall (fun e =>
             exists title company location description start_date end_date,
               e = PDict [("title", PStr title); ("company", PStr company);
                          ("location", PStr location);
                          ("description", PStr description);
                          ("start_date", PStr start_date);
                          ("end_date", PStr end_date)]) experiences
        /\ forall raw, get d "experiences" (PList []) = PList raw ->
                       length experiences = length raw)
  /\ (exists educations,
        field y "educations" = PList educations
        /\ Forall (fun e =>
             exists institution degree field_of_study start_date end_date,
               e = PDict [("institution_name", institution); ("degree", degree);
                          ("field_of_study", field_of_study);
                          ("start_date", PStr start_date);
                          ("end_date", PStr end_date)]) educations
        /\ forall raw, get d "education" (PList []) = PList raw ->
                       length educations = length raw).
Proof.
  unfold normalize. cbn [as_dict mbind option_bind].
  destruct (iter (get d "skills" (PList [])) ≫= all_str) as [skills|];
    [|discriminate].
  cbn [mbind option_bind].
  destruct (iter (get d "education" (PList []))) as [raw_edus|] eqn:Hre;
    [|discriminate].
  cbn [mbind option_bind].
  destruct (map_opt normalize_education raw_edus) as [edus|] eqn:Hedus;
    [|discriminate].
  cbn [mbind option_bind].
  destruct (iter (get d "experiences" (PList []))) as [raw_exps|] eqn:Hrx;
    [|discriminate].
  cbn [mbind option_bind].
  destruct (map_opt normalize_experience raw_exps) as [exps|] eqn:Hexps;
    [|discriminate].
  cbn [mbind option_bind]. intros [= <-].
  apply map_opt_Forall2 in Hedus, Hexps.
  split; [eexists; reflexivity|]. split.
  - exists exps. split; [reflexivity|]. split.
    + clear -Hexps. induction Hexps; constructor; auto.
      eapply normalize_experience_shape; eauto.
    + intros raw Hraw. rewrite Hraw in Hrx. injection Hrx as <-.
      symmetry. eapply Forall2_length; eauto.
  - exists edus. split; [reflexivity|]. split.
    + clear -Hedus. induction Hedus; constructor; auto.
      eapply normalize_education_shape; eauto.
    + intros raw Hraw. rewrite Hraw in Hre. injection Hre as <-.
      symmetry. eapply Forall2_length; eauto.
Qed.

(** A provider record in which [skills], [education] or [experiences] is
    present with a null value is rejected as a whole: the normaliser
    returns nothing for it. *)
Theorem normalize_rejects_null_lists (d : dict) (k : string) :
  In k ["skills"; "education"; "experiences"] ->
  lookup_key d k = Some PNone ->
  normalize (PDict d) = None.
Proof.
  intros Hk Hnull.
  assert (get d k (PList []) = PNone) as Hg by (unfold get; now rewrite Hnull).
  unfold normalize. cbn [as_dict mbind option_bind].
  destruct Hk as [<-|[<-|[<-|[]]]]; rewrite Hg.
  - reflexivity.
  - destruct (_ ≫= all_str); reflexivity.
  - destruct (_ ≫= all_str); [|reflexivity]. cbn [mbind option_bind].
    destruct (_ ≫= map_opt normalize_education); reflexivity.
Qed.

Lemma contains_slash_app a b : contains "/" (a ++ String "/" b) = true.
Proof.
  induction a as [|c a IH]; [destruct b; reflexivity|].
  change (contains "/" (String c (a ++ String "/" b)) = true).
  cbn [contains]. rewrite IH. apply orb_true_r.
Qed.

(** [format_date] answers [Present] for an absent date only: a date record
    that is not empty is never formatted as [Present]. *)
Theorem format_date_present_iff_absent (date_dict : pyval) :
  format_date date_dict = Some "Present" <-> truthy date_dict = false.
Proof.
  split; [|intros H; unfold format_date; now rewrite H].
  unfold format_date. destruct (truthy date_dict); [|reflexivity].
  cbn [negb]. destruct (as_dict date_dict) as [d|]; [|discriminate].
  cbn [mbind option_bind].
  destruct (negb _ && negb _); [|discriminate].
  intros [= H].
  assert (contains "/" (zfill 2 (py_str (get d "month" (PStr ""))) ++ "/"
                        ++ py_str (get d "year" (PStr ""))) = true) as Hc
    by apply contains_slash_app.
  rewrite H in Hc. discriminate.
Qed.

(** ** What one insert does to the store *)

Lemma store_extends_refl db0 : store_extends db0 db0.
Proof. unfold store_extends. repeat split; reflexivity. Qed.

Lemma store_extends_trans db0 db1 db2 :
  store_extends db0 db1 -> store_extends db1 db2 -> store_extends db0 db2.
Proof.
  unfold store_extends. intros (a & b & c & d & e) (a' & b' & c' & d' & e').
  repeat split; etransitivity; eauto.
Qed.

Lemma constraints_hold_ids db0 added :
  constraints_hold db0 added = true ->
  ids_unique (omap row_id (profiles db0)) (profiles added) = true.
Proof.
  unfold constraints_hold. intros H.
  repeat (apply andb_true_iff in H as [H _]). exact H.
Qed.

Lemma ids_unique_one taken r :
  ids_unique taken [r] = true ->
  exists z, row_id r = Some z /\ ~ In z taken.
Proof.
  simpl. destruct (row_id r) as [z|]; [|discriminate].
  intros H. apply andb_true_iff in H as [H _]. apply negb_true_iff in H.
  exists z. split; [reflexivity|]. intros Hin.
  assert (existsb (Z.eqb z) taken = true) as Ht.
  { apply existsb_exists. exists z. split; [exact Hin|apply Z.eqb_refl]. }
  congruence.
Qed.

(** The two ways a call of [insert_single_profile] ends: the store is as
    it was and the answer is [False]; or no profile had the URL, the
    declared constraints accepted the rows, and the profile with its
    educations, experiences and club experiences is stored, the
    certifications being stored with them exactly when the answer is
    [True]. *)
Lemma insert_single_profile_cases env db0 profile_data edus exps clubs certs db1 saved :
  insert_single_profile env db0 profile_data edus exps clubs certs = (db1, saved) ->
  (db1 = db0 /\ saved = false)
  \/ (find (url_matches (get_none profile_data "profile_url")) (profiles db0) = None
      /\ ids_unique (omap row_id (profiles db0)) [Profile_row profile_data] = true
      /\ profiles db1 = (profiles db0 ++ [Profile_row profile_data])%list
      /\ educations db1 = (educations db0 ++ map (Education_row profile_data) edus)%list
      /\ experiences db1 = (experiences db0 ++ map (Experience_row profile_data) exps)%list
      /\ club_experiences db1
         = (club_experiences db0 ++ map (ClubExperience_row profile_data) clubs)%list
      /\ certifications db1
         = (certifications db0
            ++ if saved then map (Certification_row profile_data) certs else [])%list).
Proof.
  unfold insert_single_profile.
  destruct (query_reached env); simpl; [|intros [= <- <-]; now left].
  destruct (find _ (profiles db0)) eqn:Hfind; [intros [= <- <-]; now left|].
  destruct (commit (commit_reached env) db0 _) as [d1|] eqn:H1;
    [|intros [= <- <-]; now left].
  apply commit_some in H1 as (_ & Hc & ->).
  apply constraints_hold_ids in Hc. cbn [profiles] in Hc.
  destruct (commit (certs_commit_reached env) _ _) as [d2|] eqn:H2.
  - apply commit_some in H2 as (_ & _ & ->).
    intros [= <- <-]. right. cbn. rewrite !app_nil_r. auto 10.
  - intros [= <- <-]. right. cbn. rewrite !app_nil_r. auto 10.
Qed.

Lemma insert_single_profile_extends env db0 profile_data edus exps clubs certs db1 saved :
  insert_single_profile env db0 profile_data edus exps clubs certs = (db1, saved) ->
  store_extends db0 db1.
Proof.
  intros H. apply insert_single_profile_cases in H
    as [[-> _]|(_ & _ & Hp & He & Hx & Hc & Hce)].
  - apply store_extends_refl.
  - unfold store_extends. rewrite Hp, He, Hx, Hc, Hce.
    repeat split; now apply prefix_app_r.
Qed.

(** The insert and the two queries agree: after a call that returns
    [True], [profile_exists] finds the profile under its URL and returns
    its identifier, and [get_max_profile_id] is at least that identifier. *)
Theorem insert_then_lookup
    (env : insert_env) (db0 db1 : store) (profile_data : dict)
    (edus exps clubs certs : list dict) (u : string) (i : Z) :
  insert_single_profile env db0 profile_data edus exps clubs certs = (db1, true) ->
  get_none profile_data "profile_url" = PStr u ->
  get_none profile_data "profile_id" = PInt i ->
  profile_exists true db1 u = PInt i
  /\ i <= get_max_profile_id true db1.
Proof.
  intros Hins Hu Hi.
  apply insert_single_profile_cases in Hins
    as [[_ [=]]|(Hfind & _ & Hp & _)].
  rewrite Hu in Hfind.
  assert (url_matches (PStr u) (Profile_row profile_data) = true) as Hmatch.
  { unfold url_matches. cbn. rewrite Hu. apply String.eqb_refl. }
  split.
  - unfold profile_exists. rewrite Hp, (find_app_none _ _ _ Hfind Hmatch).
    cbn. exact Hi.
  - unfold get_max_profile_id. rewrite Hp, omap_app.
    assert (omap row_id [Profile_row profile_data] = [i]) as ->.
    { cbn. unfold row_id. cbn. now rewrite Hi. }
    destruct (omap row_id (profiles db0)) as [|z zs]; cbn; [lia|].
    rewrite fold_left_app. cbn. lia.
Qed.

Lemma fold_left_max_ge zs : forall z x,
  In x (z :: zs) -> x <= fold_left Z.max zs z.
Proof.
  induction zs as [|y zs IH]; intros z x Hin; cbn.
  - destruct Hin as [->|[]]. lia.
  - destruct Hin as [->|[->|Hin]].
    + specialize (IH (Z.max x y) (Z.max x y) (or_introl eq_refl)). lia.
    + specialize (IH (Z.max z x) (Z.max z x) (or_introl eq_refl)). lia.
    + apply IH. now right.
Qed.

Lemma get_max_profile_id_bounds (db0 : store) :
  (forall z, In z (omap row_id (profiles db0)) -> z <= get_max_profile_id true db0)
  /\ (get_max_profile_id true db0 = 0
      \/ In (get_max_profile_id true db0) (omap row_id (profiles db0))).
Proof.
  unfold get_max_profile_id.
  destruct (omap row_id (profiles db0)) as [|z zs]; [split; [intros ? []|now left]|].
  split; [intros x Hin; now apply fold_left_max_ge|].
  right. clear. revert z. induction zs as [|y zs IH]; intros z; cbn; [now left|].
  destruct (IH (Z.max z y)) as [H|H].
  - rewrite <- H. destruct (Z.max_spec z y) as [[_ ->]|[_ ->]]; cbn; auto.
  - right. right. exact H.
Qed.

(** When its query succeeds, [get_max_profile_id] is an upper bound of
    the stored identifiers, and it is 0 or one of them. *)
Theorem get_max_profile_id_is_the_maximum (db0 : store) :
  (forall z, In z (omap row_id (profiles db0)) -> z <= get_max_profile_id true db0)
  /\ (get_max_profile_id true db0 = 0
      \/ In (get_max_profile_id true db0) (omap row_id (profiles db0))).
Proof. exact (get_max_profile_id_bounds db0). Qed.

(** ** Invariants of the batch *)

(** What one iteration does to the profile table: nothing, or one row is
    appended that carries the URL of the iteration and the identifier
    following the counter, a URL and an identifier that no stored profile
    had. *)
Lemma process_profile_appends st meta r st' o :
  process_profile st meta r = (st', o) ->
  store_extends (db st) (db st')
  /\ (profiles (db st') = profiles (db st)
      \/ exists row,
           profiles (db st') = (profiles (db st) ++ [row])%list
           /\ get_none row "profile_url" = PStr (url meta)
           /\ row_id row = Some (max_profile_id st + 1)
           /\ ~ In (max_profile_id st + 1) (omap row_id (profiles (db st)))
           /\ persisted (db st) (url meta) = []).
Proof.
  unfold process_profile.
  destruct (truthy (profile_exists _ _ _));
    [intros [= <- <-]; split; [apply store_extends_refl|now left]|].
  destruct (fetch_linkedin_data _ _ ≫= as_dict) as [pd|];
    [|intros [= <- <-]; split; [apply store_extends_refl|now left]].
  destruct (prepare_profile pd meta _) as [p|] eqn:Hp;
    [|intros [= <- <-]; split; [apply store_extends_refl|now left]].
  apply prepare_profile_identity in Hp as [Hid Hpurl].
  destruct (insert_single_profile _ _ _ _ _ _ _) as [db1 saved] eqn:Hins.
  pose proof (insert_single_profile_extends _ _ _ _ _ _ _ _ _ Hins) as Hext.
  intros Hst. assert (db st' = db1) as Hdb.
  { destruct saved; injection Hst as <- _; reflexivity. }
  rewrite Hdb. split; [exact Hext|].
  apply insert_single_profile_cases in Hins
    as [[-> _]|(Hfind & Hids & Hrows & _)]; [now left|].
  right. exists (Profile_row (prepared_profile p)).
  apply ids_unique_one in Hids as (z & Hz & Hnotin).
  assert (row_id (Profile_row (prepared_profile p)) = Some (max_profile_id st + 1))
    as Hrow by (unfold row_id; cbn; now rewrite Hid).
  rewrite Hrow in Hz. injection Hz as <-.
  repeat split; auto.
  unfold persisted. rewrite Hpurl in Hfind. now apply find_none_filter.
Qed.

Lemma process_profiles_extends new_profiles : forall st,
  store_extends (db st) (db (process_profiles st new_profiles).1).
Proof.
  induction new_profiles as [|[meta r] rest IH]; intros st;
    [apply store_extends_refl|].
  cbn [process_profiles].
  destruct (process_profile st meta r) as [st' o] eqn:Hstep.
  apply process_profile_appends in Hstep as [Hext _].
  specialize (IH st').
  destruct (process_profiles st' rest) as [st'' os]. cbn [fst] in IH.
  destruct o; cbn [fst]; try exact Hext;
    eapply store_extends_trans; eauto.
Qed.

Lemma process_profiles_length new_profiles : forall st,
  (length (process_profiles st new_profiles).2 <= length new_profiles)%nat.
Proof.
  induction new_profiles as [|[meta r] rest IH]; intros st; [reflexivity|].
  cbn [process_profiles].
  destruct (process_profile st meta r) as [st' o].
  specialize (IH st').
  destruct (process_profiles st' rest) as [st'' os]. cbn [snd] in IH.
  destruct o; cbn; lia.
Qed.

Lemma ids_distinct_step st meta r st' o :
  process_profile st meta r = (st', o) ->
  ids_distinct (db st) -> ids_distinct (db st').
Proof.
  intros Hstep [Hall Hnd].
  apply process_profile_appends in Hstep
    as [_ [Hsame|(row & Hrows & _ & Hid & Hnotin & _)]]; unfold ids_distinct.
  - now rewrite Hsame.
  - rewrite Hrows, omap_app. split.
    + apply Forall_app. split; [exact Hall|].
      constructor; [|constructor]. rewrite Hid. eexists; reflexivity.
    + cbn. rewrite Hid. cbn. apply NoDup_app. split; [exact Hnd|]. split.
      * intros x Hx Hin. apply list_elem_of_In in Hx.
        apply list_elem_of_In in Hin. destruct Hin as [<-|[]]. contradiction.
      * apply NoDup_singleton.
Qed.

Lemma urls_distinct_step st meta r st' o :
  process_profile st meta r = (st', o) ->
  urls_distinct (db st) -> urls_distinct (db st').
Proof.
  intros Hstep Hu u. specialize (Hu u).
  apply process_profile_appends in Hstep
    as [_ [Hsame|(row & Hrows & Hurl & _ & _ & Hnone)]]; unfold persisted in *.
  - now rewrite Hsame.
  - rewrite Hrows, List.filter_app, length_app. cbn.
    unfold url_matches at 2. rewrite Hurl.
    destruct (String.eqb_spec (url meta) u) as [<-|Hne]; cbn.
    + rewrite Hnone. cbn. lia.
    + lia.
Qed.

Lemma process_profiles_invariants new_profiles : forall st,
  (ids_distinct (db st) -> ids_distinct (db (process_profiles st new_profiles).1))
  /\ (urls_distinct (db st) -> urls_distinct (db (process_profiles st new_profiles).1)).
Proof.
  induction new_profiles as [|[meta r] rest IH]; intros st; [split; auto|].
  cbn [process_profiles].
  destruct (process_profile st meta r) as [st' o] eqn:Hstep.
  pose proof (ids_distinct_step _ _ _ _ _ Hstep) as Hi.
  pose proof (urls_distinct_step _ _ _ _ _ Hstep) as Hu.
  specialize (IH st').
  destruct (process_profiles st' rest) as [st'' os]. cbn [fst] in IH.
  destruct IH as [IHi IHu].
  destruct o; cbn [fst]; split; auto.
Qed.

(** The two ways a call of [batch_process_excel] goes: it returns at once,
    the store untouched and no profile processed; or the store could be
    opened and the loop runs, from the maximum that [get_max_profile_id]
    gave, over entries of the submitted list, no more of them than the
    list has nor, with a positive limit, than the limit. *)
Lemma batch_process_excel_cases profiles_list limit output_file connect_ok
    max_id_query_ok store0 :
  let r := batch_process_excel profiles_list limit output_file connect_ok
             max_id_query_ok store0 in
  r = BatchResult store0 (Some [[]; []; []; []]) []
  \/ exists new_profiles,
       connect_ok = true
       /\ (length new_profiles <= length profiles_list)%nat
       /\ (forall n, limit = Some n -> 0 < n ->
                     (length new_profiles <= Z.to_nat n)%nat)
       /\ (forall p, In p new_profiles ->
                     In p profiles_list
                     /\ isin (get_existing_profiles output_file) (PStr (url p.1)) = false)
       /\ final_db r
          = db (process_profiles
                  (BatchState store0 (get_max_profile_id max_id_query_ok store0)
                              [] [] [] [] []) new_profiles).1
       /\ outcomes r
          = (process_profiles
               (BatchState store0 (get_max_profile_id max_id_query_ok store0)
                           [] [] [] [] []) new_profiles).2.
Proof.
  cbn zeta. unfold batch_process_excel.
  destruct profiles_list as [|p0 ps]; [now left|].
  set (kept := List.filter _ (p0 :: ps)).
  assert (forall p, In p kept ->
            In p (p0 :: ps)
            /\ isin (get_existing_profiles output_file) (PStr (url p.1)) = false)
    as Hkept.
  { intros p Hin. apply filter_In in Hin as [Hin Hf].
    split; [exact Hin|]. now apply negb_true_iff in Hf. }
  assert (length kept <= length (p0 :: ps))%nat as Hklen
    by apply List.filter_length_le.
  destruct kept as [|n0 ns] eqn:Hk; [now left|].
  destruct connect_ok; cbn [negb]; [|now left].
  right.
  match goal with
  | |- context [process_profiles ?st ?l] =>
      exists l; destruct (process_profiles st l) as [st' os] eqn:Hrun
  end.
  cbn [final_db outcomes fst snd].
  split; [reflexivity|]. split; [|split; [|split; [|split; reflexivity]]].
  - destruct limit as [n|]; [|exact Hklen].
    destruct (0 <? n); [|exact Hklen].
    rewrite List.length_firstn. lia.
  - intros n -> Hn. apply Z.ltb_lt in Hn. rewrite Hn. apply firstn_le_length.
  - intros p Hin. apply Hkept.
    destruct limit as [n|]; [|exact Hin].
    destruct (0 <? n); [|exact Hin].
    apply list_elem_of_In. apply list_elem_of_In in Hin.
    exact (subseteq_take _ _ _ Hin).
Qed.

(** A batch never removes or changes a stored row: each of the five
    tables begins, after the batch, with the rows it had before. *)
Theorem batch_only_appends_to_the_store
    (profiles_list : list (profile_meta * responses)) (limit : option Z)
    (output_file : option workbook) (connect_ok max_id_query_ok : bool)
    (store0 : store) :
  store_extends store0
    (final_db (batch_process_excel profiles_list limit output_file connect_ok
                 max_id_query_ok store0)).
Proof.
  destruct (batch_process_excel_cases profiles_list limit output_file connect_ok
              max_id_query_ok store0) as [->|(l & _ & _ & _ & _ & -> & _)].
  - apply store_extends_refl.
  - apply (process_profiles_extends l (BatchState store0 _ [] [] [] [] [])).
Qed.

(** A batch keeps the store well formed: if every stored profile has an
    identifier of its own before the batch, so it is after it, and if no
    URL is stored twice before, none is after, whatever the collaborators
    answer and however the batch ends. *)
Theorem batch_keeps_ids_and_urls_distinct
    (profiles_list : list (profile_meta * responses)) (limit : option Z)
    (output_file : option workbook) (connect_ok max_id_query_ok : bool)
    (store0 : store) :
  let db1 := final_db (batch_process_excel profiles_list limit output_file
                         connect_ok max_id_query_ok store0) in
  (ids_distinct store0 -> ids_distinct db1)
  /\ (urls_distinct store0 -> urls_distinct db1).
Proof.
  cbn zeta.
  destruct (batch_process_excel_cases profiles_list limit output_file connect_ok
              max_id_query_ok store0) as [->|(l & _ & _ & _ & _ & -> & _)].
  - split; auto.
  - apply (process_profiles_invariants l (BatchState store0 _ [] [] [] [] [])).
Qed.

(** When the maximum is read, every identifier that the batch assigns is
    greater than every identifier stored before the batch. *)
Theorem batch_assigns_fresh_ids
    (profiles_list : list (profile_meta * responses)) (limit : option Z)
    (output_file : option workbook) (connect_ok : bool) (store0 : store)
    (stored assigned : Z) :
  In stored (omap row_id (profiles store0)) ->
  In assigned
     (omap assigned_id
        (outcomes (batch_process_excel profiles_list limit output_file connect_ok
                     true store0))) ->
  stored < assigned.
Proof.
  intros Hs Ha.
  destruct (batch_process_excel_cases profiles_list limit output_file connect_ok
              true store0) as [Hr|(l & _ & _ & _ & _ & _ & Hos)].
  - rewrite Hr in Ha. destruct Ha.
  - rewrite Hos in Ha.
    destruct (process_profiles_ids l
                (BatchState store0 (get_max_profile_id true store0) [] [] [] [] []))
      as [Hids _].
    cbn zeta in Hids. cbn [max_profile_id] in Hids.
    rewrite Hids in Ha. apply list_elem_of_In, elem_of_seqZ in Ha.
    pose proof (proj1 (get_max_profile_id_bounds store0) _ Hs). lia.
Qed.

(** A batch runs at most one iteration per submitted entry, and with a
    positive limit at most that many. *)
Theorem batch_respects_the_limit
    (profiles_list : list (profile_meta * responses)) (limit : option Z)
    (output_file : option workbook) (connect_ok max_id_query_ok : bool)
    (store0 : store) :
  let os := outcomes (batch_process_excel profiles_list limit output_file
                        connect_ok max_id_query_ok store0) in
  (length os <= length profiles_list)%nat
  /\ (forall n, limit = Some n -> 0 < n -> (length os <= Z.to_nat n)%nat).
Proof.
  cbn zeta.
  destruct (batch_process_excel_cases profiles_list limit output_file connect_ok
              max_id_query_ok store0) as [->|(l & _ & Hlen & Hlim & _ & _ & ->)].
  - cbn. split; [lia|intros; lia].
  - pose proof (process_profiles_length l
                  (BatchState store0 (get_max_profile_id max_id_query_ok store0)
                              [] [] [] [] [])) as Hl.
    split; [lia|]. intros n Hn Hpos. specialize (Hlim n Hn Hpos). lia.
Qed.

(** A batch whose URLs are all in the [profile_url] column of the
    spreadsheet's [Profiles] sheet returns at once: nothing is fetched,
    no identifier is assigned and the store is left as it was. *)
Theorem batch_skips_urls_already_in_the_spreadsheet
    (profiles_list : list (profile_meta * responses)) (limit : option Z)
    (output_file : option workbook) (connect_ok max_id_query_ok : bool)
    (store0 : store) :
  Forall (fun p => isin (get_existing_profiles output_file) (PStr (url p.1)) = true)
         profiles_list ->
  batch_process_excel profiles_list limit output_file connect_ok max_id_query_ok store0
  = BatchResult store0 (Some [[]; []; []; []]) [].
Proof.
  intros Hall. unfold batch_process_excel.
  destruct profiles_list as [|p0 ps]; [reflexivity|].
  assert (List.filter
            (fun p => negb (isin (get_existing_profiles output_file) (PStr (url p.1))))
            (p0 :: ps) = []) as ->; [|reflexivity].
  induction Hall as [|p l Hp Hl IH]; [reflexivity|].
  cbn [List.filter]. rewrite Hp. exact IH.
Qed.

(** ** The rows prepared for one profile *)

Lemma get_set_ne d k k' v default :
  k <> k' -> get (set d k v) k' default = get d k' default.
Proof. intros H. unfold get. now rewrite lookup_key_set_ne. Qed.

Lemma is_club_set_profile_id e v : is_club (set e "profile_id" v) = is_club e.
Proof.
  unfold is_club, str_or_empty. now rewrite !get_none_set_ne by discriminate.
Qed.

Lemma cert_data_profile_id current_profile_id certification row :
  cert_data current_profile_id certification = Some row ->
  get_none row "profile_id" = PInt current_profile_id.
Proof.
  unfold cert_data.
  destruct (as_dict certification) as [c|]; [|discriminate]. cbn [mbind option_bind].
  destruct (format_date (get_none c "issue_date")); [|discriminate].
  cbn [mbind option_bind].
  destruct (format_date (get_none c "expiration_date")); [|discriminate].
  cbn [mbind option_bind]. intros [= <-]. reflexivity.
Qed.

(** What [prepare_profile] hands over when it does not raise, in terms of
    the experiences, educations and certifications of the profile. *)
Lemma prepare_profile_rows profile_data meta current_profile_id p :
  prepare_profile profile_data meta current_profile_id = Some p ->
  exists edus exps certs,
    iter (get profile_data "educations" (PList [])) ≫= map_opt as_dict = Some edus
    /\ iter (get profile_data "experiences" (PList [])) ≫= map_opt as_dict = Some exps
    /\ iter (get profile_data "certifications" (PList []))
         ≫= map_opt (cert_data current_profile_id) = Some certs
    /\ current_educations p
       = map (fun e => set e "profile_id" (PInt current_profile_id)) edus
    /\ current_experiences p
       = List.filter (fun e => negb (is_club e))
           (map (fun e => set e "profile_id" (PInt current_profile_id)) exps)
    /\ current_club_experiences p
       = map (club_exp current_profile_id)
           (List.filter is_club
              (map (fun e => set e "profile_id" (PInt current_profile_id)) exps))
    /\ current_certifications p = certs.
Proof.
  unfold prepare_profile.
  destruct (is_leadership_role _ 65) as [l|]; [|discriminate].
  cbn [mbind option_bind].
  destruct (is_fortune_500 _) as [f|]; [|discriminate].
  cbn [mbind option_bind].
  destruct (is_entrepreneur _) as [e|]; [|discriminate].
  cbn [mbind option_bind].
  rewrite !get_set_ne by discriminate.
  destruct (iter (get profile_data "educations" (PList [])) ≫= map_opt as_dict)
    as [edus|]; [|discriminate].
  cbn [mbind option_bind].
  destruct (iter (get profile_data "experiences" (PList [])) ≫= map_opt as_dict)
    as [exps|]; [|discriminate].
  cbn [mbind option_bind].
  destruct (iter (get profile_data "certifications" (PList [])) ≫= map_opt _)
    as [certs|]; [|discriminate].
  cbn [mbind option_bind].
  intros [= <-]. exists edus, exps, certs. cbn. auto 10.
Qed.

Lemma prepare_profile_rows_ids
    (profile_data : dict) (meta : profile_meta) (current_profile_id : Z) (p : prepared) :
  prepare_profile profile_data meta current_profile_id = Some p ->
  Forall (fun row => get_none row "profile_id" = PInt current_profile_id)
         (current_educations p ++ current_experiences p
          ++ current_club_experiences p ++ current_certifications p)%list.
Proof.
  intros H. apply prepare_profile_rows in H
    as (edus & exps & certs & _ & _ & Hc & -> & -> & -> & ->).
  repeat (apply Forall_app; split); apply List.Forall_forall; intros row Hin.
  - apply in_map_iff in Hin as (e & <- & _). apply get_none_set_eq.
  - apply filter_In in Hin as [Hin _].
    apply in_map_iff in Hin as (e & <- & _). apply get_none_set_eq.
  - apply in_map_iff in Hin as (e & <- & _). reflexivity.
  - destruct (iter _) as [raw|]; [|discriminate]. cbn [mbind option_bind] in Hc.
    apply map_opt_Forall2 in Hc.
    induction Hc as [|c r cs rs Hcr _ IH]; [destruct Hin|].
    destruct Hin as [<-|Hin]; [|auto].
    eapply cert_data_profile_id; eauto.
Qed.

(** Every row prepared for a profile (education, experience, club
    experience, certification) carries the identifier assigned to that
    profile. *)
Theorem prepared_rows_carry_the_profile_id
    (profile_data : dict) (meta : profile_meta) (current_profile_id : Z) (p : prepared) :
  prepare_profile profile_data meta current_profile_id = Some p ->
  Forall (fun row => get_none row "profile_id" = PInt current_profile_id)
         (current_educations p ++ current_experiences p
          ++ current_club_experiences p ++ current_certifications p)%list.
Proof. exact (prepare_profile_rows_ids profile_data meta current_profile_id p). Qed.

Lemma club_exp_set_profile_id current_profile_id e v :
  club_exp current_profile_id (set e "profile_id" v) = club_exp current_profile_id e.
Proof.
  unfold club_exp, str_or_empty. now rewrite !get_none_set_ne by discriminate.
Qed.

Lemma map_opt_as_dict raw exps : map_opt as_dict raw = Some exps -> raw = map PDict exps.
Proof.
  intros H. apply map_opt_Forall2 in H.
  induction H as [|v e raw exps Hv _ IH]; [reflexivity|].
  destruct v; try discriminate. cbn in Hv. injection Hv as ->. cbn. now rewrite IH.
Qed.

Lemma filter_map_comm {A B : Type} (f : B -> bool) (g : A -> B) (l : list A) :
  List.filter f (map g l) = map g (List.filter (fun x => f (g x)) l).
Proof.
  induction l as [|x l IH]; [reflexivity|]. cbn.
  destruct (f (g x)); cbn; now rewrite IH.
Qed.

(** The experiences of a profile are split in two, in their order: the
    experience rows are the profile's experiences whose company and title
    contain none of the five club words (letter case aside), each with the
    profile identifier set, and the club rows are built one from each of
    the other experiences; so none is lost and none is in both. *)
Theorem experiences_are_partitioned
    (profile_data : dict) (meta : profile_meta) (current_profile_id : Z) (p : prepared)
    (raw : list pyval) :
  prepare_profile profile_data meta current_profile_id = Some p ->
  get profile_data "experiences" (PList []) = PList raw ->
  exists exps,
    raw = map PDict exps
    /\ current_experiences p
       = map (fun e => set e "profile_id" (PInt current_profile_id))
           (List.filter (fun e => negb (is_club e)) exps)
    /\ current_club_experiences p
       = map (club_exp current_profile_id) (List.filter is_club exps).
Proof.
  intros H Hraw. apply prepare_profile_rows in H
    as (edus & exps & certs & _ & Hx & _ & _ & -> & -> & _).
  rewrite Hraw in Hx. cbn [iter mbind option_bind] in Hx.
  exists exps. split; [now apply map_opt_as_dict|].
  rewrite !filter_map_comm. split.
  - f_equal. apply List.filter_ext. intros e. now rewrite is_club_set_profile_id.
  - rewrite List.map_map.
    rewrite (List.filter_ext _ is_club) by (intros e; apply is_club_set_profile_id).
    apply List.map_ext. intros e. apply club_exp_set_profile_id.
Qed.

(** ** The spreadsheet sink *)

Lemma has_column_In df k : has_column df k = true <-> In k (columns df).
Proof.
  unfold has_column. rewrite existsb_exists. split.
  - intros (x & Hx & Heq). apply String.eqb_eq in Heq. now subst.
  - intros H. exists k. split; [exact H|apply String.eqb_refl].
Qed.

Lemma isin_PStr values u : isin values (PStr u) = true <-> In (PStr u) values.
Proof.
  unfold isin. rewrite existsb_exists. split.
  - intros (v & Hv & Heq). destruct v; try discriminate.
    apply String.eqb_eq in Heq. now subst.
  - intros H. exists (PStr u). split; [exact H|apply String.eqb_refl].
Qed.

Lemma url_matches_PStr u r :
  url_matches (PStr u) r = true <-> get_none r "profile_url" = PStr u.
Proof.
  unfold url_matches. destruct (get_none r "profile_url"); try (split; discriminate).
  rewrite String.eqb_eq. split; congruence.
Qed.

Lemma filter_none {A : Type} (f : A -> bool) (l : list A) :
  (forall x, In x l -> f x = false) -> List.filter f l = [].
Proof.
  induction l as [|x l IH]; intros H; [reflexivity|]. cbn.
  rewrite (H x (or_introl eq_refl)). apply IH. intros y Hy. apply H. now right.
Qed.

Lemma filter_filter_none {A : Type} (f g : A -> bool) (l : list A) :
  (forall x, f x = true -> g x = false) ->
  List.filter f (List.filter g l) = [].
Proof.
  intros H. induction l as [|x l IH]; [reflexivity|]. cbn.
  destruct (g x) eqn:Hg; [|exact IH]. cbn.
  destruct (f x) eqn:Hf; [|exact IH]. apply H in Hf. congruence.
Qed.

Lemma filter_filter_all {A : Type} (f g : A -> bool) (l : list A) :
  (forall x, f x = true -> g x = true) ->
  List.filter f (List.filter g l) = List.filter f l.
Proof.
  intros H. induction l as [|x l IH]; [reflexivity|]. cbn.
  destruct (g x) eqn:Hg; cbn.
  - destruct (f x); [f_equal|]; exact IH.
  - destruct (f x) eqn:Hf; [|exact IH]. apply H in Hf. congruence.
Qed.

(** Merge by URL: appending profile rows to an existing file replaces the
    rows of the [Profiles] sheet that have the URL of a new row, and keeps
    the others: for a URL among the new rows the sheet holds the new rows
    of that URL and no old one, for any other URL it holds the old rows as
    they were. *)
Theorem appended_profiles_replace_rows_of_the_same_url
    (xls : workbook)
    (profiles_rows educations_rows experiences_rows club_experiences_rows
     certifications_rows : list dict)
    (written : workbook) (existing : frame) :
  write_to_excel (Some xls) profiles_rows educations_rows experiences_rows
    club_experiences_rows certifications_rows true = Some written ->
  read_excel xls "Profiles" = Some existing ->
  has_column (DataFrame profiles_rows) "profile_url" = true ->
  profiles_rows <> [] ->
  exists sheet,
    read_excel written "Profiles" = Some sheet
    /\ forall u,
         (In (PStr u) (column (DataFrame profiles_rows) "profile_url") ->
          List.filter (url_matches (PStr u)) (rows sheet)
          = List.filter (url_matches (PStr u)) profiles_rows)
         /\ (~ In (PStr u) (column (DataFrame profiles_rows) "profile_url") ->
             List.filter (url_matches (PStr u)) (rows sheet)
             = List.filter (url_matches (PStr u)) (rows existing)).
Proof.
  intros Hw Hex Hcol Hne.
  unfold write_to_excel, merge_with_existing in Hw. rewrite Hex in Hw.
  cbn [mbind option_bind] in Hw.
  destruct (read_excel xls "Educations"); [|discriminate].
  cbn [mbind option_bind] in Hw.
  destruct (read_excel xls "Experiences"); [|discriminate].
  cbn [mbind option_bind] in Hw.
  assert (frame_empty (DataFrame profiles_rows) = false) as Hnonempty.
  { unfold frame_empty. cbn [rows DataFrame].
    destruct profiles_rows as [|r0 rs]; [contradiction|].
    apply has_column_In in Hcol.
    destruct (columns (DataFrame (r0 :: rs))); [destruct Hcol|reflexivity]. }
  rewrite Hnonempty, Hcol in Hw. cbn [negb andb] in Hw.
  destruct (has_column existing "profile_url"); [|discriminate].
  cbn [mbind option_bind] in Hw. injection Hw as <-.
  eexists. split; [reflexivity|].
  intros u. cbn [concat rows]. rewrite List.filter_app.
  change (rows (DataFrame profiles_rows)) with profiles_rows.
  set (new_urls := column (DataFrame profiles_rows) "profile_url").
  split.
  - intros Hin. rewrite filter_filter_none; [reflexivity|].
    intros r Hm. apply url_matches_PStr in Hm. rewrite Hm.
    apply isin_PStr in Hin. now rewrite Hin.
  - intros Hnot. rewrite filter_filter_all.
    + rewrite (filter_none _ profiles_rows); [apply app_nil_r|].
      intros r Hr. destruct (url_matches (PStr u) r) eqn:Hm; [|reflexivity].
      apply url_matches_PStr in Hm. exfalso. apply Hnot.
      unfold new_urls, column. apply in_map_iff. exists r. auto.
    + intros r Hm. apply url_matches_PStr in Hm. rewrite Hm.
      destruct (isin new_urls (PStr u)) eqn:E; [|reflexivity].
      apply isin_PStr in E. contradiction.
Qed.

(** ** The input sheet *)

(** The URL that a row contributes, if it contributes one. *)
Lemma excel_row_url df row :
  excel_row df row
  = match get_none row "Linkedin Profile" with
    | PNone => Some None
    | PStr cell =>
        if negb (is_empty (strip cell)) && contains "/in/" cell
        then Some (Some (ProfileMeta cell
                           (row_get df row "Full Name") (row_get df row "Batch")
                           (row_get df row "Programme") (row_get df row "Gender")
                           (row_get df row "Passing Year")
                           (row_get df row "Admission Year Year")))
        else Some None
    | _ => None
    end.
Proof.
  unfold excel_row, extract_profile_url_from_search.
  destruct (get_none row "Linkedin Profile"); try reflexivity.
  destruct (is_empty (strip s)); [reflexivity|].
  destruct (contains "/in/" s); reflexivity.
Qed.

Lemma excel_rows_of_text_cells df rs :
  Forall (fun row => get_none row "Linkedin Profile" = PNone
                     \/ exists cell, get_none row "Linkedin Profile" = PStr cell) rs ->
  exists metas,
    map_opt (excel_row df) rs = Some metas
    /\ map url (omap id metas)
       = List.filter (fun cell => negb (is_empty (strip cell)) && contains "/in/" cell)
           (omap (fun row => as_str (get_none row "Linkedin Profile")) rs).
Proof.
  induction 1 as [|row rs Hrow _ (metas & Hm & Hu)].
  - exists []. split; reflexivity.
  - cbn [map_opt]. rewrite excel_row_url.
    cbn [omap list_omap]. fold (@omap list _ dict string).
    destruct Hrow as [Hrow|[cell Hrow]]; rewrite Hrow, Hm; cbn [as_str].
    + exists (None :: metas). split; [reflexivity|exact Hu].
    + cbn [List.filter].
      destruct (negb (is_empty (strip cell)) && contains "/in/" cell);
        eexists; (split; [reflexivity|]); cbn; now rewrite <- Hu.
Qed.

(** Every entry that [process_excel_file] returns has a URL that is not
    blank and contains [/in/], so [fetch_linkedin_data] does not turn it
    down as a search URL.  When every cell of the URL column is text or
    empty, the URLs returned are the cells that are not blank and contain
    [/in/], in sheet order, a repeated URL being returned each time. *)
Theorem process_excel_file_keeps_profile_urls (file : option frame) :
  Forall (fun m => is_empty (strip (url m)) = false
                   /\ extract_profile_url_from_search (url m) = Some (url m))
         (process_excel_file file)
  /\ (forall df,
        file = Some df ->
        has_column df "Linkedin Profile" = true ->
        has_column df "Full Name" = true ->
        Forall (fun row => get_none row "Linkedin Profile" = PNone
                           \/ exists cell, get_none row "Linkedin Profile" = PStr cell)
               (rows df) ->
        map url (process_excel_file file)
        = List.filter (fun cell => negb (is_empty (strip cell)) && contains "/in/" cell)
            (omap (fun row => as_str (get_none row "Linkedin Profile")) (rows df))).
Proof.
  split.
  - unfold process_excel_file. destruct file as [df|]; [|constructor].
    destruct (_ && _); [|constructor].
    destruct (map_opt (excel_row df) (rows df)) as [metas|] eqn:Hm; [|constructor].
    apply map_opt_Forall2 in Hm.
    induction Hm as [|row om rs oms Hrow _ IH]; [constructor|].
    cbn. destruct om as [m|]; [|exact IH]. cbn. constructor; [|exact IH].
    rewrite excel_row_url in Hrow.
    destruct (get_none row "Linkedin Profile"); try discriminate.
    destruct (negb (is_empty (strip s)) && contains "/in/" s) eqn:E; [|discriminate].
    injection Hrow as <-. cbn [url].
    apply andb_true_iff in E as [He Hc]. apply negb_true_iff in He.
    unfold extract_profile_url_from_search. now rewrite Hc.
  - intros df -> Hc1 Hc2 Hcells. unfold process_excel_file. rewrite Hc1, Hc2. cbn [andb].
    destruct (excel_rows_of_text_cells df (rows df) Hcells) as (metas & -> & Hu).
    exact Hu.
Qed.

(** [process_excel_file] returns the empty list when the file cannot be
    read, when the sheet lacks the [Linkedin Profile] or the [Full Name]
    column, and when one cell of the URL column is a number: the rows
    read before that cell are lost with it. *)
Theorem process_excel_file_gives_up_on_one_bad_cell :
  process_excel_file None = []
  /\ (forall df,
        has_column df "Linkedin Profile" = false \/ has_column df "Full Name" = false ->
        process_excel_file (Some df) = [])
  /\ (forall df row z,
        In row (rows df) ->
        get_none row "Linkedin Profile" = PInt z ->
        process_excel_file (Some df) = []).
Proof.
  split; [reflexivity|]. split.
  - intros df [H|H]; unfold process_excel_file; rewrite H;
      [reflexivity|now rewrite andb_false_r].
  - intros df row z Hin Hcell. unfold process_excel_file.
    destruct (_ && _); [|reflexivity].
    assert (map_opt (excel_row df) (rows df) = None) as ->; [|reflexivity].
    induction (rows df) as [|r rs IH]; [destruct Hin|].
    cbn [map_opt]. destruct Hin as [->|Hin].
    + unfold excel_row. now rewrite Hcell.
    + rewrite (IH Hin). now destruct (excel_row df r).
Qed.

(** ** What the batch returns *)

Lemma references_more ids ids' row :
  references ids row -> references (ids ++ ids')%list row.
Proof. intros (i & Hin & Hrow). exists i. split; [apply in_or_app; now left|exact Hrow]. Qed.

(** What one iteration adds to the lists kept for the spreadsheet: the
    rows of its profile when it is saved, nothing otherwise. *)
Lemma process_profile_returned st meta r st' o :
  process_profile st meta r = (st', o) ->
  match saved_id o with
  | Some i =>
      exists p,
        get_none (prepared_profile p) "profile_id" = PInt i
        /\ get_none (prepared_profile p) "profile_url" = PStr (url meta)
        /\ Forall (fun row => get_none row "profile_id" = PInt i)
                  (current_educations p ++ current_experiences p
                   ++ current_club_experiences p ++ current_certifications p)%list
        /\ profiles_data st' = (profiles_data st ++ [prepared_profile p])%list
        /\ educations_data st' = (educations_data st ++ current_educations p)%list
        /\ experiences_data st' = (experiences_data st ++ current_experiences p)%list
        /\ club_experiences_data st'
           = (club_experiences_data st ++ current_club_experiences p)%list
        /\ certifications_data st'
           = (certifications_data st ++ current_certifications p)%list
        /\ In i (omap row_id (profiles (db st')))
  | None =>
      profiles_data st' = profiles_data st
      /\ educations_data st' = educations_data st
      /\ experiences_data st' = experiences_data st
      /\ club_experiences_data st' = club_experiences_data st
      /\ certifications_data st' = certifications_data st
  end.
Proof.
  unfold process_profile.
  destruct (truthy (profile_exists _ _ _)); [intros [= <- <-]; cbn; auto|].
  destruct (fetch_linkedin_data _ _ ≫= as_dict) as [pd|];
    [|intros [= <- <-]; cbn; auto].
  destruct (prepare_profile pd meta _) as [p|] eqn:Hp;
    [|intros [= <- <-]; cbn; auto].
  destruct (insert_single_profile _ _ _ _ _ _ _) as [db1 saved] eqn:Hins.
  destruct saved; intros [= <- <-]; cbn; [|auto].
  pose proof (prepare_profile_rows_ids _ _ _ _ Hp) as Hrows.
  apply prepare_profile_identity in Hp as [Hid Hpurl].
  exists p. repeat (split; [first [assumption|reflexivity]|]).
  apply insert_single_profile_saved in Hins as [_ ->].
  rewrite omap_app. apply in_or_app. right.
  cbn. unfold row_id. cbn. rewrite Hid. now left.
Qed.

Lemma stored_ids_kept db0 db1 i :
  store_extends db0 db1 ->
  In i (omap row_id (profiles db0)) -> In i (omap row_id (profiles db1)).
Proof.
  intros ([k Hk] & _) Hin. rewrite Hk, omap_app. apply in_or_app. now left.
Qed.

Lemma process_profiles_returned new_profiles : forall st ids,
  map (fun row => get_none row "profile_id") (profiles_data st) = map PInt ids ->
  Forall (references ids)
         (educations_data st ++ experiences_data st
          ++ club_experiences_data st ++ certifications_data st)%list ->
  Forall (fun i => In i (omap row_id (profiles (db st)))) ids ->
  let st' := (process_profiles st new_profiles).1 in
  let ids' := (ids ++ omap saved_id (process_profiles st new_profiles).2)%list in
  map (fun row => get_none row "profile_id") (profiles_data st') = map PInt ids'
  /\ Forall (references ids')
            (educations_data st' ++ experiences_data st'
             ++ club_experiences_data st' ++ certifications_data st')%list
  /\ Forall (fun i => In i (omap row_id (profiles (db st')))) ids'.
Proof.
  induction new_profiles as [|[meta r] rest IH]; intros st ids Hp Hc Hs; cbn zeta.
  - cbn. rewrite app_nil_r. auto.
  - cbn [process_profiles].
    destruct (process_profile st meta r) as [st1 o] eqn:Hstep.
    pose proof (process_profile_returned _ _ _ _ _ Hstep) as Hret.
    pose proof (proj1 (process_profile_appends _ _ _ _ _ Hstep)) as Hext.
    assert (map (fun row => get_none row "profile_id") (profiles_data st1)
            = map PInt (ids ++ omap saved_id [o])%list
            /\ Forall (references (ids ++ omap saved_id [o])%list)
                      (educations_data st1 ++ experiences_data st1
                       ++ club_experiences_data st1 ++ certifications_data st1)%list
            /\ Forall (fun i => In i (omap row_id (profiles (db st1))))
                      (ids ++ omap saved_id [o])%list) as (Hp1 & Hc1 & Hs1).
    { assert (Forall (fun i => In i (omap row_id (profiles (db st1)))) ids) as Hs'.
      { eapply Forall_impl; [exact Hs|]. intros i. now apply stored_ids_kept. }
      destruct (saved_id o) as [i|] eqn:Hso.
      - destruct Hret as (p & Hid & _ & Hrows & -> & -> & -> & -> & -> & Hin).
        assert (omap saved_id [o] = [i]) as -> by (cbn; now rewrite Hso).
        split; [|split].
        + rewrite !map_app, Hp. cbn. now rewrite Hid.
        + apply Forall_app in Hc as (He & Hc). apply Forall_app in Hc as (Hx & Hc).
          apply Forall_app in Hc as (Hcl & Hce).
          apply Forall_app in Hrows as (Re & Rc). apply Forall_app in Rc as (Rx & Rc).
          apply Forall_app in Rc as (Rcl & Rce).
          assert (forall l, Forall (references ids) l ->
                            Forall (references (ids ++ [i])%list) l) as Hold.
          { intros l Hl. eapply Forall_impl; [exact Hl|].
            intros row. apply references_more. }
          assert (forall l, Forall (fun row => get_none row "profile_id" = PInt i) l ->
                            Forall (references (ids ++ [i])%list) l) as Hnew.
          { intros l Hl. eapply Forall_impl; [exact Hl|].
            intros row Hrow. exists i. split; [apply in_or_app; right; now left|exact Hrow]. }
          repeat (apply Forall_app; split); auto.
        + apply Forall_app. split; [exact Hs'|]. constructor; [exact Hin|constructor].
      - destruct Hret as (-> & -> & -> & -> & ->).
        assert (omap saved_id [o] = []) as -> by (cbn; now rewrite Hso).
        rewrite app_nil_r. auto. }
    destruct o; try (cbn [fst snd]; exact (conj Hp1 (conj Hc1 Hs1)));
      specialize (IH st1 _ Hp1 Hc1 Hs1); cbn zeta in IH;
      destruct (process_profiles st1 rest) as [st2 os]; cbn [fst snd] in IH |- *;
      cbn in IH |- *; rewrite <- ?app_assoc in IH; exact IH.
Qed.

Lemma process_profiles_raised_last new_profiles : forall st,
  let os := (process_profiles st new_profiles).2 in
  existsb raised os = false
  \/ exists init i, os = (init ++ [Raised i])%list /\ existsb raised init = false.
Proof.
  induction new_profiles as [|[meta r] rest IH]; intros st; cbn zeta; [now left|].
  cbn [process_profiles].
  destruct (process_profile st meta r) as [st' o].
  specialize (IH st'). cbn zeta in IH.
  destruct (process_profiles st' rest) as [st'' os]. cbn [snd] in IH |- *.
  destruct o; cbn [snd];
    try (destruct IH as [IH|(init & i & -> & Hinit)];
         [left; cbn; exact IH
         |right; eexists (_ :: init), i; split; [reflexivity|cbn; exact Hinit]]).
  right. exists [], profile_id. split; reflexivity.
Qed.

(** The value that [batch_process_excel] returns, from the state in which
    its loop ends. *)
Lemma batch_process_excel_returned profiles_list limit output_file connect_ok
    max_id_query_ok store0 :
  let r := batch_process_excel profiles_list limit output_file connect_ok
             max_id_query_ok store0 in
  r = BatchResult store0 (Some [[]; []; []; []]) []
  \/ exists new_profiles,
       let run := process_profiles
                    (BatchState store0 (get_max_profile_id max_id_query_ok store0)
                                [] [] [] [] []) new_profiles in
       r = BatchResult (db run.1)
             (if existsb raised run.2 then None
              else Some [profiles_data run.1; educations_data run.1;
                         experiences_data run.1; club_experiences_data run.1;
                         certifications_data run.1])
             run.2.
Proof.
  cbn zeta. unfold batch_process_excel.
  destruct profiles_list as [|p0 ps]; [now left|].
  destruct (List.filter _ (p0 :: ps)) as [|n0 ns]; [now left|].
  destruct connect_ok; cbn [negb]; [|now left].
  right.
  match goal with
  | |- context [process_profiles ?st ?l] =>
      exists l; destruct (process_profiles st l) as [st' os]
  end.
  reflexivity.
Qed.

(** The rows that the batch returns for the spreadsheet are those of the
    profiles it saved: the profile rows carry the identifiers of the saved
    profiles, in order, every returned education, experience, club
    experience and certification row carries the identifier of one of
    them, and each of these profiles is in the store. *)
Theorem returned_rows_belong_to_saved_profiles
    (profiles_list : list (profile_meta * responses)) (limit : option Z)
    (output_file : option workbook) (connect_ok max_id_query_ok : bool)
    (store0 : store) (returned_profiles : list dict) (others : list (list dict)) :
  let r := batch_process_excel profiles_list limit output_file connect_ok
             max_id_query_ok store0 in
  returned r = Some (returned_profiles :: others) ->
  map (fun row => get_none row "profile_id") returned_profiles
  = map PInt (omap saved_id (outcomes r))
  /\ Forall (Forall (references (omap saved_id (outcomes r)))) others
  /\ Forall (fun i => In i (omap row_id (profiles (final_db r))))
            (omap saved_id (outcomes r)).
Proof.
  cbn zeta.
  destruct (batch_process_excel_returned profiles_list limit output_file connect_ok
              max_id_query_ok store0) as [->|(l & ->)].
  - cbn. intros [= <- <-]. repeat split; repeat constructor.
  - cbn zeta. cbn [returned outcomes final_db].
    destruct (existsb raised _); [discriminate|]. intros [= <- <-].
    destruct (process_profiles_returned l
                (BatchState store0 (get_max_profile_id max_id_query_ok store0)
                            [] [] [] [] []) [])
      as (Hp & Hc & Hs); [reflexivity|constructor|constructor|].
    cbn zeta in Hp, Hc, Hs. cbn [app] in Hp, Hc, Hs.
    split; [exact Hp|]. split; [|exact Hs].
    apply Forall_app in Hc as (He & Hc). apply Forall_app in Hc as (Hx & Hc).
    apply Forall_app in Hc as (Hcl & Hce).
    repeat constructor; assumption.
Qed.

(** The loop has no handler, so an exception in one iteration leaves
    [batch_process_excel]: that iteration is the last one that ran and the
    only one that raised, and what the iterations before it saved stays
    in the store. *)
Theorem an_exception_ends_the_batch
    (profiles_list : list (profile_meta * responses)) (limit : option Z)
    (output_file : option workbook) (connect_ok max_id_query_ok : bool)
    (store0 : store) :
  let r := batch_process_excel profiles_list limit output_file connect_ok
             max_id_query_ok store0 in
  existsb raised (outcomes r) = true ->
  (exists before i, outcomes r = (before ++ [Raised i])%list
                    /\ existsb raised before = false)
  /\ Forall (fun i => In i (omap row_id (profiles (final_db r))))
            (omap saved_id (outcomes r)).
Proof.
  cbn zeta.
  destruct (batch_process_excel_returned profiles_list limit output_file connect_ok
              max_id_query_ok store0) as [->|(l & ->)]; [discriminate|].
  cbn zeta. cbn [returned outcomes final_db]. intros Hr.
  split.
  - destruct (process_profiles_raised_last l
                (BatchState store0 (get_max_profile_id max_id_query_ok store0)
                            [] [] [] [] [])) as [H|H]; [congruence|exact H].
  - destruct (process_profiles_returned l
                (BatchState store0 (get_max_profile_id max_id_query_ok store0)
                            [] [] [] [] []) [])
      as (_ & _ & Hs); [reflexivity|constructor|constructor|].
    exact Hs.
Qed.

(** ** The bulk upsert *)

Lemma set_same d k v : lookup_key d k = Some v -> set d k v = d.
Proof.
  induction d as [|[k' v'] d IH]; [discriminate|]. cbn.
  destruct (String.eqb_spec k' k) as [->|Hne].
  - now intros [= ->].
  - intros H. now rewrite IH.
Qed.

Lemma In_lookup_key d k v :
  NoDup (map fst d) -> In (k, v) d -> lookup_key d k = Some v.
Proof.
  induction d as [|[k' v'] d IH]; intros Hnd Hin; [destruct Hin|].
  cbn in Hnd. apply NoDup_cons in Hnd as [Hnotin Hnd]. cbn.
  destruct Hin as [[= -> ->]|Hin]; [now rewrite String.eqb_refl|].
  destruct (String.eqb_spec k' k) as [->|Hne]; [|now apply IH].
  exfalso. apply Hnotin. apply list_elem_of_In, in_map_iff. now exists (k, v).
Qed.

Lemma lookup_key_In_pair d k v : lookup_key d k = Some v -> In (k, v) d.
Proof.
  induction d as [|[k' v'] d IH]; [discriminate|]. cbn.
  destruct (String.eqb_spec k' k) as [->|Hne].
  - intros [= ->]. now left.
  - intros H. right. now apply IH.
Qed.

Lemma update_profile_fold profile l row :
  fold_left (fun row kv =>
               if is_flag (fst kv) then set row (fst kv) (flag profile (fst kv))
               else if existsb (String.eqb (fst kv)) Profile_attributes
                    then set row (fst kv) (snd kv)
                    else row) l row
  = fold_left (fun row kv => match stored_value profile kv with
                             | Some v => set row (fst kv) v
                             | None => row
                             end) l row.
Proof.
  revert row. induction l as [|kv l IH]; intros row; [reflexivity|].
  cbn [fold_left]. rewrite IH. f_equal. unfold stored_value.
  destruct (is_flag (fst kv)); [reflexivity|].
  destruct (existsb _ Profile_attributes); reflexivity.
Qed.

Lemma update_items_other profile l : forall row k,
  ~ In k (map fst l) ->
  lookup_key (fold_left (fun row kv => match stored_value profile kv with
                                       | Some v => set row (fst kv) v
                                       | None => row
                                       end) l row) k
  = lookup_key row k.
Proof.
  induction l as [|kv l IH]; intros row k Hk; [reflexivity|].
  cbn [fold_left]. rewrite IH by (intros H; apply Hk; now right).
  destruct (stored_value profile kv); [|reflexivity].
  apply lookup_key_set_ne. intros Heq. apply Hk. left. exact Heq.
Qed.

Lemma update_items_lookup profile l : forall row k v w,
  NoDup (map fst l) -> In (k, v) l ->
  stored_value profile (k, v) = Some w ->
  lookup_key (fold_left (fun row kv => match stored_value profile kv with
                                       | Some v => set row (fst kv) v
                                       | None => row
                                       end) l row) k
  = Some w.
Proof.
  induction l as [|kv l IH]; intros row k v w Hnd Hin Hw; [destruct Hin|].
  cbn in Hnd. apply NoDup_cons in Hnd as [Hnotin Hnd]. cbn [fold_left].
  destruct Hin as [->|Hin].
  - rewrite update_items_other
      by (intros H; apply Hnotin; now apply list_elem_of_In).
    rewrite Hw. apply lookup_key_set_eq.
  - eapply IH; eauto.
Qed.

Lemma update_items_fixed profile l : forall row,
  (forall kv w, In kv l -> stored_value profile kv = Some w ->
                lookup_key row (fst kv) = Some w) ->
  fold_left (fun row kv => match stored_value profile kv with
                           | Some v => set row (fst kv) v
                           | None => row
                           end) l row
  = row.
Proof.
  induction l as [|kv l IH]; intros row H; [reflexivity|].
  cbn [fold_left].
  assert (match stored_value profile kv with
          | Some v => set row (fst kv) v
          | None => row
          end = row) as ->.
  { destruct (stored_value profile kv) as [w|] eqn:Hw; [|reflexivity].
    apply set_same. apply H; [now left|exact Hw]. }
  apply IH. intros kv' w Hin. apply H. now right.
Qed.

Lemma update_profile_idem profile row :
  NoDup (map fst profile) ->
  update_profile profile (update_profile profile row) = update_profile profile row.
Proof.
  intros Hnd. unfold update_profile at 1. rewrite update_profile_fold.
  apply update_items_fixed. intros [k v] w Hin Hw.
  unfold update_profile. rewrite update_profile_fold.
  eapply update_items_lookup; eauto.
Qed.

Lemma update_profile_new profile :
  profile_keys_ok profile ->
  update_profile profile (new_Profile profile) = new_Profile profile.
Proof.
  intros (Hnd & Hid & _). unfold update_profile. rewrite update_profile_fold.
  apply update_items_fixed. intros [k v] w Hin Hw.
  pose proof (In_lookup_key _ _ _ Hnd Hin) as Hl.
  assert (k <> "id") as Hk.
  { intros ->. apply Hid. apply in_map_iff. now exists ("id", v). }
  unfold stored_value in Hw. cbn [fst snd] in Hw |- *.
  destruct (is_flag k) eqn:Hf.
  - injection Hw as <-. unfold is_flag in Hf.
    apply orb_true_iff in Hf as [Hf|Hf]; [apply orb_true_iff in Hf as [Hf|Hf]|];
      apply String.eqb_eq in Hf; subst k; reflexivity.
  - destruct (existsb (String.eqb k) Profile_attributes) eqn:Ha; [|discriminate].
    injection Hw as <-.
    apply existsb_exists in Ha as (a & Hain & Heq).
    apply String.eqb_eq in Heq. subst a.
    cbn in Hain.
    repeat (destruct Hain as [<-|Hain];
            [first [contradiction (Hk eq_refl)
                   |discriminate Hf
                   |cbn; unfold get_none, get; rewrite Hl; reflexivity]|]).
    destruct Hain.
Qed.

Lemma update_profile_row_id profile row z :
  NoDup (map fst profile) ->
  get_none profile "profile_id" = PInt z ->
  row_id (update_profile profile row) = Some z.
Proof.
  intros Hnd Hz.
  assert (lookup_key (update_profile profile row) "profile_id" = Some (PInt z)) as Hl.
  { unfold update_profile. rewrite update_profile_fold.
    apply (update_items_lookup profile profile row "profile_id" (PInt z));
      [exact Hnd| |reflexivity].
    apply lookup_key_In_pair. unfold get_none, get in Hz.
    destruct (lookup_key profile "profile_id"); [now subst|discriminate]. }
  unfold row_id, get_none, get. now rewrite Hl.
Qed.

Lemma has_id_true z row : has_id (PInt z) row = true <-> row_id row = Some z.
Proof.
  unfold has_id. destruct (row_id row) as [z'|]; [|split; discriminate].
  rewrite Z.eqb_eq. split; congruence.
Qed.

Lemma has_id_other z z' row :
  row_id row = Some z -> z' <> z -> has_id (PInt z') row = false.
Proof.
  intros Hr Hne. unfold has_id. rewrite Hr. apply Z.eqb_neq. exact Hne.
Qed.

Lemma upsert_profile_written table : forall profile z table' written,
  profile_keys_ok profile ->
  get_none profile "profile_id" = PInt z ->
  upsert_profile table profile = (table', written) ->
  find (has_id (PInt z)) table' = Some written
  /\ update_profile profile written = written.
Proof.
  induction table as [|row rest IH]; intros profile z table' written Hok Hz; cbn [upsert_profile].
  - intros [= <- <-]. split; [|now apply update_profile_new].
    cbn [find]. assert (has_id (PInt z) (new_Profile profile) = true) as ->; [|reflexivity].
    apply has_id_true. unfold row_id. cbn. now rewrite Hz.
  - rewrite Hz. destruct (has_id (PInt z) row) eqn:Hrow.
    + intros [= <- <-]. destruct Hok as (Hnd & _).
      split; [|now apply update_profile_idem].
      cbn [find]. assert (has_id (PInt z) (update_profile profile row) = true) as ->;
        [|reflexivity].
      apply has_id_true. now apply update_profile_row_id.
    + destruct (upsert_profile rest profile) as [rest' w] eqn:Hrest.
      intros [= <- <-]. cbn [find]. rewrite Hrow. eapply IH; eauto.
Qed.

Lemma upsert_profile_settled table : forall profile z row,
  get_none profile "profile_id" = PInt z ->
  find (has_id (PInt z)) table = Some row ->
  update_profile profile row = row ->
  upsert_profile table profile = (table, row).
Proof.
  induction table as [|r rest IH]; intros profile z row Hz Hfind Hfix;
    [discriminate|].
  cbn [find upsert_profile] in Hfind |- *. rewrite Hz. destruct (has_id (PInt z) r).
  - injection Hfind as ->. now rewrite Hfix.
  - now rewrite (IH profile z row Hz Hfind Hfix).
Qed.

Lemma upsert_profile_other table : forall profile z z' table' written,
  NoDup (map fst profile) ->
  get_none profile "profile_id" = PInt z ->
  z' <> z ->
  upsert_profile table profile = (table', written) ->
  find (has_id (PInt z')) table' = find (has_id (PInt z')) table.
Proof.
  induction table as [|row rest IH]; intros profile z z' table' written Hnd Hz Hne; cbn [upsert_profile].
  - intros [= <- <-]. cbn [find].
    rewrite (has_id_other z z'); [reflexivity| |exact Hne].
    unfold row_id. cbn. now rewrite Hz.
  - rewrite Hz. destruct (has_id (PInt z) row) eqn:Hrow.
    + intros [= <- <-]. cbn [find].
      rewrite (has_id_other z z' (update_profile profile row));
        [|now apply update_profile_row_id|exact Hne].
      apply has_id_true in Hrow. now rewrite (has_id_other z z' row Hrow Hne).
    + destruct (upsert_profile rest profile) as [rest' w] eqn:Hrest.
      intros [= <- <-]. cbn [find]. destruct (has_id (PInt z') row); [reflexivity|].
      eapply IH; eauto.
Qed.

Lemma upsert_profiles_other profiles_rows : forall table table1 z',
  Forall profile_keys_ok profiles_rows ->
  ~ In (PInt z') (map (fun p => get_none p "profile_id") profiles_rows) ->
  upsert_profiles table profiles_rows = Some table1 ->
  find (has_id (PInt z')) table1 = find (has_id (PInt z')) table.
Proof.
  induction profiles_rows as [|p ps IH]; intros table table1 z' Hok Hnotin; cbn.
  - now intros [= <-].
  - apply Forall_cons in Hok as [(Hnd & _ & z & Hz) Hok].
    destruct (upsert_profile table p) as [table' w] eqn:Hup.
    destruct (Profile_accepted w); [|discriminate]. intros Hrest.
    rewrite (IH table' table1 z' Hok); [|intros H; apply Hnotin; now right|exact Hrest].
    eapply upsert_profile_other; eauto.
    intros ->. apply Hnotin. left. exact Hz.
Qed.

Lemma upsert_profiles_settles profiles_rows : forall table table1,
  Forall profile_keys_ok profiles_rows ->
  NoDup (map (fun p => get_none p "profile_id") profiles_rows) ->
  upsert_profiles table profiles_rows = Some table1 ->
  Forall (settled table1) profiles_rows.
Proof.
  induction profiles_rows as [|p ps IH]; intros table table1 Hok Hnd; [constructor|].
  cbn. apply Forall_cons in Hok as [Hp Hok].
  cbn in Hnd. apply NoDup_cons in Hnd as [Hnotin Hnd].
  destruct (upsert_profile table p) as [table' w] eqn:Hup.
  destruct (Profile_accepted w) eqn:Hacc; [|discriminate]. intros Hrest.
  constructor; [|eapply IH; eauto].
  destruct Hp as (Hkeys & Hnoid & z & Hz).
  destruct (upsert_profile_written table p z table' w) as [Hfind Hfix];
    [repeat split; eauto|exact Hz|exact Hup|].
  exists w. rewrite Hz.
  rewrite (upsert_profiles_other ps table' table1 z Hok); [auto| |exact Hrest].
  rewrite <- Hz. intros H. apply Hnotin. now apply list_elem_of_In.
Qed.

Lemma upsert_profiles_fixed profiles_rows : forall table,
  Forall profile_keys_ok profiles_rows ->
  Forall (settled table) profiles_rows ->
  upsert_profiles table profiles_rows = Some table.
Proof.
  induction profiles_rows as [|p ps IH]; intros table Hok Hs; [reflexivity|].
  apply Forall_cons in Hok as [(_ & _ & z & Hz) Hok].
  apply Forall_cons in Hs as [(row & Hfind & Hfix & Hacc) Hs].
  cbn. rewrite Hz in Hfind.
  rewrite (upsert_profile_settled table p z row Hz Hfind Hfix), Hacc.
  now apply IH.
Qed.

Lemma replace_children_twice profile_ids table new_rows :
  Forall (fun row => id_in profile_ids row = true) new_rows ->
  replace_children profile_ids (replace_children profile_ids table new_rows) new_rows
  = replace_children profile_ids table new_rows.
Proof.
  intros H. unfold replace_children. rewrite List.filter_app. f_equal.
  rewrite filter_filter_all by auto.
  rewrite (filter_none _ new_rows); [apply app_nil_r|].
  intros row Hin. rewrite List.Forall_forall in H. now rewrite (H row Hin).
Qed.

Lemma children_are_listed (build : dict -> option dict) profile_ids children new_rows :
  (forall c row, build c = Some row ->
                 exists z, py_int (get_none c "profile_id") = Some z
                           /\ row_id row = Some z) ->
  Forall (child_of profile_ids) children ->
  map_opt build children = Some new_rows ->
  Forall (fun row => id_in profile_ids row = true) new_rows.
Proof.
  intros Hbuild Hc Hm. apply map_opt_Forall2 in Hm.
  induction Hm as [|c row cs rows Hrow _ IH]; [constructor|].
  apply Forall_cons in Hc as [(z & Hz & Hin) Hc]. constructor; [|now apply IH].
  destruct (Hbuild c row Hrow) as (z' & Hz' & Hid).
  rewrite Hz in Hz'. injection Hz' as <-.
  unfold id_in. rewrite Hid. apply existsb_exists.
  exists (PInt z). split; [exact Hin|apply Z.eqb_refl].
Qed.

Lemma new_Education_id c row :
  new_Education c = Some row ->
  exists z, py_int (get_none c "profile_id") = Some z /\ row_id row = Some z.
Proof.
  unfold new_Education. destruct (py_int _) as [z|]; [|discriminate].
  intros [= <-]. eauto.
Qed.

Lemma new_Experience_id c row :
  new_Experience c = Some row ->
  exists z, py_int (get_none c "profile_id") = Some z /\ row_id row = Some z.
Proof.
  unfold new_Experience. destruct (py_int _) as [z|]; [|discriminate].
  intros [= <-]. eauto.
Qed.

Lemma new_ClubExperience_id c row :
  new_ClubExperience c = Some row ->
  exists z, py_int (get_none c "profile_id") = Some z /\ row_id row = Some z.
Proof.
  unfold new_ClubExperience. destruct (py_int _) as [z|]; [|discriminate].
  intros [= <-]. eauto.
Qed.

Lemma new_Certification_id c row :
  new_Certification c = Some row ->
  exists z, py_int (get_none c "profile_id") = Some z /\ row_id row = Some z.
Proof.
  unfold new_Certification. destruct (py_int _) as [z|]; [|discriminate].
  intros [= <-]. eauto.
Qed.

(** The bulk upsert is idempotent: when a call of [insert_data] answers
    [True] for profiles with distinct integer identifiers and children
    that name these profiles, the same call on the store it left answers
    [True] again and leaves the store as it is: no profile row is added a
    second time and the children are not duplicated. *)
Theorem insert_data_twice_is_insert_data_once
    (db0 db1 : store)
    (profiles_rows educations_rows experiences_rows club_experiences_rows
     certifications_rows : list dict) :
  Forall profile_keys_ok profiles_rows ->
  NoDup (map (fun p => get_none p "profile_id") profiles_rows) ->
  Forall (child_of (map (fun p => get_none p "profile_id") profiles_rows))
         (educations_rows ++ experiences_rows ++ club_experiences_rows
          ++ certifications_rows)%list ->
  insert_data true db0 profiles_rows educations_rows experiences_rows
    club_experiences_rows certifications_rows = Answered db1 true ->
  insert_data true db1 profiles_rows educations_rows experiences_rows
    club_experiences_rows certifications_rows = Answered db1 true.
Proof.
  intros Hok Hnd Hch. unfold insert_data.
  destruct profiles_rows as [|p0 ps] eqn:HP; [now intros [= <-]|].
  rewrite <- HP in *. clear HP p0 ps. cbn [negb].
  apply Forall_app in Hch as (HcE & Hch). apply Forall_app in Hch as (HcX & Hch).
  apply Forall_app in Hch as (HcC & HcCe).
  set (ids := map (fun p => get_none p "profile_id") profiles_rows) in *.
  destruct (upsert_profiles (profiles db0) profiles_rows) as [profiles1|] eqn:Hup;
    [|discriminate].
  destruct (map_opt new_Education educations_rows) as [edus|] eqn:HE; [|discriminate].
  destruct (forallb (row_fits Education_columns) edus) eqn:HEv; [|discriminate].
  destruct (map_opt new_Experience experiences_rows) as [exps|] eqn:HX; [|discriminate].
  destruct (forallb (row_fits Experience_columns) exps) eqn:HXv; [|discriminate].
  destruct (map_opt new_ClubExperience club_experiences_rows) as [clubs|] eqn:HC;
    [|discriminate].
  destruct (forallb (row_fits ClubExperience_columns) clubs) eqn:HCv; [|discriminate].
  cbn [negb].
  pose proof (upsert_profiles_settles _ _ _ Hok Hnd Hup) as Hs.
  pose proof (upsert_profiles_fixed _ _ Hok Hs) as Hfix.
  pose proof (children_are_listed _ ids _ _ new_Education_id HcE HE) as HEi.
  pose proof (children_are_listed _ ids _ _ new_Experience_id HcX HX) as HXi.
  pose proof (children_are_listed _ ids _ _ new_ClubExperience_id HcC HC) as HCi.
  destruct certifications_rows as [|c0 cs] eqn:HCe.
  - intros [= <-]. cbn [profiles educations experiences club_experiences certifications].
    rewrite Hfix. now rewrite !replace_children_twice.
  - rewrite <- HCe in *.
    destruct (map_opt new_Certification certifications_rows) as [certs|] eqn:HCt;
      [|discriminate].
    destruct (forallb (row_fits Certification_columns) certs) eqn:HCtv; [|discriminate].
    cbn [negb].
    pose proof (children_are_listed _ ids _ _ new_Certification_id HcCe HCt) as HCti.
    intros [= <-]. cbn [profiles educations experiences club_experiences certifications].
    rewrite Hfix. now rewrite !replace_children_twice.
Qed.

Lemma id_in_other profile_ids z row :
  ~ In (PInt z) profile_ids ->
  has_id (PInt z) row = true ->
  negb (id_in profile_ids row) = true.
Proof.
  intros Hnotin Hrow. apply has_id_true in Hrow. unfold id_in. rewrite Hrow.
  apply negb_true_iff. destruct (existsb _ profile_ids) eqn:He; [|reflexivity].
  exfalso. apply Hnotin. apply existsb_exists in He as (y & Hy & Heq).
  destruct y; try discriminate. cbn in Heq. apply Z.eqb_eq in Heq. now subst.
Qed.

Lemma replace_children_keeps_others profile_ids table new_rows z :
  ~ In (PInt z) profile_ids ->
  List.filter (has_id (PInt z)) table
    `prefix_of` List.filter (has_id (PInt z)) (replace_children profile_ids table new_rows).
Proof.
  intros Hnotin. unfold replace_children. rewrite List.filter_app.
  rewrite filter_filter_all by (intros row; now apply id_in_other).
  now eexists.
Qed.

(** The bulk upsert touches the listed profiles only: however the call
    answers, the profile row found under an identifier that is not listed
    is the one found before, and the education, experience, club
    experience and certification rows stored for that identifier are kept,
    in their order. *)
Theorem insert_data_leaves_other_profiles_alone
    (reachable : bool) (db0 db1 : store) (answer : bool)
    (profiles_rows educations_rows experiences_rows club_experiences_rows
     certifications_rows : list dict) (z : Z) :
  Forall profile_keys_ok profiles_rows ->
  ~ In (PInt z) (map (fun p => get_none p "profile_id") profiles_rows) ->
  insert_data reachable db0 profiles_rows educations_rows experiences_rows
    club_experiences_rows certifications_rows = Answered db1 answer ->
  find (has_id (PInt z)) (profiles db1) = find (has_id (PInt z)) (profiles db0)
  /\ List.filter (has_id (PInt z)) (educations db0)
       `prefix_of` List.filter (has_id (PInt z)) (educations db1)
  /\ List.filter (has_id (PInt z)) (experiences db0)
       `prefix_of` List.filter (has_id (PInt z)) (experiences db1)
  /\ List.filter (has_id (PInt z)) (club_experiences db0)
       `prefix_of` List.filter (has_id (PInt z)) (club_experiences db1)
  /\ List.filter (has_id (PInt z)) (certifications db0)
       `prefix_of` List.filter (has_id (PInt z)) (certifications db1).
Proof.
  intros Hok Hnotin. unfold insert_data.
  assert (find (has_id (PInt z)) (profiles db0) = find (has_id (PInt z)) (profiles db0)
          /\ List.filter (has_id (PInt z)) (educations db0)
               `prefix_of` List.filter (has_id (PInt z)) (educations db0)
          /\ List.filter (has_id (PInt z)) (experiences db0)
               `prefix_of` List.filter (has_id (PInt z)) (experiences db0)
          /\ List.filter (has_id (PInt z)) (club_experiences db0)
               `prefix_of` List.filter (has_id (PInt z)) (club_experiences db0)
          /\ List.filter (has_id (PInt z)) (certifications db0)
               `prefix_of` List.filter (has_id (PInt z)) (certifications db0)) as Hsame
    by (repeat split; reflexivity).
  destruct profiles_rows as [|p0 ps] eqn:HP; [now intros [= <- <-]|].
  rewrite <- HP in *. clear HP p0 ps.
  destruct reachable; cbn [negb]; [|now intros [= <- <-]].
  destruct (upsert_profiles (profiles db0) profiles_rows) as [profiles1|] eqn:Hup;
    [|now intros [= <- <-]].
  pose proof (upsert_profiles_other _ _ _ z Hok Hnotin Hup) as Hfind.
  destruct (map_opt new_Education educations_rows) as [edus|]; [|discriminate].
  destruct (forallb (row_fits Education_columns) edus); cbn [negb];
    [|now intros [= <- <-]].
  destruct (map_opt new_Experience experiences_rows) as [exps|]; [|discriminate].
  destruct (forallb (row_fits Experience_columns) exps); cbn [negb];
    [|now intros [= <- <-]].
  destruct (map_opt new_ClubExperience club_experiences_rows) as [clubs|];
    [|discriminate].
  destruct (forallb (row_fits ClubExperience_columns) clubs); cbn [negb];
    [|now intros [= <- <-]].
  destruct certifications_rows as [|c0 cs] eqn:HCe.
  - intros [= <- <-].
    cbn [profiles educations experiences club_experiences certifications].
    repeat split; [exact Hfind|now apply replace_children_keeps_others..|reflexivity].
  - rewrite <- HCe in *.
    destruct (map_opt new_Certification certifications_rows) as [certs|];
      [|discriminate].
    destruct (forallb (row_fits Certification_columns) certs); cbn [negb];
      [|now intros [= <- <-]].
    intros [= <- <-].
    cbn [profiles educations experiences club_experiences certifications].
    repeat split; [exact Hfind|now apply replace_children_keeps_others..].
Qed.

End Pipeline.

(** ** Closed instances *)


(** C2 instance: the same URL submitted twice to an empty store. *)
Lemma C2_witness_same_url_twice :
  let meta := sample_meta "https://www.linkedin.com/in/asha" in
  let r := Responses true (Some (sample_response "Asha Rao" "Analyst" "Initech"))
                     store_reached in
  let st := BatchState empty_store 0 [] [] [] [] [] in
  let st1 := (process_profile stub_repr stub_ratio stub_extract None st meta r).1 in
  length (persisted (db st1) (url meta)) = 1%nat
  /\ process_profile stub_repr stub_ratio stub_extract None st1 meta r
     = (st1, Duplicate (PInt 1)).
Proof.
  intros meta r st st1.
  destruct (C2_second_submission_is_skipped stub_repr stub_ratio stub_extract None
              st st1 meta meta r r 1) as [Hone Hskip].
  - reflexivity.
  - simpl. lia.
  - vm_compute. reflexivity.
  - reflexivity.
  - split; [exact Hone|]. apply Hskip. reflexivity.
Defined.

(** C2 counterexample: the same URL submitted twice to an empty store,
    the duplicate query of the second iteration not reaching the store.
    One profile is stored, but the second submission is fetched and takes
    identifier 2, which the insert then turns down.  On a store whose
    maximum is -1 the first submission is saved as 0, which the test of
    the loop reads as not found: the second submission takes 1. *)
Lemma C2_counterexample_second_submission_takes_an_identifier :
  let meta := sample_meta "https://www.linkedin.com/in/asha" in
  let answer := Some (sample_response "Asha Rao" "Analyst" "Initech") in
  let r := batch_process_excel stub_repr stub_ratio stub_extract None
             [(meta, Responses true answer store_reached);
              (meta, Responses false answer store_reached)]
             None None true true empty_store in
  let r0 := batch_process_excel stub_repr stub_ratio stub_extract None
              [(meta, Responses true answer store_reached);
               (meta, Responses true answer store_reached)]
              None None true true
              (Store [[("profile_id", PInt (-1));
                       ("profile_url", PStr "https://www.linkedin.com/in/earlier")]]
                     [] [] [] []) in
  outcomes r = [Saved 1; SaveFailed 2]
  /\ length (persisted (final_db r) (url meta)) = 1%nat
  /\ outcomes r0 = [Saved 0; SaveFailed 1]
  /\ length (persisted (final_db r0) (url meta)) = 1%nat.
Proof. vm_compute. repeat split; reflexivity. Qed.


(** C5 counterexample: the store rejects the only profile of the batch;
    the lists returned for the spreadsheet write hold nothing of it. *)
Lemma C5_counterexample_failed_profile_not_returned :
  let r := batch_process_excel stub_repr stub_ratio stub_extract None
             [(sample_meta "https://www.linkedin.com/in/asha",
               Responses true (Some (sample_response "Asha Rao" "Analyst" "Initech"))
                         (InsertEnv true false true))]
             None None true true empty_store in
  outcomes r = [SaveFailed 1]
  /\ returned r = Some [[]; []; []; []; []]
  /\ final_db r = empty_store.
Proof. vm_compute. repeat split; reflexivity. Qed.

(** C5 instance: the same rejected profile, followed by one that is saved. *)
Lemma C5_witness_rejected_then_saved :
  let meta := sample_meta "https://www.linkedin.com/in/asha" in
  let r := Responses true (Some (sample_response "Asha Rao" "Analyst" "Initech"))
                     (InsertEnv true false true) in
  let next :=
    [(sample_meta "https://www.linkedin.com/in/bela",
      Responses true (Some (sample_response "Bela Roy" "Engineer" "Globex"))
                store_reached)] in
  let st := BatchState empty_store 0 [] [] [] [] [] in
  let st' := (process_profile stub_repr stub_ratio stub_extract None st meta r).1 in
  profiles_data st' = []
  /\ (process_profiles stub_repr stub_ratio stub_extract None st ((meta, r) :: next)).2
     = [SaveFailed 1; Saved 2].
Proof.
  cbn zeta.
  destruct (C5_failed_insert_keeps_profile_out_of_returned_rows
              stub_repr stub_ratio stub_extract None
              (BatchState empty_store 0 [] [] [] [] [])
              (process_profile stub_repr stub_ratio stub_extract None
                 (BatchState empty_store 0 [] [] [] [] [])
                 (sample_meta "https://www.linkedin.com/in/asha")
                 (Responses true (Some (sample_response "Asha Rao" "Analyst" "Initech"))
                            (InsertEnv true false true))).1
              (sample_meta "https://www.linkedin.com/in/asha")
              (Responses true (Some (sample_response "Asha Rao" "Analyst" "Initech"))
                         (InsertEnv true false true))
              1
              [(sample_meta "https://www.linkedin.com/in/bela",
                Responses true (Some (sample_response "Bela Roy" "Engineer" "Globex"))
                          store_reached)])
    as (Hp & _ & _ & _ & _ & _ & _ & Hloop).
  - vm_compute. reflexivity.
  - split; [exact Hp|]. rewrite Hloop. vm_compute. reflexivity.
Defined.

(** C6 counterexample: a date that is wholly absent, given as [None] or as
    an empty record, is not [N/A]; an education without any date has
    [Present] as its start and as its end. *)
Lemma C6_counterexample_absent_date_is_present :
  format_date stub_repr PNone <> Some "N/A"
  /\ format_date stub_repr (PDict []) <> Some "N/A"
  /\ normalize_education stub_repr (PDict [("school", PStr "IIT Delhi")])
     = Some (PDict [("institution_name", PStr "IIT Delhi");
                    ("degree", PStr "");
                    ("field_of_study", PStr "");
                    ("start_date", PStr "Present");
                    ("end_date", PStr "Present")]).
Proof. repeat split; vm_compute; congruence. Qed.

(** C6 instance: the cases on concrete dates. *)
Lemma C6_witness_three_dates :
  format_date stub_repr PNone = Some "Present"
  /\ format_date stub_repr
       (PDict [("day", PInt 1); ("month", PInt 5); ("year", PInt 2020)])
     = Some "05/2020"
  /\ format_date stub_repr (PDict [("day", PInt 1)]) = Some "N/A"
  /\ format_date stub_repr (PDict [("year", PInt 2020)]) = Some "00/2020".
Proof.
  split; [|split; [|split]].
  - apply (proj1 (C6_format_date_cases stub_repr PNone)). reflexivity.
  - destruct (C6_format_date_cases stub_repr
                (PDict [("day", PInt 1); ("month", PInt 5); ("year", PInt 2020)]))
      as (_ & H & _).
    exact (proj1 (H _ 5 2020 eq_refl eq_refl eq_refl)).
  - destruct (C6_format_date_cases stub_repr (PDict [("day", PInt 1)]))
      as (_ & _ & H & _).
    apply (H _ eq_refl); [discriminate|reflexivity].
  - destruct (C6_format_date_cases stub_repr (PDict [("year", PInt 2020)]))
      as (_ & _ & _ & _ & H).
    exact (H _ 2020 eq_refl eq_refl eq_refl).
Defined.

(** C7 counterexample: the existing file has no [Educations] sheet; the
    write fails as a whole. *)
Lemma C7_counterexample_missing_educations_sheet :
  write_to_excel (Some workbook_without_educations)
    [[("profile_id", PInt 2); ("profile_url", PStr "https://www.linkedin.com/in/asha")]]
    [] [] [] [] true
  = None.
Proof. reflexivity. Qed.

(** C7 instance: a file with the three first sheets only. *)
Lemma C7_witness_three_sheet_file :
  exists written,
    write_to_excel (Some three_sheet_workbook)
      [[("profile_id", PInt 2); ("profile_url", PStr "https://www.linkedin.com/in/asha")]]
      [] []
      [[("profile_id", PInt 2); ("club_name", PStr "Debate Club")]]
      [] true
    = Some written
    /\ read_excel written "Club Experiences"
       = Some (Frame ["profile_id"; "club_name"]
                     [[("profile_id", PInt 2); ("club_name", PStr "Debate Club")]]).
Proof.
  destruct (C7_only_the_two_later_sheets_may_be_missing three_sheet_workbook
              [[("profile_id", PInt 2);
                ("profile_url", PStr "https://www.linkedin.com/in/asha")]]
              [] []
              [[("profile_id", PInt 2); ("club_name", PStr "Debate Club")]]
              []) as (_ & _ & H).
  destruct (H _ _ _ eq_refl eq_refl eq_refl (fun _ _ => eq_refl))
    as (written & Hw & _ & _ & _ & Hclub & _).
  exists written. split; [exact Hw|exact Hclub].
Defined.

(** C8 counterexample: normalising the normalised sample record changes
    it (the country is lost, the skills are joined character by character,
    the educations are dropped, the dates become [Present]). *)
Lemma C8_counterexample_normalize_not_idempotent :
  let x := sample_response "Asha Rao" "Analyst" "Initech" in
  (normalize stub_repr x ≫= normalize stub_repr) <> normalize stub_repr x
  /\ (fun y => field y "country") <$> normalize stub_repr x = Some (PStr "India")
  /\ (fun z => field z "country") <$> (normalize stub_repr x ≫= normalize stub_repr)
     = Some (PStr "").
Proof.
  cbn zeta. split; [|split]; [|reflexivity|reflexivity].
  intros H. vm_compute in H. congruence.
Qed.

(** C8 instance: the sample record, normalised once and twice. *)
Lemma C8_witness_sample_record :
  let x := sample_response "Asha Rao" "Analyst" "Initech" in
  exists y z,
    normalize stub_repr x = Some y
    /\ normalize stub_repr y = Some z
    /\ field z "full_name" = PStr "Asha Rao"
    /\ experience_texts z = experience_texts y.
Proof.
  cbn zeta.
  assert (normalize stub_repr (sample_response "Asha Rao" "Analyst" "Initech")
          = Some (default PNone
                    (normalize stub_repr (sample_response "Asha Rao" "Analyst" "Initech"))))
    as Hy by (vm_compute; reflexivity).
  destruct (C8_normalize_twice_keeps_same_named_fields stub_repr _ _ Hy)
    as (z & Hz & Hkept & Htexts).
  eexists. exists z. split; [exact Hy|]. split; [exact Hz|]. split; [|exact Htexts].
  rewrite (Hkept "full_name"); [reflexivity|]. simpl. auto.
Defined.

(** C10 instance: the company [.com] against a one-name reference set. *)
Lemma C10_witness_dot_com :
  normalize_company_name ".com" = Some ""
  /\ is_fortune_500 stub_ratio (Some ["Walmart"])
       [("full_name", PStr "Asha Rao");
        ("experiences", PList [PDict [("title", PStr "Analyst");
                                      ("company", PStr ".com")]])]
     = Some true.
Proof.
  split; [reflexivity|].
  apply (C10_empty_normalized_name_matches stub_ratio (Some ["Walmart"]) _
           [("title", PStr "Analyst"); ("company", PStr ".com")] [] ".com"
           "Walmart" []).
  - reflexivity.
  - reflexivity.
  - discriminate.
  - reflexivity.
  - reflexivity.
Defined.

(** Instance: a record without experiences. *)
Lemma classifiers_without_experiences_witness :
  is_leadership_role stub_extract [("full_name", PStr "Asha Rao")] 80 = Some false
  /\ is_fortune_500 stub_ratio (Some ["Walmart"]) [("full_name", PStr "Asha Rao")]
     = Some false
  /\ is_entrepreneur [("full_name", PStr "Asha Rao")] = Some false.
Proof.
  apply (classifiers_without_experiences stub_ratio stub_extract (Some ["Walmart"])
           [("full_name", PStr "Asha Rao")] 80).
  reflexivity.
Defined.

(** Instance: the title [Director of Engineering] under a threshold that
    no phrase can reach. *)
Lemma leadership_exact_token_decides_witness :
  is_leadership_role stub_extract
    (sample_profile (PStr "Asha Rao") "Director of Engineering" "Initech") 101
  = Some true.
Proof.
  apply (leadership_exact_token_decides stub_extract _
           [("title", PStr "Director of Engineering"); ("company", PStr "Initech")]
           [] "Director of Engineering" "director" 101).
  - reflexivity.
  - reflexivity.
  - simpl. auto.
  - vm_compute. auto.
Defined.

(** Instance: a phrase scored 75 is a leadership role at threshold 70,
    hence at threshold 60. *)
Lemma leadership_threshold_monotone_witness :
  is_leadership_role (fun _ _ _ => [("team lead", 75)])
    (sample_profile (PStr "Asha Rao") "Team Leed" "Initech") 60
  = Some true.
Proof.
  apply (leadership_threshold_monotone (fun _ _ _ => [("team lead", 75)]) _ 60 70).
  - lia.
  - vm_compute. reflexivity.
Defined.

(** Instance: the title [Co-Founder & CTO] on a record whose name is null. *)
Lemma entrepreneur_keyword_in_title_witness :
  is_entrepreneur (sample_profile PNone "Co-Founder & CTO" "Initech") = Some true.
Proof.
  apply (entrepreneur_keyword_in_title _
           [("title", PStr "Co-Founder & CTO"); ("company", PStr "Initech")]
           [] "Co-Founder & CTO" "founder").
  - reflexivity.
  - reflexivity.
  - simpl. auto.
  - vm_compute. reflexivity.
Defined.

(** Instance: Asha Rao at [Asha Rao Consulting], and an empty name at the
    same company. *)
Lemma entrepreneur_eponymous_company_witness :
  is_entrepreneur (sample_profile (PStr "Asha Rao") "Analyst" "Asha Rao Consulting")
  = Some true
  /\ is_entrepreneur (sample_profile (PStr "") "Analyst" "Asha Rao Consulting")
     = Some false.
Proof.
  split.
  - refine (proj2 (entrepreneur_eponymous_company
                     (sample_profile (PStr "Asha Rao") "Analyst" "Asha Rao Consulting")
                     [("title", PStr "Analyst"); ("company", PStr "Asha Rao Consulting")]
                     [] "Analyst" "Asha Rao Consulting" "Asha Rao"
                     eq_refl eq_refl eq_refl eq_refl eq_refl _ eq_refl eq_refl) _).
    + vm_compute. reflexivity.
    + discriminate.
  - refine (proj1 (entrepreneur_eponymous_company
                     (sample_profile (PStr "") "Analyst" "Asha Rao Consulting")
                     [("title", PStr "Analyst"); ("company", PStr "Asha Rao Consulting")]
                     [] "Analyst" "Asha Rao Consulting" ""
                     eq_refl eq_refl eq_refl eq_refl eq_refl _ eq_refl eq_refl) eq_refl).
    vm_compute. reflexivity.
Defined.

(** Instance: a null name and the title [Analyst]. *)
Lemma entrepreneur_raises_on_missing_name_witness :
  is_entrepreneur (sample_profile PNone "Analyst" "Initech") = None.
Proof.
  apply (entrepreneur_raises_on_missing_name _
           [("title", PStr "Analyst"); ("company", PStr "Initech")]
           [] "Analyst" "Initech").
  - reflexivity.
  - reflexivity.
  - vm_compute. reflexivity.
  - reflexivity.
  - reflexivity.
Defined.

(** Instance: a company name of three blanks, and a reference file that
    cannot be read. *)
Lemma fortune_500_errors_are_false_witness :
  is_fortune_500 stub_ratio (Some ["Walmart"])
    (sample_profile (PStr "Asha Rao") "Analyst" "   ") = Some false
  /\ is_fortune_500 stub_ratio None
       (sample_profile (PStr "Asha Rao") "Analyst" "Walmart") = Some false.
Proof.
  split.
  - destruct (fortune_500_errors_are_false stub_ratio (Some ["Walmart"])
                (sample_profile (PStr "Asha Rao") "Analyst" "   ")
                [("title", PStr "Analyst"); ("company", PStr "   ")] [] eq_refl)
      as (_ & _ & _ & H).
    apply (H "   "); reflexivity.
  - destruct (fortune_500_errors_are_false stub_ratio None
                (sample_profile (PStr "Asha Rao") "Analyst" "Walmart")
                [("title", PStr "Analyst"); ("company", PStr "Walmart")] [] eq_refl)
      as (_ & H & _).
    apply H. reflexivity.
Defined.

(** Instance: [Walmart Stores Inc.] against a two-name reference set, the
    similarity score being 0. *)
Lemma fortune_500_match_characterised_witness :
  is_fortune_500 stub_ratio (Some ["Apple"; "Walmart"])
    (sample_profile (PStr "Asha Rao") "Analyst" "Walmart Stores Inc.") = Some true.
Proof.
  apply (fortune_500_match_characterised stub_ratio (Some ["Apple"; "Walmart"]) _
           [("title", PStr "Analyst"); ("company", PStr "Walmart Stores Inc.")] []
           "Walmart Stores Inc."
           (default "" (normalize_company_name "Walmart Stores Inc."))
           ["Apple"; "Walmart"]).
  - reflexivity.
  - reflexivity.
  - reflexivity.
  - reflexivity.
  - discriminate.
  - vm_compute. reflexivity.
  - reflexivity.
  - exists "Walmart". split; [simpl; auto|vm_compute; reflexivity].
Defined.

(** Instance: a name of two blanks and a tab raises, [Initech Inc] does
    not. *)
Lemma normalize_company_name_raises_iff_blank_witness :
  normalize_company_name (String " " (String " " (String "009" ""))) = None
  /\ normalize_company_name "Initech Inc" <> None.
Proof.
  split.
  - apply (proj2 (normalize_company_name_raises_iff_blank
                    (String " " (String " " (String "009" ""))) eq_refl)).
    split; [discriminate|reflexivity].
  - intros H.
    apply (proj1 (normalize_company_name_raises_iff_blank "Initech Inc" eq_refl)) in H.
    destruct H as [_ H]. discriminate H.
Defined.

(** Instance: the shape of the normalised sample record. *)
Lemma normalize_gives_stable_shape_witness :
  exists y skills experiences,
    normalize stub_repr (sample_response "Asha Rao" "Analyst" "Initech") = Some y
    /\ field y "skills" = PStr skills
    /\ field y "experiences" = PList experiences
    /\ length experiences = 1%nat.
Proof.
  assert (is_Some (normalize stub_repr (sample_response "Asha Rao" "Analyst" "Initech")))
    as [y Hy] by (vm_compute; eauto).
  destruct (normalize_gives_stable_shape stub_repr _ y Hy)
    as ((skills & Hs) & (experiences & He & _ & Hlen) & _).
  exists y, skills, experiences. repeat split; [exact Hy|exact Hs|exact He|].
  apply (Hlen [PDict [("title", PStr "Analyst"); ("company", PStr "Initech");
                      ("starts_at", PDict [("day", PInt 1); ("month", PInt 9);
                                           ("year", PInt 2019)])]]).
  reflexivity.
Defined.

(** Instance: a record whose [skills] is null. *)
Lemma normalize_rejects_null_lists_witness :
  normalize stub_repr (PDict [("full_name", PStr "Asha Rao"); ("skills", PNone)]) = None.
Proof.
  apply (normalize_rejects_null_lists stub_repr _ "skills").
  - simpl. auto.
  - reflexivity.
Defined.

(** Instance: profile 8 inserted into the store that holds profile 7. *)
Lemma insert_then_lookup_witness :
  let profile_data := [("profile_id", PInt 8);
                       ("profile_url", PStr "https://www.linkedin.com/in/asha");
                       ("full_name", PStr "Asha Rao")] in
  let db1 := (insert_single_profile stub_repr store_reached store_with_profile_7
                profile_data [] [] [] []).1 in
  profile_exists true db1 "https://www.linkedin.com/in/asha" = PInt 8
  /\ 8 <= get_max_profile_id true db1.
Proof.
  cbn zeta.
  apply (insert_then_lookup stub_repr store_reached store_with_profile_7 _
           [("profile_id", PInt 8);
            ("profile_url", PStr "https://www.linkedin.com/in/asha");
            ("full_name", PStr "Asha Rao")] [] [] [] []).
  - vm_compute. reflexivity.
  - reflexivity.
  - reflexivity.
Defined.

(** Instance: the maximum of the store that holds profile 7. *)
Lemma get_max_profile_id_is_the_maximum_witness :
  7 <= get_max_profile_id true store_with_profile_7.
Proof.
  apply (proj1 (get_max_profile_id_is_the_maximum store_with_profile_7) 7).
  simpl. auto.
Defined.

(** Instance: two new profiles on the store that holds profile 7. *)
Lemma batch_keeps_ids_and_urls_distinct_witness :
  let db1 := final_db (batch_process_excel stub_repr stub_ratio stub_extract None
                         two_new_profiles None None true true store_with_profile_7) in
  ids_distinct db1 /\ urls_distinct db1.
Proof.
  cbn zeta.
  destruct (batch_keeps_ids_and_urls_distinct stub_repr stub_ratio stub_extract None
              two_new_profiles None None true true store_with_profile_7) as [Hi Hu].
  split.
  - apply Hi. split; repeat constructor; [simpl; eauto|].
    rewrite list_elem_of_In. simpl. tauto.
  - apply Hu. intros u. unfold persisted. simpl.
    destruct (url_matches _ _); simpl; lia.
Defined.

(** Instance: the identifier 8 assigned on the store that holds 7. *)
Lemma batch_assigns_fresh_ids_witness : 7 < 8.
Proof.
  apply (batch_assigns_fresh_ids stub_repr stub_ratio stub_extract None
           two_new_profiles None None true store_with_profile_7 7 8).
  - simpl. auto.
  - vm_compute. auto.
Defined.

(** Instance: two entries under the limit 1. *)
Lemma batch_respects_the_limit_witness :
  (length (outcomes (batch_process_excel stub_repr stub_ratio stub_extract None
                       two_new_profiles (Some 1%Z) None true true store_with_profile_7))
   <= Z.to_nat 1%Z)%nat.
Proof.
  apply (proj2 (batch_respects_the_limit stub_repr stub_ratio stub_extract None
                  two_new_profiles (Some 1) None true true store_with_profile_7) 1).
  - reflexivity.
  - lia.
Defined.

(** Instance: the URL of the three-sheet workbook, submitted again. *)
Lemma batch_skips_urls_already_in_the_spreadsheet_witness :
  batch_process_excel stub_repr stub_ratio stub_extract None
    [(sample_meta "https://www.linkedin.com/in/earlier",
      Responses true (Some (sample_response "Earlier Person" "Analyst" "Initech"))
                store_reached)]
    None (Some three_sheet_workbook) true true empty_store
  = BatchResult empty_store (Some [[]; []; []; []]) [].
Proof.
  apply batch_skips_urls_already_in_the_spreadsheet.
  repeat constructor.
Defined.

(** Instance: a record with a club experience, prepared under
    identifier 3. *)
Lemma prepared_rows_carry_the_profile_id_witness :
  exists p,
    prepare_profile stub_repr stub_ratio stub_extract None
      (sample_profile (PStr "Asha Rao") "Secretary" "Debate Club")
      (sample_meta "https://www.linkedin.com/in/asha") 3 = Some p
    /\ Forall (fun row => get_none row "profile_id" = PInt 3)
              (current_educations p ++ current_experiences p
               ++ current_club_experiences p ++ current_certifications p)%list.
Proof.
  assert (is_Some (prepare_profile stub_repr stub_ratio stub_extract None
                     (sample_profile (PStr "Asha Rao") "Secretary" "Debate Club")
                     (sample_meta "https://www.linkedin.com/in/asha") 3))
    as [p Hp] by (vm_compute; eauto).
  exists p. split; [exact Hp|].
  exact (prepared_rows_carry_the_profile_id stub_repr stub_ratio stub_extract None _ _ _ _ Hp).
Defined.

(** Instance: the one experience of the record is a club experience. *)
Lemma experiences_are_partitioned_witness :
  exists p,
    prepare_profile stub_repr stub_ratio stub_extract None
      (sample_profile (PStr "Asha Rao") "Secretary" "Debate Club")
      (sample_meta "https://www.linkedin.com/in/asha") 3 = Some p
    /\ current_experiences p = []
    /\ current_club_experiences p
       = [club_exp stub_repr 3
            [("title", PStr "Secretary"); ("company", PStr "Debate Club")]].
Proof.
  assert (is_Some (prepare_profile stub_repr stub_ratio stub_extract None
                     (sample_profile (PStr "Asha Rao") "Secretary" "Debate Club")
                     (sample_meta "https://www.linkedin.com/in/asha") 3))
    as [p Hp] by (vm_compute; eauto).
  exists p. split; [exact Hp|].
  destruct (experiences_are_partitioned stub_repr stub_ratio stub_extract None _ _ _ _
              [PDict [("title", PStr "Secretary"); ("company", PStr "Debate Club")]]
              Hp eq_refl)
    as (exps & Hraw & Hexp & Hclub).
  destruct exps as [|e [|e' exps]]; try discriminate Hraw.
  injection Hraw as <-. rewrite Hexp, Hclub. split; reflexivity.
Defined.

(** Instance: the URL of the three-sheet workbook written again under
    identifier 2. *)
Lemma appended_profiles_replace_rows_of_the_same_url_witness :
  exists written sheet,
    write_to_excel (Some three_sheet_workbook)
      [[("profile_id", PInt 2);
        ("profile_url", PStr "https://www.linkedin.com/in/earlier")]]
      [] [] [] [] true = Some written
    /\ read_excel written "Profiles" = Some sheet
    /\ List.filter (url_matches (PStr "https://www.linkedin.com/in/earlier")) (rows sheet)
       = [[("profile_id", PInt 2);
           ("profile_url", PStr "https://www.linkedin.com/in/earlier")]].
Proof.
  assert (is_Some (write_to_excel (Some three_sheet_workbook)
                     [[("profile_id", PInt 2);
                       ("profile_url", PStr "https://www.linkedin.com/in/earlier")]]
                     [] [] [] [] true))
    as [written Hw] by (vm_compute; eauto).
  destruct (appended_profiles_replace_rows_of_the_same_url _ _ _ _ _ _ _
              (Frame ["profile_id"; "profile_url"]
                     [[("profile_id", PInt 1);
                       ("profile_url", PStr "https://www.linkedin.com/in/earlier")]])
              Hw eq_refl eq_refl) as (sheet & Hs & H); [discriminate|].
  exists written, sheet. split; [exact Hw|]. split; [exact Hs|].
  rewrite (proj1 (H "https://www.linkedin.com/in/earlier")); [reflexivity|].
  simpl. auto.
Defined.

(** Instance: the input sheet gives the profile URL twice and nothing
    else. *)
Lemma process_excel_file_keeps_profile_urls_witness :
  map url (process_excel_file (Some input_sheet))
  = ["https://www.linkedin.com/in/asha"; "https://www.linkedin.com/in/asha"].
Proof.
  rewrite (proj2 (process_excel_file_keeps_profile_urls (Some input_sheet))
             input_sheet eq_refl eq_refl eq_refl).
  - vm_compute. reflexivity.
  - repeat (apply List.Forall_cons;
            [first [left; reflexivity|right; eexists; reflexivity]|]).
    apply List.Forall_nil.
Defined.

(** Instance: the number 42 in the fifth row. *)
Lemma process_excel_file_gives_up_on_one_bad_cell_witness :
  process_excel_file (Some input_sheet_with_number) = [].
Proof.
  apply (proj2 (proj2 process_excel_file_gives_up_on_one_bad_cell)
           input_sheet_with_number
           [("Full Name", PStr "Dev Jain"); ("Linkedin Profile", PInt 42);
            ("Batch", PStr "B2")] 42).
  - simpl. auto 6.
  - reflexivity.
Defined.

(** Instance: the two new profiles, saved as 8 and 9. *)
Lemma returned_rows_belong_to_saved_profiles_witness :
  let r := batch_process_excel stub_repr stub_ratio stub_extract None
             two_new_profiles None None true true store_with_profile_7 in
  exists returned_profiles others,
    returned r = Some (returned_profiles :: others)
    /\ map (fun row => get_none row "profile_id") returned_profiles = [PInt 8; PInt 9].
Proof.
  cbn zeta.
  assert (exists returned_profiles others,
            returned (batch_process_excel stub_repr stub_ratio stub_extract None
                        two_new_profiles None None true true store_with_profile_7)
            = Some (returned_profiles :: others))
    as (returned_profiles & others & Hr) by (vm_compute; eauto).
  exists returned_profiles, others. split; [exact Hr|].
  destruct (returned_rows_belong_to_saved_profiles stub_repr stub_ratio stub_extract None
              two_new_profiles None None true true store_with_profile_7 _ _ Hr)
    as (Hids & _).
  rewrite Hids. vm_compute. reflexivity.
Defined.

(** Instance: a null name in the second record. *)
Lemma an_exception_ends_the_batch_witness :
  let r := batch_process_excel stub_repr stub_ratio stub_extract None
             profiles_with_null_name None None true true empty_store in
  (exists before i, outcomes r = (before ++ [Raised i])%list
                    /\ existsb raised before = false)
  /\ In 1 (omap row_id (profiles (final_db r))).
Proof.
  cbn zeta.
  destruct (an_exception_ends_the_batch stub_repr stub_ratio stub_extract None
              profiles_with_null_name None None true true empty_store)
    as (Hlast & Hsaved).
  - vm_compute. reflexivity.
  - split; [exact Hlast|].
    rewrite List.Forall_forall in Hsaved. apply Hsaved. vm_compute. auto.
Defined.

(** Instance: profile 7 updated and profile 8 created with their
    children, then the same call again. *)
Lemma insert_data_twice_is_insert_data_once_witness :
  exists db1,
    insert_data stub_repr stub_int true store_with_profile_7 bulk_profiles
      bulk_educations bulk_experiences [] [] = Answered db1 true
    /\ insert_data stub_repr stub_int true db1 bulk_profiles
         bulk_educations bulk_experiences [] [] = Answered db1 true
    /\ length (profiles db1) = 2%nat.
Proof.
  assert (exists db1,
            insert_data stub_repr stub_int true store_with_profile_7 bulk_profiles
              bulk_educations bulk_experiences [] [] = Answered db1 true
            /\ length (profiles db1) = 2%nat)
    as (db1 & H1 & Hlen) by (vm_compute; eauto).
  exists db1. split; [exact H1|]. split; [|exact Hlen].
  apply (insert_data_twice_is_insert_data_once stub_repr stub_int
           store_with_profile_7 db1 bulk_profiles bulk_educations bulk_experiences
           [] []); [| | |exact H1].
  - repeat constructor; simpl;
      try (rewrite list_elem_of_In; simpl); try (intuition discriminate); eauto.
  - repeat constructor; rewrite list_elem_of_In; simpl; intuition discriminate.
  - repeat constructor; eexists; (split; [reflexivity|simpl; auto]).
Defined.

(** Instance: profile 8 and its education are written; what the store
    holds for profile 7 stays. *)
Lemma insert_data_leaves_other_profiles_alone_witness :
  exists db1,
    insert_data stub_repr stub_int true store_with_education_of_7
      [[("profile_id", PInt 8); ("full_name", PStr "Asha Rao")]]
      [[("profile_id", PInt 8); ("institution_name", PStr "IIT Bombay")]]
      [] [] [] = Answered db1 true
    /\ find (has_id (PInt 7)) (profiles db1)
       = find (has_id (PInt 7)) (profiles store_with_education_of_7)
    /\ List.filter (has_id (PInt 7)) (educations store_with_education_of_7)
         `prefix_of` List.filter (has_id (PInt 7)) (educations db1).
Proof.
  assert (exists db1,
            insert_data stub_repr stub_int true store_with_education_of_7
              [[("profile_id", PInt 8); ("full_name", PStr "Asha Rao")]]
              [[("profile_id", PInt 8); ("institution_name", PStr "IIT Bombay")]]
              [] [] [] = Answered db1 true)
    as (db1 & H1) by (vm_compute; eauto).
  exists db1. split; [exact H1|].
  assert (Forall profile_keys_ok
            [[("profile_id", PInt 8); ("full_name", PStr "Asha Rao")]]) as Hok.
  { repeat constructor; simpl;
      try (rewrite list_elem_of_In; simpl); try (intuition discriminate); eauto. }
  assert (~ In (PInt 7)
            (map (fun p => get_none p "profile_id")
               [[("profile_id", PInt 8); ("full_name", PStr "Asha Rao")]])) as Hother
    by (simpl; intuition discriminate).
  destruct (insert_data_leaves_other_profiles_alone stub_repr stub_int true
              store_with_education_of_7 db1 true _ _ _ _ _ 7 Hok Hother H1)
    as (Hfind & Hedu & _).
  split; [exact Hfind|exact Hedu].
Defined.
